(** * ros2_aruco: the ArUco node and its two generator scripts

    A shallow embedding of
      - ros2_aruco/aruco_node.py                        (Module Aruco_node)
      - ros2_aruco/charuco_generate_board.py            (Module Charuco_generate_board)
      - ros2_aruco/aruco_generate_custom_dictionary.py  (Module Aruco_generate_custom_dictionary)

    The vision library (cv2), cv_bridge, os.path and the quaternion helper
    are outside these files: they are taken as interfaces (type classes)
    whose operations are total functions on typed inputs.  What the Python
    code itself can raise (AttributeError, UnboundLocalError, IndexError,
    ValueError) is modelled explicitly. *)

From Stdlib Require Import ZArith String Ascii List Floats Lia.
From stdpp Require Import base option list gmap strings pretty.

Open Scope Z_scope.
Set Warnings "-inexact-float".

(** ** Python values, exceptions and the effect monad *)

Inductive PyExc : Type :=
| AttributeError (name : string)
| UnboundLocalError (name : string)
| IndexError
| ValueError (msg : string)
| ParameterNotDeclaredException (name : string)
| cv2_error (msg : string)
| SystemExit (code : Z).

(** A computation that may raise. *)
Definition Exc (A : Type) : Type := PyExc + A.

(** A computation that leaves a trace of effects of type [E] and then
    either raises or returns.  The trace produced before an exception is
    kept: a log line written before a crash has been written. *)
Definition W (E A : Type) : Type := list E * Exc A.

Definition emit {E} (e : E) : W E unit := ([e], inr tt).
Definition raise {E A} (x : PyExc) : W E A := ([], inl x).
Definition lift {E A} (r : Exc A) : W E A := ([], r).

#[global] Instance W_ret {E} : MRet (W E) := fun _ a => ([], inr a).

#[global] Instance W_bind {E} : MBind (W E) := fun _ _ f m =>
  match m with
  | (t, inl x) => (t, inl x)
  | (t, inr a) => let '(t', r) := f a in (t ++ t', r)
  end.

Definition trace {E A} (m : W E A) : list E := fst m.
Definition result {E A} (m : W E A) : Exc A := snd m.

(** Python truthiness of [Optional[int]] and [Optional[str]], and [x or y]. *)
Definition truthy_int (x : option Z) : bool :=
  match x with
  | None => false
  | Some v => negb (v =? 0)
  end.

Definition or_int (x : option Z) (y : Z) : Z :=
  match x with
  | Some v => if truthy_int x then v else y
  | None => y
  end.

Definition truthy_str (x : option string) : bool :=
  match x with
  | None => false
  | Some s => negb (String.eqb s "")
  end.

(** [l[i]] for [i >= 0]: IndexError out of range. *)
Definition getitem {A} (l : list A) (i : nat) : Exc A :=
  match l !! i with
  | Some a => inr a
  | None => inl IndexError
  end.

(** [l.index(x)]: position of the first occurrence, ValueError if absent. *)
Fixpoint list_index (l : list string) (x : string) : Exc Z :=
  match l with
  | [] => inl (ValueError "x not in list")
  | y :: l' =>
      if String.eqb y x then inr 0
      else match list_index l' x with
           | inr n => inr (n + 1)
           | inl e => inl e
           end
  end.

Definition newline : string := String "010" EmptyString.

(** ** numpy arrays of the shapes the code handles *)

Definition Vec3 : Type := float * float * float.
Definition Mat3 : Type := Vec3 * Vec3 * Vec3.
Definition Vec4 : Type := float * float * float * float.
Definition Mat4 : Type := Vec4 * Vec4 * Vec4 * Vec4.
(** [float64[9]], the field [k] of CameraInfo. *)
Definition Array9 : Type :=
  float * float * float * float * float * float * float * float * float.

(** [np.reshape(np.array(k), (3, 3))], row major. *)
Definition reshape_3_3 (k : Array9) : Mat3 :=
  let '(k0, k1, k2, k3, k4, k5, k6, k7, k8) := k in
  ((k0, k1, k2), (k3, k4, k5), (k6, k7, k8)).

(** [np.eye(4)] *)
Definition eye4 : Mat4 :=
  ((1, 0, 0, 0), (0, 1, 0, 0), (0, 0, 1, 0), (0, 0, 0, 1))%float.

(** [m[0:3, 0:3] = r] *)
Definition set_block_3_3 (m : Mat4) (r : Mat3) : Mat4 :=
  let '((_, _, _, m03), (_, _, _, m13), (_, _, _, m23), row3) := m in
  let '((r00, r01, r02), (r10, r11, r12), (r20, r21, r22)) := r in
  ((r00, r01, r02, m03), (r10, r11, r12, m13), (r20, r21, r22, m23), row3).

(** ** The external libraries *)

(** What an attribute of the module [cv2.aruco] can be. *)
Inductive ArucoAttr : Type :=
| AInt (value : Z)
| AFunction
| AClass.

Inductive PyType : Type := TInt | TFunction | TType.

Definition type (a : ArucoAttr) : PyType :=
  match a with
  | AInt _ => TInt
  | AFunction => TFunction
  | AClass => TType
  end.

#[global] Instance PyType_eq_dec : EqDecision PyType.
Proof. solve_decision. Defined.

(** [cv2.aruco.DetectorParameters]: only the field the node assigns. *)
Record DetectorParameters : Type := {
  cornerRefinementMethod : Z
}.

(** [cv2.aruco.CharucoBoard_create(squaresX, squaresY, squareLength,
    markerLength, dictionary)]: the board is the record of its arguments. *)
Record CharucoBoard (Dictionary : Type) : Type := CharucoBoard_create {
  squaresX : Z;
  squaresY : Z;
  squareLength : float;
  markerLength : float;
  board_dictionary : Dictionary
}.
Arguments CharucoBoard_create {Dictionary}.
Arguments squaresX {Dictionary}.
Arguments squaresY {Dictionary}.
Arguments squareLength {Dictionary}.
Arguments markerLength {Dictionary}.
Arguments board_dictionary {Dictionary}.

(** The value of [cv2.aruco.estimatePoseSingleMarkers]: a tuple of two or
    of three arrays, depending on the library version.  [rvecs] and [tvecs]
    have shape (N, 1, 3): the list holds [rvecs[i][0]]. *)
Inductive PoseEstimate : Type :=
| Tuple2 (rvecs tvecs : list Vec3)
| Tuple3 (rvecs tvecs : list Vec3) (objPoints : list Vec3).

Class Cv2 : Type := {
  Mat : Type;
  Corners : Type;
  Dictionary : Type;
  CharucoCorners : Type;
  CharucoIds : Type;
  (** [cv2.__version__] *)
  __version__ : string;
  (** the attributes of [cv2.aruco], in the order of [dir(cv2.aruco)] *)
  aruco_namespace : list (string * ArucoAttr);
  Dictionary_get : ArucoAttr -> Exc Dictionary;
  Dictionary_create : Z -> Z -> Z -> Dictionary;
  DetectorParameters_create : DetectorParameters;
  (** corners, ids (None when nothing is found; shape (N, 1): the list
      holds [marker_ids[i][0]]), rejected candidates *)
  detectMarkers :
    Mat -> Dictionary -> DetectorParameters -> Corners * option (list Z) * Corners;
  estimatePoseSingleMarkers :
    Corners -> float -> option Mat3 -> option (list float) -> PoseEstimate;
  (** [cv2.Rodrigues(v)[0]] *)
  Rodrigues : Vec3 -> Mat3;
  interpolateCornersCharuco :
    Corners -> list Z -> Mat -> CharucoBoard Dictionary ->
    Z * CharucoCorners * CharucoIds;
  (** success, rvec, tvec (both of shape (3, 1)) *)
  estimatePoseCharucoBoard :
    CharucoCorners -> CharucoIds -> CharucoBoard Dictionary ->
    option Mat3 -> option (list float) -> bool * Vec3 * Vec3;
  (** [board.draw((w, h))] *)
  draw : CharucoBoard Dictionary -> Z * Z -> Mat;
  (** [np.zeros((h, w), dtype=np.uint8)] *)
  zeros : Z * Z -> Mat;
  drawMarker : Dictionary -> Z -> Z -> Mat -> Z -> Mat;
  (** [cv2.imwrite(path, img)]: whether the file was written *)
  imwrite : string -> Mat -> bool
}.

(** [os.path] *)
Class OsPath : Type := {
  abspath : string -> string
}.

Section Aruco_namespace.
Context `{cv2 : Cv2}.

(** [cv2.aruco.__getattribute__(name)] *)
Fixpoint lookup_attr (ns : list (string * ArucoAttr)) (name : string)
  : Exc ArucoAttr :=
  match ns with
  | [] => inl (AttributeError name)
  | (n, a) :: ns' => if String.eqb n name then inr a else lookup_attr ns' name
  end.

Definition __getattribute__ (name : string) : Exc ArucoAttr :=
  lookup_attr aruco_namespace name.

(** [[s for s in dir(cv2.aruco) if s.startswith("DICT")]] *)
Definition dict_options : list string :=
  filter (fun s => String.prefix "DICT" s = true) (map fst aruco_namespace).
End Aruco_namespace.

#[global] Instance Exc_ret : MRet Exc := fun _ a => inr a.
#[global] Instance Exc_bind : MBind Exc := fun _ _ f m =>
  match m with
  | inl x => inl x
  | inr a => f a
  end.

(** [for x in l: body(x)] *)
Fixpoint for_each {E A} (l : list A) (body : A -> W E unit) : W E unit :=
  match l with
  | [] => mret tt
  | x :: l' => body x ;; for_each l' body
  end.

(** [str(n)] for an int *)
Definition str (n : Z) : string := pretty n.

(** ** The generator scripts *)

(** What a script does to the outside world. *)
Inductive ScriptEffect : Type :=
| Stdout (line : string)                  (* print(line) *)
| Draw (size : Z * Z)                     (* board.draw(size) *)
| Imwrite (path : string) (written : bool) (* cv2.imwrite(path, img) and its value *).

Module Charuco_generate_board.
Section Script.
Context `{cv2 : Cv2} `{os_path : OsPath}.

(** The value of [parser.parse_args()]. *)
Record Namespace : Type := {
  square_x : Z;
  square_y : Z;
  square_length : float;
  marker_length : float;
  path : string;
  out_x : option Z;
  out_y : option Z;
  dictionary : string
}.

(** Lines 52-77: [main] from the namespace [args] that line 51 has
    returned. *)
Definition main (args : Namespace) : W ScriptEffect unit :=
  let args_out_x := or_int (out_x args) (300 * square_x args) in
  let args_out_y := or_int (out_y args) (300 * square_y args) in
  match dictionary_id ← __getattribute__ (dictionary args);
        Dictionary_get dictionary_id with
  | inl (AttributeError _) =>
      emit (Stdout ("unrecognized dictionary id: " +:+ dictionary args));;
      emit (Stdout "Valid options:");;
      for_each dict_options (fun s => emit (Stdout s))
  | inl e => raise e
  | inr dictionary =>
      let board := CharucoBoard_create (square_x args) (square_y args)
                     (square_length args) (marker_length args) dictionary in
      emit (Draw (args_out_x, args_out_y));;
      let imboard := draw board (args_out_x, args_out_y) in
      let written := imwrite (path args) imboard in
      emit (Imwrite (path args) written);;
      let abs_path := abspath (path args) in
      if negb written
      then emit (Stdout ("Failed to write checkerboard to " +:+ abs_path))
      else emit (Stdout ("Succesfully wrote checkerboard to " +:+ abs_path))
  end.

(** The options as they stand on the command line, each value converted
    by its [type=]; [None] where the option is absent. *)
Record CommandLine : Type := {
  given_square_x : option Z;
  given_square_y : option Z;
  given_square_length : option float;
  given_marker_length : option float;
  given_path : option string;
  given_out_x : option Z;
  given_out_y : option Z;
  given_dictionary : option string
}.

(** Lines 15-51: [parser.parse_args()].  An absent option takes its
    default.  --dictionary has [choices=dict_options]: a value that is not
    among them makes argparse end the process with status 2, its message
    on stderr, which the trace does not record.  argparse does not hold the
    default of an option against its choices. *)
Definition parse_args (argv : CommandLine) : Exc Namespace :=
  dictionary ← match given_dictionary argv with
               | None => mret "DICT_5X5_250"
               | Some s =>
                   if decide (s ∈ dict_options) then mret s
                   else inl (SystemExit 2)
               end;
  mret {| square_x := default 7 (given_square_x argv);
          square_y := default 5 (given_square_y argv);
          square_length := default 0.1%float (given_square_length argv);
          marker_length := default 0.08%float (given_marker_length argv);
          path := default "./checkerboard.tiff" (given_path argv);
          out_x := given_out_x argv;
          out_y := given_out_y argv;
          dictionary := dictionary |}.

(** [main()] from the command line on: lines 15-51, then lines 52-77. *)
Definition run (argv : CommandLine) : W ScriptEffect unit :=
  args ← lift (parse_args argv); main args.
End Script.
End Charuco_generate_board.

Module Aruco_generate_custom_dictionary.
Section Script.
Context `{cv2 : Cv2}.

Record Namespace : Type := {
  size : Z;
  num : Z;
  bits : Z;
  seed : Z
}.

(** [range(n)] *)
Definition range (n : Z) : list Z := map Z.of_nat (seq 0 (Z.to_nat n)).

(** ["{:04d}".format(i)] for [i >= 0]: zero-padded to four digits. *)
Definition format_04d (i : Z) : string :=
  let s := str i in
  String.concat "" (replicate (4 - String.length s)%nat "0") +:+ s.

Definition main (args : Namespace) : W ScriptEffect unit :=
  let dictionary := Dictionary_create (num args) (bits args) (seed args) in
  for_each (range (num args)) (fun i =>
    let image := zeros (size args, size args) in
    let image := drawMarker dictionary i (size args) image 1 in
    let file := "marker_" +:+ format_04d i +:+ ".png" in
    emit (Imwrite file (imwrite file image))).
End Script.
End Aruco_generate_custom_dictionary.

(** ** ROS messages *)

Record Time : Type := { sec : Z; nanosec : Z }.
Record Header : Type := { stamp : Time; frame_id : string }.
Record Point : Type := { point_x : float; point_y : float; point_z : float }.
Record Quaternion : Type := {
  quat_x : float; quat_y : float; quat_z : float; quat_w : float
}.
Record Pose : Type := { position : Point; orientation : Quaternion }.
Record Vector3 : Type := { vec_x : float; vec_y : float; vec_z : float }.
Record Transform : Type := { translation : Vector3; rotation : Quaternion }.
Record TransformStamped : Type := {
  tf_header : Header;
  child_frame_id : string;
  transform : Transform
}.
Record PoseArray : Type := { pa_header : Header; pa_poses : list Pose }.
Record ArucoMarkers : Type := {
  am_header : Header;
  marker_ids : list Z;
  am_poses : list Pose
}.
(** ros2_aruco_interfaces/ChArUcoBoard: the field the node assigns. *)
Record ChArUcoBoard : Type := { board_pose : Pose }.
Record CameraInfo : Type := {
  ci_header : Header;
  k : Array9;
  d : list float
}.
Record Image : Type := {
  img_header : Header;
  height : Z;
  width : Z;
  encoding : string;
  data : list Z
}.

Inductive Message : Type :=
| MPoseArray (m : PoseArray)
| MArucoMarkers (m : ArucoMarkers)
| MChArUcoBoard (m : ChArUcoBoard).

(** What the node does to the outside world. *)
Inductive Effect : Type :=
| LogError (msg : string)                       (* self.get_logger().error(msg) *)
| LogWarn (msg : string)                        (* self.get_logger().warn(msg) *)
| Publish (topic : string) (msg : Message)      (* publisher.publish(msg) *)
| SendTransform (t : TransformStamped)          (* self.br.sendTransform(t) *).

(** ** rclpy: parameters, subscriptions, publishers *)

Inductive PyValue : Type :=
| PyNone
| PyBool (b : bool)
| PyInt (n : Z)
| PyFloat (x : float)
| PyStr (s : string).

(** rcl_interfaces/ParameterValue: the field of the parameter's type holds
    the value, the others their defaults.  A parameter declared with None
    and not overridden has no type: every field reads as its default, so
    [string_value] is the empty string (rclpy as of the node's date, where
    reading an unset parameter does not raise). *)
Record ParameterValue : Type := {
  bool_value : bool;
  integer_value : Z;
  double_value : float;
  string_value : string
}.

Definition get_parameter_value (v : PyValue) : ParameterValue :=
  match v with
  | PyNone =>
      {| bool_value := false; integer_value := 0; double_value := 0; string_value := "" |}
  | PyBool b =>
      {| bool_value := b; integer_value := 0; double_value := 0; string_value := "" |}
  | PyInt n =>
      {| bool_value := false; integer_value := n; double_value := 0; string_value := "" |}
  | PyFloat x =>
      {| bool_value := false; integer_value := 0; double_value := x; string_value := "" |}
  | PyStr s =>
      {| bool_value := false; integer_value := 0; double_value := 0; string_value := s |}
  end.

(** [self.declare_parameter(name, value)]: an override given at launch
    wins over the declared default. *)
Definition declare_parameter (overrides params : gmap string PyValue)
    (name : string) (value : PyValue) : gmap string PyValue :=
  <[name := default value (overrides !! name)]> params.

(** [self.get_parameter(name)] *)
Definition get_parameter (params : gmap string PyValue) (name : string)
  : Exc PyValue :=
  match params !! name with
  | Some v => inr v
  | None => inl (ParameterNotDeclaredException name)
  end.

Inductive MsgType : Type := CameraInfoT | ImageT.

Record Subscription : Type := { sub_type : MsgType; sub_topic : string }.

#[global] Instance MsgType_eq_dec : EqDecision MsgType.
Proof. solve_decision. Defined.

#[global] Instance Subscription_eq_dec : EqDecision Subscription.
Proof. solve_decision. Defined.

Record Publisher : Type := { pub_topic : string }.

Inductive TransformBroadcaster : Type := TransformBroadcaster_of_node.

(** [self.destroy_subscription(sub)]: the handle leaves the node's list. *)
Fixpoint destroy_subscription (subs : list Subscription) (sub : Subscription)
  : list Subscription :=
  match subs with
  | [] => []
  | s :: subs' =>
      if decide (s = sub) then subs' else s :: destroy_subscription subs' sub
  end.

(** [cv_bridge.CvBridge] *)
Class CvBridge `{cv2 : Cv2} : Type := {
  imgmsg_to_cv2 : Image -> string -> Mat
}.

(** ros2_aruco/transformations.py is not among the sources; the
    specification calls it "a standard rotation-matrix-to-quaternion
    conversion".  The conversion is a parameter of the development: an
    operation of this interface, whose result the node reads as
    [quat[0]] ... [quat[3]]. *)
Class Transformations : Type := {
  quaternion_from_matrix : Mat4 -> Vec4
}.

(** ** The node *)

Module Aruco_node.
Section Node.
Context `{cv2 : Cv2} `{bridge : !CvBridge} `{transformations : Transformations}.

(** The attributes of the node object.  [br] and [charuco_pose_pub] are
    assigned under a condition, so they may be absent; [camera_frame] holds
    a Python value that is tested against None.  [subscriptions] is the
    list rclpy keeps of the node's live subscriptions. *)
Record ArucoNode : Type := {
  subscriptions : list Subscription;
  marker_size : float;
  camera_frame : option string;
  aruco_dictionary : Dictionary;
  info_sub : Subscription;
  poses_pub : Publisher;
  markers_pub : Publisher;
  info_msg : option CameraInfo;
  intrinsic_mat : option Mat3;
  distortion : option (list float);
  aruco_parameters : DetectorParameters;
  publish_tf : bool;
  br : option TransformBroadcaster;
  publish_charuco_pose : bool;
  charuco_square_x : Z;
  charuco_square_y : Z;
  charuco_square_length : float;
  charuco_pose_pub : option Publisher
}.

(** *** __init__ *)

Definition declarations : list (string * PyValue) :=
  [ ("marker_size", PyFloat 0.0625);
    ("aruco_dictionary_id", PyStr "DICT_5X5_250");
    ("image_topic", PyStr "/camera/image_raw");
    ("camera_info_topic", PyStr "/camera/camera_info");
    ("camera_frame", PyNone);
    ("dictionary_bits", PyInt (-1));
    ("dictionary_size", PyInt (-1));
    ("dictionary_seed", PyInt 0);
    ("do_corner_refinement", PyBool false);
    ("publish_tf", PyBool false);
    ("publish_charuco_pose", PyBool false);
    ("charuco_square_x", PyInt 7);
    ("charuco_square_y", PyInt 5);
    ("charuco_square_length", PyFloat 0.1);
    ("corner_refinement_method", PyStr "CORNER_REFINE_NONE") ].

Definition declare_parameters (overrides : gmap string PyValue)
  : gmap string PyValue :=
  foldl (fun params '(name, value) => declare_parameter overrides params name value)
        ∅ declarations.

(** [self.get_parameter(name).get_parameter_value()] *)
Definition parameter (params : gmap string PyValue) (name : string)
  : W Effect ParameterValue :=
  lift (v ← get_parameter params name; mret (get_parameter_value v)).

(** The try block of the dictionary lookup: the local [dictionary_id]
    (unbound when the lookup itself raised) and what the block raised. *)
Definition try_dictionary_id (dictionary_id_name : string)
  : option ArucoAttr * option PyExc :=
  match __getattribute__ dictionary_id_name with
  | inl e => (None, Some e)
  | inr dictionary_id =>
      match __getattribute__ "DICT_5X5_100" with
      | inl e => (Some dictionary_id, Some e)
      | inr DICT_5X5_100 =>
          if decide (type dictionary_id ≠ type DICT_5X5_100)
          then (Some dictionary_id, Some (AttributeError ""))
          else (Some dictionary_id, None)
      end
  end.

(** Lines 81-93: the branch [dictionary_id_name != "CUSTOM"]. *)
Definition named_dictionary (dictionary_id_name : string)
  : W Effect Dictionary :=
  let '(dictionary_id, raised) := try_dictionary_id dictionary_id_name in
  match raised with
  | Some (AttributeError _) =>
      emit (LogError ("bad aruco_dictionary_id: " +:+ dictionary_id_name));;
      let options := String.concat newline dict_options in
      emit (LogError ("valid options: " +:+ options))
  | Some e => raise e
  | None => mret tt
  end;;
  match dictionary_id with
  | None => raise (UnboundLocalError "dictionary_id")
  | Some dictionary_id => lift (Dictionary_get dictionary_id)
  end.

Definition corner_refinement_methods : list string :=
  [ "CORNER_REFINE_NONE"; "CORNER_REFINE_SUBPIX";
    "CORNER_REFINE_CONTOUR"; "CORNER_REFINE_APRILTAG" ].

Definition __init__ (overrides : gmap string PyValue) : W Effect ArucoNode :=
  let params := declare_parameters overrides in
  marker_size ← parameter params "marker_size";
  dictionary_id_name ← parameter params "aruco_dictionary_id";
  image_topic ← parameter params "image_topic";
  info_topic ← parameter params "camera_info_topic";
  camera_frame ← parameter params "camera_frame";
  aruco_dictionary ←
    (if negb (String.eqb (string_value dictionary_id_name) "CUSTOM")
     then named_dictionary (string_value dictionary_id_name)
     else
       dict_bits ← parameter params "dictionary_bits";
       dict_size ← parameter params "dictionary_size";
       dict_seed ← parameter params "dictionary_seed";
       mret (Dictionary_create (integer_value dict_bits)
               (integer_value dict_size) (integer_value dict_seed)));
  let info_sub :=
    {| sub_type := CameraInfoT; sub_topic := string_value info_topic |} in
  let image_sub :=
    {| sub_type := ImageT; sub_topic := string_value image_topic |} in
  do_corner_refinement ← parameter params "do_corner_refinement";
  aruco_parameters ←
    (if bool_value do_corner_refinement
     then
       corner_refinement_method_value ← parameter params "corner_refinement_method";
       corner_refinement_method_index ←
         lift (list_index corner_refinement_methods
                 (string_value corner_refinement_method_value));
       mret {| cornerRefinementMethod := corner_refinement_method_index |}
     else mret DetectorParameters_create);
  publish_tf ← parameter params "publish_tf";
  publish_charuco_pose ← parameter params "publish_charuco_pose";
  charuco_square_x ← parameter params "charuco_square_x";
  charuco_square_y ← parameter params "charuco_square_x";
  charuco_square_length ← parameter params "charuco_square_length";
  mret {|
    subscriptions := [info_sub; image_sub];
    marker_size := double_value marker_size;
    camera_frame := Some (string_value camera_frame);
    aruco_dictionary := aruco_dictionary;
    info_sub := info_sub;
    poses_pub := {| pub_topic := "aruco_poses" |};
    markers_pub := {| pub_topic := "aruco_markers" |};
    info_msg := None;
    intrinsic_mat := None;
    distortion := None;
    aruco_parameters := aruco_parameters;
    publish_tf := bool_value publish_tf;
    br := if bool_value publish_tf then Some TransformBroadcaster_of_node else None;
    publish_charuco_pose := bool_value publish_charuco_pose;
    charuco_square_x := integer_value charuco_square_x;
    charuco_square_y := integer_value charuco_square_y;
    charuco_square_length := double_value charuco_square_length;
    charuco_pose_pub :=
      if bool_value publish_charuco_pose
      then Some {| pub_topic := "charuco_pose" |} else None
  |}.

(** *** info_callback *)

Definition info_callback (self : ArucoNode) (msg : CameraInfo)
  : W Effect ArucoNode :=
  mret {|
    info_msg := Some msg;
    intrinsic_mat := Some (reshape_3_3 (k msg));
    distortion := Some (d msg);
    subscriptions := destroy_subscription (subscriptions self) (info_sub self);
    marker_size := marker_size self;
    camera_frame := camera_frame self;
    aruco_dictionary := aruco_dictionary self;
    info_sub := info_sub self;
    poses_pub := poses_pub self;
    markers_pub := markers_pub self;
    aruco_parameters := aruco_parameters self;
    publish_tf := publish_tf self;
    br := br self;
    publish_charuco_pose := publish_charuco_pose self;
    charuco_square_x := charuco_square_x self;
    charuco_square_y := charuco_square_y self;
    charuco_square_length := charuco_square_length self;
    charuco_pose_pub := charuco_pose_pub self
  |}.

(** *** image_callback *)

(** Lines 205-218: the tuple is unpacked into three names when
    [cv2.__version__ > '4.0.0'] (a comparison of strings) and into two
    otherwise. *)
Definition unpack_pose_estimate (r : PoseEstimate)
  : Exc (list Vec3 * list Vec3) :=
  if String.ltb "4.0.0" __version__
  then match r with
       | Tuple3 rvecs tvecs _ => inr (rvecs, tvecs)
       | Tuple2 _ _ => inl (ValueError "not enough values to unpack (expected 3, got 2)")
       end
  else match r with
       | Tuple2 rvecs tvecs => inr (rvecs, tvecs)
       | Tuple3 _ _ _ => inl (ValueError "too many values to unpack (expected 2)")
       end.

(** Lines 226-228 (and 290-292): the quaternion of a rotation vector. *)
Definition quat_of_rvec (rvec : Vec3) : Vec4 :=
  let rot_matrix := set_block_3_3 eye4 (Rodrigues rvec) in
  quaternion_from_matrix rot_matrix.

Definition quaternion_msg (quat : Vec4) : Quaternion :=
  let '(q0, q1, q2, q3) := quat in
  {| quat_x := q0; quat_y := q1; quat_z := q2; quat_w := q3 |}.

(** Lines 221-233: the pose of one marker. *)
Definition marker_pose (tvec rvec : Vec3) : Pose :=
  let '(t0, t1, t2) := tvec in
  {| position := {| point_x := t0; point_y := t1; point_z := t2 |};
     orientation := quaternion_msg (quat_of_rvec rvec) |}.

(** Lines 240-254 (and 302-316): a transform is filled in and broadcast.
    [self.camera_frame or self.info.msg.header.frame_id]: the node has no
    attribute [info], so the right operand raises when it is evaluated;
    [self.br] raises when the broadcaster was never created. *)
Definition broadcast (self : ArucoNode) (img_msg : Image)
    (child : string) (trans : Vector3) (quat : Vec4) : W Effect unit :=
  frame ← (if truthy_str (camera_frame self)
           then mret (default "" (camera_frame self))
           else raise (AttributeError "info"));
  let t := {|
    tf_header := {| stamp := stamp (img_header img_msg); frame_id := frame |};
    child_frame_id := child;
    transform := {| translation := trans; rotation := quaternion_msg quat |}
  |} in
  match br self with
  | None => raise (AttributeError "br")
  | Some _ => emit (SendTransform t)
  end.

(** Lines 220-254: [for i, marker_id in enumerate(marker_ids)], from index
    [i] on, over the two messages being filled.  [ids] is the array the
    source calls [marker_ids]; the name is kept for the message field. *)
Fixpoint marker_loop (self : ArucoNode) (img_msg : Image)
    (rvecs tvecs : list Vec3) (i : nat) (ids : list Z)
    (msgs : PoseArray * ArucoMarkers) : W Effect (PoseArray * ArucoMarkers) :=
  match ids with
  | [] => mret msgs
  | marker_id :: ids' =>
      let '(pose_array, markers) := msgs in
      tvec ← lift (getitem tvecs i);
      rvec ← lift (getitem rvecs i);
      let pose := marker_pose tvec rvec in
      let quat := quat_of_rvec rvec in
      let pose_array :=
        {| pa_header := pa_header pose_array;
           pa_poses := pa_poses pose_array ++ [pose] |} in
      let markers :=
        {| am_header := am_header markers;
           am_poses := am_poses markers ++ [pose];
           marker_ids := marker_ids markers ++ [marker_id] |} in
      (if publish_tf self
       then
         let p := position pose in
         broadcast self img_msg ("marker_" +:+ str marker_id)
           {| vec_x := point_x p; vec_y := point_y p; vec_z := point_z p |} quat
       else mret tt);;
      marker_loop self img_msg rvecs tvecs (S i) ids' (pose_array, markers)
  end.

(** Lines 260-264: the board handed to the library. *)
Definition charuco_board (self : ArucoNode) : CharucoBoard Dictionary :=
  CharucoBoard_create (charuco_square_x self) (charuco_square_y self)
    (charuco_square_length self) (marker_size self) (aruco_dictionary self).

(** Lines 259-316. *)
Definition charuco_pose (self : ArucoNode) (img_msg : Image)
    (corners : Corners) (ids : list Z) (cv_image : Mat)
  : W Effect unit :=
  let board := charuco_board self in
  let '(n_corners, ch_corners, ch_ids) :=
    interpolateCornersCharuco corners ids cv_image board in
  if 0 <? n_corners
  then
    let '(success, rvec, tvec) :=
      estimatePoseCharucoBoard ch_corners ch_ids board
        (intrinsic_mat self) (distortion self) in
    if success : bool
    then
      let '(t0, t1, t2) := tvec in
      let quat := quat_of_rvec rvec in
      let board_msg :=
        {| board_pose :=
             {| position := {| point_x := t0; point_y := t1; point_z := t2 |};
                orientation := quaternion_msg quat |} |} in
      match charuco_pose_pub self with
      | None => raise (AttributeError "charuco_pose_pub")
      | Some pub => emit (Publish (pub_topic pub) (MChArUcoBoard board_msg))
      end;;
      if publish_tf self
      then broadcast self img_msg "charuco_board"
             {| vec_x := t0; vec_y := t1; vec_z := t2 |} quat
      else mret tt
    else mret tt
  else mret tt.

(** Lines 185-195: the two messages, empty, with their headers. *)
Definition new_messages (self : ArucoNode) (info : CameraInfo) (img_msg : Image)
  : PoseArray * ArucoMarkers :=
  let frame :=
    match camera_frame self with
    | None => frame_id (ci_header info)
    | Some camera_frame => camera_frame
    end in
  let header := {| frame_id := frame; stamp := stamp (img_header img_msg) |} in
  let markers := {| am_header := header; marker_ids := []; am_poses := [] |} in
  let pose_array := {| pa_header := header; pa_poses := [] |} in
  (pose_array, markers).

Definition image_callback (self : ArucoNode) (img_msg : Image)
  : W Effect unit :=
  match info_msg self with
  | None => emit (LogWarn "No camera info has been received!")
  | Some info =>
      let cv_image := imgmsg_to_cv2 img_msg "mono8" in
      let '(pose_array, markers) := new_messages self info img_msg in
      let '(corners, detected, rejected) :=
        detectMarkers cv_image (aruco_dictionary self) (aruco_parameters self) in
      match detected with
      | None => mret tt
      | Some ids =>
          '(rvecs, tvecs) ←
            lift (unpack_pose_estimate
                    (estimatePoseSingleMarkers corners (marker_size self)
                       (intrinsic_mat self) (distortion self)));
          '(pose_array, markers) ←
            marker_loop self img_msg rvecs tvecs 0 ids (pose_array, markers);
          emit (Publish (pub_topic (poses_pub self)) (MPoseArray pose_array));;
          emit (Publish (pub_topic (markers_pub self)) (MArucoMarkers markers));;
          if publish_charuco_pose self
          then charuco_pose self img_msg corners ids cv_image
          else mret tt
      end
  end.

(** *** The executor *)

Inductive Event : Type :=
| CameraInfoEvent (topic : string) (msg : CameraInfo)
| ImageEvent (topic : string) (msg : Image).

(** A message is handed to the callback of a live subscription of its type
    on its topic; [image_callback] assigns no attribute of the node. *)
Definition dispatch (self : ArucoNode) (ev : Event) : W Effect ArucoNode :=
  match ev with
  | CameraInfoEvent topic msg =>
      if decide ({| sub_type := CameraInfoT; sub_topic := topic |} ∈ subscriptions self)
      then info_callback self msg
      else mret self
  | ImageEvent topic msg =>
      if decide ({| sub_type := ImageT; sub_topic := topic |} ∈ subscriptions self)
      then image_callback self msg;; mret self
      else mret self
  end.

(** The state of a run: what was done, the node, and the exception that
    ended the run if one escaped a callback. *)
Record Execution : Type := {
  effects : list Effect;
  node : ArucoNode;
  crashed : option PyExc
}.

(** [rclpy.spin(node)] over the messages that arrive. *)
Fixpoint spin (self : ArucoNode) (events : list Event) : Execution :=
  match events with
  | [] => {| effects := []; node := self; crashed := None |}
  | ev :: events' =>
      match dispatch self ev with
      | (t, inl e) => {| effects := t; node := self; crashed := Some e |}
      | (t, inr self') =>
          let run := spin self' events' in
          {| effects := t ++ effects run; node := node run; crashed := crashed run |}
      end
  end.

(** [main]: the node is constructed and spun; what was done, and the
    exception that ended the process if one escaped. *)
Definition main (overrides : gmap string PyValue) (events : list Event)
  : list Effect * option PyExc :=
  match __init__ overrides with
  | (t, inl e) => (t, Some e)
  | (t, inr node) =>
      let run := spin node events in
      (t ++ effects run, crashed run)
  end.

End Node.
End Aruco_node.

(** ** A concrete library, for running the model

    A stand-in for the external libraries, with the detector's answer, the
    pose estimate and the outcome of writing a file fixed in advance. *)

Definition fixture_namespace : list (string * ArucoAttr) :=
  [ ("CharucoBoard_create", AFunction);
    ("DICT_4X4_50", AInt 0);
    ("DICT_5X5_100", AInt 5);
    ("DICT_5X5_250", AInt 6);
    ("Dictionary", AClass);
    ("Dictionary_get", AFunction) ].

Definition fixture_cv2 (version : string) (detected : option (list Z))
    (estimate : PoseEstimate) (charuco : Z * bool * Vec3 * Vec3)
    (written : bool) : Cv2 := {|
  Mat := unit;
  Corners := unit;
  Dictionary := Z;
  CharucoCorners := unit;
  CharucoIds := unit;
  __version__ := version;
  aruco_namespace := fixture_namespace;
  Dictionary_get := fun a =>
    match a with
    | AInt n => inr n
    | _ => inl (cv2_error "an integer is required")
    end;
  Dictionary_create := fun n _ _ => n;
  DetectorParameters_create := {| cornerRefinementMethod := 0 |};
  detectMarkers := fun _ _ _ => (tt, detected, tt);
  estimatePoseSingleMarkers := fun _ _ _ _ => estimate;
  Rodrigues := fun v => (v, v, v);
  interpolateCornersCharuco := fun _ _ _ _ => (charuco.1.1.1, tt, tt);
  estimatePoseCharucoBoard := fun _ _ _ _ _ =>
    (charuco.1.1.2, charuco.1.2, charuco.2);
  draw := fun _ _ => tt;
  zeros := fun _ => tt;
  drawMarker := fun _ _ _ _ _ => tt;
  imwrite := fun _ _ => written
|}.

Definition fixture_bridge (c : Cv2) (m : @Mat c) : @CvBridge c :=
  {| imgmsg_to_cv2 := fun _ _ => m |}.

Definition fixture_transformations : Transformations :=
  {| quaternion_from_matrix := fun m => m.1.1.1 |}.

Definition fixture_os_path : OsPath :=
  {| abspath := fun p => "/tmp/" +:+ p |}.

(** A frame in which two markers, 7 and 3, are seen. *)
Definition two_markers : Cv2 :=
  fixture_cv2 "4.5.4" (Some [7; 3])
    (Tuple3 [(0.1, 0.2, 0.3); (0.4, 0.5, 0.6)]%float
            [(1, 2, 3); (4, 5, 6)]%float [])
    (0, false, (0, 0, 0)%float, (0, 0, 0)%float) true.

(** A frame in which nothing is seen. *)
Definition no_marker : Cv2 :=
  fixture_cv2 "4.5.4" None (Tuple3 [] [] [])
    (0, false, (0, 0, 0)%float, (0, 0, 0)%float) true.

(** A file system that refuses every write. *)
Definition read_only : Cv2 :=
  fixture_cv2 "4.5.4" None (Tuple3 [] [] [])
    (0, false, (0, 0, 0)%float, (0, 0, 0)%float) false.

Definition a_camera_info : CameraInfo := {|
  ci_header := {| stamp := {| sec := 10; nanosec := 0 |}; frame_id := "camera" |};
  k := (500, 0, 320, 0, 500, 240, 0, 0, 1)%float;
  d := [0; 0; 0; 0; 0]%float
|}.

Definition another_camera_info : CameraInfo := {|
  ci_header := {| stamp := {| sec := 11; nanosec := 0 |}; frame_id := "other" |};
  k := (600, 0, 300, 0, 600, 200, 0, 0, 1)%float;
  d := [0.5]%float
|}.

Definition an_image : Image := {|
  img_header := {| stamp := {| sec := 12; nanosec := 5 |}; frame_id := "camera" |};
  height := 1;
  width := 2;
  encoding := "mono8";
  data := [0; 255]
|}.

(** The command line of the board generator with --out-y 1000 alone. *)
Definition board_args : Charuco_generate_board.Namespace := {|
  Charuco_generate_board.square_x := 7;
  Charuco_generate_board.square_y := 5;
  Charuco_generate_board.square_length := 0.1;
  Charuco_generate_board.marker_length := 0.08;
  Charuco_generate_board.path := "./checkerboard.tiff";
  Charuco_generate_board.out_x := None;
  Charuco_generate_board.out_y := Some 1000;
  Charuco_generate_board.dictionary := "DICT_5X5_250"
|}.

(** The command line of the marker generator with --num 1 alone. *)
Definition one_marker_args : Aruco_generate_custom_dictionary.Namespace := {|
  Aruco_generate_custom_dictionary.size := 200;
  Aruco_generate_custom_dictionary.num := 1;
  Aruco_generate_custom_dictionary.bits := 6;
  Aruco_generate_custom_dictionary.seed := 0
|}.

(** The node that [__init__] returns under the stand-in library when only
    camera_frame and publish_tf are overridden, before ([info = None]) and
    after the CameraInfo message [info] has been received. *)
Definition fixture_node (c : Cv2) (dictionary : @Dictionary c)
    (frame : string) (tf : bool) (info : option CameraInfo)
  : @Aruco_node.ArucoNode c :=
  let info_sub := {| sub_type := CameraInfoT; sub_topic := "/camera/camera_info" |} in
  let image_sub := {| sub_type := ImageT; sub_topic := "/camera/image_raw" |} in
  {| Aruco_node.subscriptions :=
       match info with
       | None => [info_sub; image_sub]
       | Some _ => [image_sub]
       end;
     Aruco_node.marker_size := 0.0625;
     Aruco_node.camera_frame := Some frame;
     Aruco_node.aruco_dictionary := dictionary;
     Aruco_node.info_sub := info_sub;
     Aruco_node.poses_pub := {| pub_topic := "aruco_poses" |};
     Aruco_node.markers_pub := {| pub_topic := "aruco_markers" |};
     Aruco_node.info_msg := info;
     Aruco_node.intrinsic_mat :=
       match info with
       | None => None
       | Some msg => Some (reshape_3_3 (k msg))
       end;
     Aruco_node.distortion :=
       match info with
       | None => None
       | Some msg => Some (d msg)
       end;
     Aruco_node.aruco_parameters := {| cornerRefinementMethod := 0 |};
     Aruco_node.publish_tf := tf;
     Aruco_node.br := if tf then Some TransformBroadcaster_of_node else None;
     Aruco_node.publish_charuco_pose := false;
     Aruco_node.charuco_square_x := 7;
     Aruco_node.charuco_square_y := 7;
     Aruco_node.charuco_square_length := 0.1;
     Aruco_node.charuco_pose_pub := None |}.

(** The poses the node makes of the two markers of [two_markers]. *)
Definition two_poses : list Pose :=
  [ {| position := {| point_x := 1; point_y := 2; point_z := 3 |};
       orientation := {| quat_x := 0.1; quat_y := 0.2; quat_z := 0.3; quat_w := 0 |} |};
    {| position := {| point_x := 4; point_y := 5; point_z := 6 |};
       orientation := {| quat_x := 0.4; quat_y := 0.5; quat_z := 0.6; quat_w := 0 |} |}
  ]%float.

Definition image_header (frame : string) : Header :=
  {| stamp := stamp (img_header an_image); frame_id := frame |}.

(** ** What the claims speak of *)

(** Every failed write is followed by a line on the console. *)
Definition write_failures_reported (t : list ScriptEffect) : Prop :=
  forall pre path post,
    t = pre ++ Imwrite path false :: post -> exists line, Stdout line ∈ post.

(** What [self.get_parameter(name).get_parameter_value()] reads in
    [__init__], all parameters being declared: [None] if that raises. *)
Definition parameter_value (overrides : gmap string PyValue) (name : string)
  : option ParameterValue :=
  match Aruco_node.parameter (Aruco_node.declare_parameters overrides) name with
  | (_, inr v) => Some v
  | (_, inl _) => None
  end.

(** The effect is a broadcast transform. *)
Definition is_transform (e : Effect) : Prop := exists t, e = SendTransform t.

(** The effect is a board pose sent to a topic. *)
Definition is_board_pose (e : Effect) : Prop :=
  exists topic m, e = Publish topic (MChArUcoBoard m).

(** The pose at index [i] of [poses] holds the library's [tvecs[i][0]] and
    the quaternion of [rvecs[i][0]], component by component.  The
    quaternion is that of the 4 by 4 matrix with the rotation matrix of the
    vector in its upper left corner, zeros beside and below it and 1 in the
    last corner; its four numbers are x, y, z, w in this order. *)
Definition pose_copied `{cv2 : Cv2} `{transformations : Transformations}
    (rvecs tvecs : list Vec3) (poses : list Pose) (i : nat) : Prop :=
  exists t0 t1 t2 rvec q0 q1 q2 q3 pose,
    tvecs !! i = Some (t0, t1, t2) /\
    rvecs !! i = Some rvec /\
    (let '((r00, r01, r02), (r10, r11, r12), (r20, r21, r22)) := Rodrigues rvec in
     quaternion_from_matrix
       ((r00, r01, r02, 0), (r10, r11, r12, 0), (r20, r21, r22, 0), (0, 0, 0, 1))%float
     = (q0, q1, q2, q3)) /\
    poses !! i = Some pose /\
    point_x (position pose) = t0 /\
    point_y (position pose) = t1 /\
    point_z (position pose) = t2 /\
    quat_x (orientation pose) = q0 /\
    quat_y (orientation pose) = q1 /\
    quat_z (orientation pose) = q2 /\
    quat_w (orientation pose) = q3.

(** The transform branch of the marker loop can run to its end: it is
    switched off, or the frame is named and the broadcaster exists. *)
Definition transform_branch_passes `{cv2 : Cv2}
    (self : Aruco_node.ArucoNode) : Prop :=
  Aruco_node.publish_tf self = false \/
  (truthy_str (Aruco_node.camera_frame self) = true /\
   Aruco_node.br self <> None).

(** The transform is the one of marker [marker_id] with pose [pose]: child
    frame marker_<id>, the pose's position as translation and its
    orientation as rotation. *)
Definition transform_of_pose (t : TransformStamped) (marker_id : Z) (pose : Pose)
  : Prop :=
  child_frame_id t = "marker_" +:+ str marker_id /\
  vec_x (translation (transform t)) = point_x (position pose) /\
  vec_y (translation (transform t)) = point_y (position pose) /\
  vec_z (translation (transform t)) = point_z (position pose) /\
  rotation (transform t) = orientation pose.

(** ** Further concrete inputs *)

(** A frame with two markers and a board of which three corners are
    interpolated and the pose is estimated. *)
Definition with_board : Cv2 :=
  fixture_cv2 "4.5.4" (Some [7; 3])
    (Tuple3 [(0.1, 0.2, 0.3); (0.4, 0.5, 0.6)]%float
            [(1, 2, 3); (4, 5, 6)]%float [])
    (3, true, (0.7, 0.8, 0.9)%float, (7, 8, 9)%float) true.

(** Two ids, one translation vector. *)
Definition short_estimate : Cv2 :=
  fixture_cv2 "4.5.4" (Some [7; 3])
    (Tuple3 [(0.1, 0.2, 0.3); (0.4, 0.5, 0.6)]%float [(1, 2, 3)]%float [])
    (0, false, (0, 0, 0)%float, (0, 0, 0)%float) true.

(** A library of version 4.5.4 that returns a tuple of two arrays. *)
Definition two_valued_estimate : Cv2 :=
  fixture_cv2 "4.5.4" (Some [7; 3])
    (Tuple2 [(0.1, 0.2, 0.3); (0.4, 0.5, 0.6)]%float [(1, 2, 3); (4, 5, 6)]%float)
    (0, false, (0, 0, 0)%float, (0, 0, 0)%float) true.

(** Parameters that ask for transforms and board poses in the frame cam. *)
Definition board_overrides : gmap string PyValue :=
  <["publish_charuco_pose" := PyBool true]>
    (<["publish_tf" := PyBool true]> {["camera_frame" := PyStr "cam"]}).

(** Parameters that ask for a custom dictionary of 100 markers declared
    as dictionary_bits, of size 6, seed 1. *)
Definition custom_overrides : gmap string PyValue :=
  <["aruco_dictionary_id" := PyStr "CUSTOM"]>
    (<["dictionary_bits" := PyInt 100]>
       (<["dictionary_size" := PyInt 6]> {["dictionary_seed" := PyInt 1]})).

(** Parameters that ask for the sub-pixel corner refinement. *)
Definition subpix_overrides : gmap string PyValue :=
  <["do_corner_refinement" := PyBool true]>
    {["corner_refinement_method" := PyStr "CORNER_REFINE_SUBPIX"]}.

(** Parameters that ask for a corner refinement that does not exist. *)
Definition bad_refinement_overrides : gmap string PyValue :=
  <["do_corner_refinement" := PyBool true]>
    {["corner_refinement_method" := PyStr "CORNER_REFINE_BEST"]}.

(** The node after [info_callback] has run on [msg]. *)
Definition calibrated `{cv2 : Cv2} (self : Aruco_node.ArucoNode) (msg : CameraInfo)
  : Aruco_node.ArucoNode :=
  match Aruco_node.info_callback self msg with
  | (_, inr self') => self'
  | (_, inl _) => self
  end.

(** The command line [--dictionary DICT_BOGUS]. *)
Definition bogus_command_line : Charuco_generate_board.CommandLine := {|
  Charuco_generate_board.given_square_x := None;
  Charuco_generate_board.given_square_y := None;
  Charuco_generate_board.given_square_length := None;
  Charuco_generate_board.given_marker_length := None;
  Charuco_generate_board.given_path := None;
  Charuco_generate_board.given_out_x := None;
  Charuco_generate_board.given_out_y := None;
  Charuco_generate_board.given_dictionary := Some "DICT_BOGUS"
|}.

(** The command line [--out-y 1000 --dictionary DICT_4X4_50]. *)
Definition small_dictionary_command_line : Charuco_generate_board.CommandLine := {|
  Charuco_generate_board.given_square_x := None;
  Charuco_generate_board.given_square_y := None;
  Charuco_generate_board.given_square_length := None;
  Charuco_generate_board.given_marker_length := None;
  Charuco_generate_board.given_path := None;
  Charuco_generate_board.given_out_x := None;
  Charuco_generate_board.given_out_y := Some 1000;
  Charuco_generate_board.given_dictionary := Some "DICT_4X4_50"
|}.

(** The empty command line. *)
Definition empty_command_line : Charuco_generate_board.CommandLine := {|
  Charuco_generate_board.given_square_x := None;
  Charuco_generate_board.given_square_y := None;
  Charuco_generate_board.given_square_length := None;
  Charuco_generate_board.given_marker_length := None;
  Charuco_generate_board.given_path := None;
  Charuco_generate_board.given_out_x := None;
  Charuco_generate_board.given_out_y := None;
  Charuco_generate_board.given_dictionary := None
|}.

(** ** Notions for the further properties *)

(** What [__init__] reads for a parameter declared with default [v]. *)
Definition read_parameter (overrides : gmap string PyValue) (name : string)
    (v : PyValue) : ParameterValue :=
  get_parameter_value (default v (overrides !! name)).

(** The node [__init__] returns once it has arrived at a dictionary and at
    detector parameters. *)
Definition constructed_node `{cv2 : Cv2} (overrides : gmap string PyValue)
    (dictionary : Dictionary) (parameters : DetectorParameters)
  : Aruco_node.ArucoNode :=
  let info_sub :=
    {| sub_type := CameraInfoT;
       sub_topic := string_value (read_parameter overrides "camera_info_topic"
                                    (PyStr "/camera/camera_info")) |} in
  let image_sub :=
    {| sub_type := ImageT;
       sub_topic := string_value (read_parameter overrides "image_topic"
                                    (PyStr "/camera/image_raw")) |} in
  let tf := bool_value (read_parameter overrides "publish_tf" (PyBool false)) in
  let board :=
    bool_value (read_parameter overrides "publish_charuco_pose" (PyBool false)) in
  {| Aruco_node.subscriptions := [info_sub; image_sub];
     Aruco_node.marker_size :=
       double_value (read_parameter overrides "marker_size" (PyFloat 0.0625));
     Aruco_node.camera_frame :=
       Some (string_value (read_parameter overrides "camera_frame" PyNone));
     Aruco_node.aruco_dictionary := dictionary;
     Aruco_node.info_sub := info_sub;
     Aruco_node.poses_pub := {| pub_topic := "aruco_poses" |};
     Aruco_node.markers_pub := {| pub_topic := "aruco_markers" |};
     Aruco_node.info_msg := None;
     Aruco_node.intrinsic_mat := None;
     Aruco_node.distortion := None;
     Aruco_node.aruco_parameters := parameters;
     Aruco_node.publish_tf := tf;
     Aruco_node.br := if tf then Some TransformBroadcaster_of_node else None;
     Aruco_node.publish_charuco_pose := board;
     Aruco_node.charuco_square_x :=
       integer_value (read_parameter overrides "charuco_square_x" (PyInt 7));
     Aruco_node.charuco_square_y :=
       integer_value (read_parameter overrides "charuco_square_x" (PyInt 7));
     Aruco_node.charuco_square_length :=
       double_value (read_parameter overrides "charuco_square_length" (PyFloat 0.1));
     Aruco_node.charuco_pose_pub :=
       if board then Some {| pub_topic := "charuco_pose" |} else None |}.

(** The two lines [__init__] logs about a bad dictionary name. *)
Definition bad_dictionary_log `{cv2 : Cv2} (name : string) : list Effect :=
  [ LogError ("bad aruco_dictionary_id: " +:+ name);
    LogError ("valid options: " +:+ String.concat newline dict_options) ].

(** The attributes the callbacks reach for are there: the broadcaster when
    transforms are asked for, the board publisher when board poses are. *)
Definition attributes_present `{cv2 : Cv2} (self : Aruco_node.ArucoNode) : Prop :=
  (Aruco_node.publish_tf self = true -> Aruco_node.br self <> None) /\
  (Aruco_node.publish_charuco_pose self = true ->
   Aruco_node.charuco_pose_pub self <> None).

(** The exceptions a callback lets escape: the read of [self.info], an
    index past the end of the pose arrays, a tuple of the wrong length. *)
Definition callback_exception (e : PyExc) : Prop :=
  e = AttributeError "info" \/ e = IndexError \/ exists msg, e = ValueError msg.

(** Reading a run of decimal digits, most significant first. *)
Definition decode_digits (s : string) : Z :=
  fold_left (fun acc c => 10 * acc + (Z.of_nat (nat_of_ascii c) - 48))
    (list_ascii_of_string s) 0.

(** The same from a number already read. *)
Definition decode_from (acc : Z) (s : string) : Z :=
  fold_left (fun acc c => 10 * acc + (Z.of_nat (nat_of_ascii c) - 48))
    (list_ascii_of_string s) acc.

(** What stands between the seven characters of "marker_" and the four of
    ".png" in a file name. *)
Definition file_digits (name : string) : string :=
  String.substring 7 (String.length name - 11) name.

(** The board pose message made of the library's [tvec] and [rvec]. *)
Definition board_message `{cv2 : Cv2} `{transformations : Transformations}
    (rvec tvec : Vec3) : ChArUcoBoard :=
  {| board_pose :=
       {| position := {| point_x := tvec.1.1; point_y := tvec.1.2; point_z := tvec.2 |};
          orientation :=
            Aruco_node.quaternion_msg
              (quaternion_from_matrix (set_block_3_3 eye4 (Rodrigues rvec))) |} |}.

(** The transform of the board: child frame charuco_board, the board
    pose's position as translation and its orientation as rotation. *)
Definition board_transform (t : TransformStamped) (msg : ChArUcoBoard) : Prop :=
  child_frame_id t = "charuco_board" /\
  vec_x (translation (transform t)) = point_x (position (board_pose msg)) /\
  vec_y (translation (transform t)) = point_y (position (board_pose msg)) /\
  vec_z (translation (transform t)) = point_z (position (board_pose msg)) /\
  rotation (transform t) = orientation (board_pose msg).

(** What a script has done when it ends.  The library calls of the
    scripts (np.zeros, drawMarker, board.draw, imwrite) are total in [Cv2];
    in the program each of them can raise, which ends the script where it
    stands.  What the script has done by then is an initial part of what it
    does when every call returns. *)
Definition done_by {A} (m : W ScriptEffect A) (t : list ScriptEffect) : Prop :=
  t `prefix_of` trace m.

(** The character is one of 0 to 9. *)
Definition is_decimal_digit (c : ascii) : bool :=
  (48 <=? nat_of_ascii c)%nat && (nat_of_ascii c <=? 57)%nat.

(** The paths a script has handed to [cv2.imwrite], in order. *)
Definition written_paths (t : list ScriptEffect) : list string :=
  omap (fun e => match e with Imwrite path _ => Some path | _ => None end) t.

(** The file name the marker generator gives to marker [i]. *)
Definition marker_file (i : Z) : string :=
  "marker_" +:+ Aruco_generate_custom_dictionary.format_04d i +:+ ".png".

(** * Properties *)

(** ** The effect monad *)

Lemma bind_trace_raise {E A B} (t : list E) (x : PyExc) (f : A -> W E B) :
  ((t, inl x) : W E A) ≫= f = (t, inl x).
Proof. reflexivity. Qed.

Lemma bind_trace_return {E A B} (t : list E) (a : A) (f : A -> W E B) :
  ((t, inr a) : W E A) ≫= f = (t ++ trace (f a), result (f a)).
Proof. unfold mbind, W_bind, trace, result. destruct (f a); reflexivity. Qed.

Lemma for_each_emit_trace {E A} (l : list A) (g : A -> E) :
  for_each l (fun x => emit (g x)) = (map g l, inr tt).
Proof.
  induction l as [|x l IH]; [reflexivity|].
  cbn [for_each]. rewrite IH. reflexivity.
Qed.

(** ** The generator scripts *)

Section Script_properties.
Context `{cv2 : Cv2} `{os_path : OsPath}.

Lemma charuco_main_trace (args : Charuco_generate_board.Namespace)
    (dictionary_id : ArucoAttr) (dict : Dictionary) :
  __getattribute__ (Charuco_generate_board.dictionary args) = inr dictionary_id ->
  Dictionary_get dictionary_id = inr dict ->
  let w := or_int (Charuco_generate_board.out_x args)
             (300 * Charuco_generate_board.square_x args) in
  let h := or_int (Charuco_generate_board.out_y args)
             (300 * Charuco_generate_board.square_y args) in
  let file := Charuco_generate_board.path args in
  let written :=
    imwrite file
      (draw (CharucoBoard_create (Charuco_generate_board.square_x args)
               (Charuco_generate_board.square_y args)
               (Charuco_generate_board.square_length args)
               (Charuco_generate_board.marker_length args) dict) (w, h)) in
  Charuco_generate_board.main args =
    ([ Draw (w, h); Imwrite file written;
       Stdout ((if negb written then "Failed to write checkerboard to "
                else "Succesfully wrote checkerboard to ") +:+ abspath file) ],
     inr tt).
Proof.
  intros Hattr Hget. unfold Charuco_generate_board.main.
  rewrite Hattr. cbn [mbind Exc_bind]. rewrite Hget.
  cbv zeta. destruct (imwrite _ _); reflexivity.
Qed.

Lemma charuco_main_unrecognized (args : Charuco_generate_board.Namespace) name :
  (dictionary_id ← __getattribute__ (Charuco_generate_board.dictionary args);
   Dictionary_get dictionary_id) = inl (AttributeError name) ->
  forall path written, Imwrite path written ∉ trace (Charuco_generate_board.main args).
Proof.
  intros H path written. unfold Charuco_generate_board.main. rewrite H.
  rewrite for_each_emit_trace. cbn. rewrite !elem_of_cons, list_elem_of_In, in_map_iff.
  intros [?|[?|(? & ? & ?)]]; discriminate.
Qed.

Lemma or_int_spec (x : option Z) (y : Z) :
  (x = None \/ x = Some 0 -> or_int x y = y) /\
  (forall v, x = Some v -> v <> 0 -> or_int x y = v).
Proof.
  split.
  - intros [->| ->]; reflexivity.
  - intros v -> Hv. unfold or_int, truthy_int.
    destruct (Z.eqb_spec v 0); [contradiction|reflexivity].
Qed.

(** C10.  In the board generator, the size handed to [board.draw] is
    300 pixels per square in a direction whose option is absent or 0
    (--out-x: 300 * square-x, --out-y: 300 * square-y), and the given value
    unchanged otherwise. *)
Theorem out_resolution_falls_back_to_300_per_square
    (args : Charuco_generate_board.Namespace)
    (dictionary_id : ArucoAttr) (dict : Dictionary) :
  __getattribute__ (Charuco_generate_board.dictionary args) = inr dictionary_id ->
  Dictionary_get dictionary_id = inr dict ->
  exists w h rest,
    trace (Charuco_generate_board.main args) = Draw (w, h) :: rest /\
    (Charuco_generate_board.out_x args = None \/
     Charuco_generate_board.out_x args = Some 0 ->
     w = 300 * Charuco_generate_board.square_x args) /\
    (forall v, Charuco_generate_board.out_x args = Some v -> v <> 0 -> w = v) /\
    (Charuco_generate_board.out_y args = None \/
     Charuco_generate_board.out_y args = Some 0 ->
     h = 300 * Charuco_generate_board.square_y args) /\
    (forall v, Charuco_generate_board.out_y args = Some v -> v <> 0 -> h = v).
Proof.
  intros Hattr Hget.
  rewrite (charuco_main_trace args dictionary_id dict Hattr Hget).
  cbv zeta. eexists _, _, _. split; [reflexivity|].
  pose proof (or_int_spec (Charuco_generate_board.out_x args)
                (300 * Charuco_generate_board.square_x args)) as [? ?].
  pose proof (or_int_spec (Charuco_generate_board.out_y args)
                (300 * Charuco_generate_board.square_y args)) as [? ?].
  auto.
Qed.

(** C6, as amended.  The board generator reports a failed write: its
    trace ends with the line "Failed to write checkerboard to <absolute
    path>" after the write.  The marker generator never prints. *)
Theorem board_generator_reports_write_failure
    (board_args : Charuco_generate_board.Namespace)
    (marker_args : Aruco_generate_custom_dictionary.Namespace) :
  write_failures_reported (trace (Charuco_generate_board.main board_args)) /\
  (forall pre path post,
     trace (Charuco_generate_board.main board_args)
       = pre ++ Imwrite path false :: post ->
     post = [Stdout ("Failed to write checkerboard to " +:+ abspath path)]) /\
  (forall line,
     Stdout line ∉ trace (Aruco_generate_custom_dictionary.main marker_args)).
Proof.
  assert (Hpost : forall pre path post,
     trace (Charuco_generate_board.main board_args)
       = pre ++ Imwrite path false :: post ->
     post = [Stdout ("Failed to write checkerboard to " +:+ abspath path)]).
  { intros pre path post Heq.
    assert (Hin : Imwrite path false ∈ trace (Charuco_generate_board.main board_args)).
    { rewrite Heq. apply elem_of_app. right. left. }
    destruct (dictionary_id ← __getattribute__ (Charuco_generate_board.dictionary board_args);
              Dictionary_get dictionary_id) as [e|dict] eqn:Hd.
    - destruct e;
        try (exfalso; revert Hin; unfold Charuco_generate_board.main;
             rewrite Hd; cbn; apply not_elem_of_nil).
      exfalso. exact (charuco_main_unrecognized board_args _ Hd path false Hin).
    - destruct (__getattribute__ (Charuco_generate_board.dictionary board_args))
        as [e|dictionary_id] eqn:Hattr; [discriminate Hd|].
      cbn [mbind Exc_bind] in Hd.
      rewrite (charuco_main_trace board_args dictionary_id dict Hattr Hd) in Heq.
      cbv zeta in Heq. cbn [trace fst] in Heq.
      destruct pre as [|e0 [|e1 [|e2 pre]]]; cbn in Heq.
      + discriminate Heq.
      + injection Heq as _ Hpath Hw Hpost. subst path post.
        rewrite Hw. reflexivity.
      + injection Heq as _ _ Heq. discriminate Heq.
      + injection Heq as _ _ _ Heq. destruct pre; discriminate Heq. }
  split; [|split; [exact Hpost|]].
  - intros pre path post Heq. rewrite (Hpost pre path post Heq).
    eexists. left.
  - intros line. unfold Aruco_generate_custom_dictionary.main.
    rewrite (for_each_emit_trace _ (fun i =>
      Imwrite ("marker_" +:+ Aruco_generate_custom_dictionary.format_04d i +:+ ".png")
        (imwrite ("marker_" +:+ Aruco_generate_custom_dictionary.format_04d i +:+ ".png")
           (drawMarker
              (Dictionary_create (Aruco_generate_custom_dictionary.num marker_args)
                 (Aruco_generate_custom_dictionary.bits marker_args)
                 (Aruco_generate_custom_dictionary.seed marker_args))
              i (Aruco_generate_custom_dictionary.size marker_args)
              (zeros (Aruco_generate_custom_dictionary.size marker_args,
                      Aruco_generate_custom_dictionary.size marker_args)) 1)))).
    cbn [trace fst]. rewrite list_elem_of_In, in_map_iff.
    intros (? & ? & ?); discriminate.
Qed.

End Script_properties.

Lemma out_resolution_falls_back_witness :
  @__getattribute__ read_only "DICT_5X5_250" = inr (AInt 6) /\
  @Dictionary_get read_only (AInt 6) = inr 6 /\
  exists w h rest,
    trace (@Charuco_generate_board.main read_only fixture_os_path board_args)
      = Draw (w, h) :: rest /\
    (Charuco_generate_board.out_x board_args = None \/
     Charuco_generate_board.out_x board_args = Some 0 -> w = 300 * 7) /\
    (forall v, Charuco_generate_board.out_x board_args = Some v -> v <> 0 -> w = v) /\
    (Charuco_generate_board.out_y board_args = None \/
     Charuco_generate_board.out_y board_args = Some 0 -> h = 300 * 5) /\
    (forall v, Charuco_generate_board.out_y board_args = Some v -> v <> 0 -> h = v).
Proof.
  split; [reflexivity|]. split; [reflexivity|].
  apply (@out_resolution_falls_back_to_300_per_square read_only fixture_os_path
           board_args (AInt 6) 6); reflexivity.
Defined.

Example out_resolution_run :
  trace (@Charuco_generate_board.main read_only fixture_os_path board_args)
  = [ Draw (2100, 1000); Imwrite "./checkerboard.tiff" false;
      Stdout "Failed to write checkerboard to /tmp/./checkerboard.tiff" ].
Proof. reflexivity. Qed.

(** C6, as stated, fails: the marker generator, asked for one marker on a
    file system that refuses the write, fails to write marker_0000.png and
    prints nothing. *)
Lemma marker_generator_write_failure_is_silent :
  trace (@Aruco_generate_custom_dictionary.main read_only one_marker_args)
    = [Imwrite "marker_0000.png" false] /\
  ~ (write_failures_reported
       (trace (@Charuco_generate_board.main read_only fixture_os_path board_args)) /\
     write_failures_reported
       (trace (@Aruco_generate_custom_dictionary.main read_only one_marker_args))).
Proof.
  split; [reflexivity|].
  intros [_ H]. destruct (H [] "marker_0000.png" [] eq_refl) as [line Hline].
  exact (not_elem_of_nil _ Hline).
Qed.

(** ** Parameters of the node *)

Lemma W_bind_ret_l {E A B} (a : A) (f : A -> W E B) :
  (([], inr a) : W E A) ≫= f = f a.
Proof. unfold mbind, W_bind. destruct (f a); reflexivity. Qed.

Lemma foldl_declare_other (overrides : gmap string PyValue)
    (decls : list (string * PyValue)) (params : gmap string PyValue) name :
  name ∉ decls.*1 ->
  foldl (fun params '(name, value) => declare_parameter overrides params name value)
    params decls !! name = params !! name.
Proof.
  revert params. induction decls as [|[n v] decls IH]; intros params Hn; [reflexivity|].
  cbn [foldl]. apply not_elem_of_cons in Hn as [Hne Hn].
  rewrite (IH _ Hn). unfold declare_parameter.
  apply lookup_insert_ne. cbn in Hne. congruence.
Qed.

Lemma foldl_declare_lookup (overrides : gmap string PyValue)
    (decls : list (string * PyValue)) (params : gmap string PyValue) name v :
  NoDup decls.*1 ->
  (name, v) ∈ decls ->
  foldl (fun params '(name, value) => declare_parameter overrides params name value)
    params decls !! name = Some (default v (overrides !! name)).
Proof.
  revert params. induction decls as [|[n w] decls IH]; intros params Hnd Hin.
  - apply elem_of_nil in Hin. contradiction.
  - cbn [foldl]. cbn in Hnd. apply NoDup_cons in Hnd as [Hn Hnd].
    apply elem_of_cons in Hin as [Heq|Hin].
    + injection Heq as -> ->. rewrite (foldl_declare_other _ _ _ _ Hn).
      apply lookup_insert_eq.
    + apply (IH _ Hnd Hin).
Qed.

Lemma declarations_NoDup : NoDup Aruco_node.declarations.*1.
Proof. compute_done. Qed.

Lemma W_bind_mret_l {E A B} (a : A) (f : A -> W E B) : mret a ≫= f = f a.
Proof. apply W_bind_ret_l. Qed.

Lemma declare_parameters_lookup (overrides : gmap string PyValue) name v :
  (name, v) ∈ Aruco_node.declarations ->
  Aruco_node.declare_parameters overrides !! name
  = Some (default v (overrides !! name)).
Proof. apply foldl_declare_lookup, declarations_NoDup. Qed.

Lemma parameter_declared (overrides : gmap string PyValue) name v :
  (name, v) ∈ Aruco_node.declarations ->
  Aruco_node.parameter (Aruco_node.declare_parameters overrides) name
  = ([], inr (get_parameter_value (default v (overrides !! name)))).
Proof.
  intros Hin. unfold Aruco_node.parameter, get_parameter.
  rewrite (declare_parameters_lookup overrides name v Hin). reflexivity.
Qed.

Lemma parameter_value_declared (overrides : gmap string PyValue) name v :
  (name, v) ∈ Aruco_node.declarations ->
  parameter_value overrides name
  = Some (get_parameter_value (default v (overrides !! name))).
Proof.
  intros Hin. unfold parameter_value.
  rewrite (parameter_declared overrides name v Hin). reflexivity.
Qed.

Ltac declared :=
  unfold Aruco_node.declarations;
  repeat first [ apply list_elem_of_here | apply list_elem_of_further ].

Ltac read_parameters overrides :=
  repeat (erewrite (parameter_declared overrides) by declared).

Ltac bind_step := first [rewrite W_bind_ret_l | rewrite W_bind_mret_l]; cbv beta.

Ltac bind_step_in H :=
  first [rewrite W_bind_ret_l in H | rewrite W_bind_mret_l in H]; cbv beta in H.

Ltac read_hypothesis H :=
  erewrite parameter_value_declared in H by declared; injection H as H.

(** ** The node *)

Section Node_properties.
Context `{cv2 : Cv2} `{bridge : !CvBridge} `{transformations : Transformations}.

(** A node that [__init__] returns, field by field. *)
Lemma init_returns (overrides : gmap string PyValue) t self :
  Aruco_node.__init__ overrides = (t, inr self) ->
  let read name v := get_parameter_value (default v (overrides !! name)) in
  let info_sub :=
    {| sub_type := CameraInfoT;
       sub_topic := string_value (read "camera_info_topic" (PyStr "/camera/camera_info")) |} in
  let image_sub :=
    {| sub_type := ImageT;
       sub_topic := string_value (read "image_topic" (PyStr "/camera/image_raw")) |} in
  let tf := bool_value (read "publish_tf" (PyBool false)) in
  let board := bool_value (read "publish_charuco_pose" (PyBool false)) in
  exists dictionary parameters, self = {|
    Aruco_node.subscriptions := [info_sub; image_sub];
    Aruco_node.marker_size := double_value (read "marker_size" (PyFloat 0.0625));
    Aruco_node.camera_frame := Some (string_value (read "camera_frame" PyNone));
    Aruco_node.aruco_dictionary := dictionary;
    Aruco_node.info_sub := info_sub;
    Aruco_node.poses_pub := {| pub_topic := "aruco_poses" |};
    Aruco_node.markers_pub := {| pub_topic := "aruco_markers" |};
    Aruco_node.info_msg := None;
    Aruco_node.intrinsic_mat := None;
    Aruco_node.distortion := None;
    Aruco_node.aruco_parameters := parameters;
    Aruco_node.publish_tf := tf;
    Aruco_node.br := if tf then Some TransformBroadcaster_of_node else None;
    Aruco_node.publish_charuco_pose := board;
    Aruco_node.charuco_square_x := integer_value (read "charuco_square_x" (PyInt 7));
    Aruco_node.charuco_square_y := integer_value (read "charuco_square_x" (PyInt 7));
    Aruco_node.charuco_square_length :=
      double_value (read "charuco_square_length" (PyFloat 0.1));
    Aruco_node.charuco_pose_pub :=
      if board then Some {| pub_topic := "charuco_pose" |} else None
  |}.
Proof.
  unfold Aruco_node.__init__. cbv zeta.
  read_parameters overrides. repeat bind_step.
  match goal with
  | |- context [ ?m ≫= _ ] => destruct m as [t1 [e|dict]]
  end; [rewrite bind_trace_raise; discriminate|].
  rewrite bind_trace_return. bind_step.
  match goal with
  | |- context [ ?m ≫= _ ] => destruct m as [t2 [e|params]]
  end; [rewrite bind_trace_raise; discriminate|].
  rewrite bind_trace_return. repeat bind_step.
  cbn [trace result fst snd mret W_ret].
  intros H. injection H as _ <-. eexists _, _. reflexivity.
Qed.

Lemma lookup_attr_absent (ns : list (string * ArucoAttr)) name :
  name ∉ ns.*1 -> lookup_attr ns name = inl (AttributeError name).
Proof.
  induction ns as [|[n a] ns IH]; intros Hn; [reflexivity|].
  cbn in Hn. apply not_elem_of_cons in Hn as [Hne Hn].
  cbn [lookup_attr]. destruct (String.eqb_spec n name); [congruence|auto].
Qed.

(** C3: the code breaks the claim.  When the name is no attribute of
    [cv2.aruco] (and is not "CUSTOM"), construction logs the bad name and
    the valid options, and then the read of the unbound local
    [dictionary_id] raises: UnboundLocalError escapes [__init__]. *)
Theorem invalid_dictionary_name_raises_after_logging
    (overrides : gmap string PyValue) (v : ParameterValue) :
  parameter_value overrides "aruco_dictionary_id" = Some v ->
  string_value v <> "CUSTOM" ->
  string_value v ∉ aruco_namespace.*1 ->
  Aruco_node.__init__ overrides
  = ([ LogError ("bad aruco_dictionary_id: " +:+ string_value v);
       LogError ("valid options: " +:+ String.concat newline dict_options) ],
     inl (UnboundLocalError "dictionary_id")).
Proof.
  intros Hv Hcustom Habsent.
  rewrite (parameter_value_declared overrides "aruco_dictionary_id"
             (PyStr "DICT_5X5_250")) in Hv by declared.
  injection Hv as Hv.
  unfold Aruco_node.__init__. cbv zeta.
  read_parameters overrides. repeat bind_step. rewrite Hv.
  destruct (String.eqb_spec (string_value v) "CUSTOM") as [|_]; [contradiction|].
  cbn [negb]. unfold Aruco_node.named_dictionary, Aruco_node.try_dictionary_id.
  unfold __getattribute__ at 1. rewrite (lookup_attr_absent _ _ Habsent).
  reflexivity.
Qed.

(** C5: the code breaks the claim.  The board handed to the library takes
    its squares in X and its square length from the parameters of those
    names, but its squares in Y from the parameter charuco_square_x: the
    parameter charuco_square_y is never read. *)
Theorem charuco_board_squares_y_read_from_square_x
    (overrides : gmap string PyValue) t (self : Aruco_node.ArucoNode) :
  Aruco_node.__init__ overrides = (t, inr self) ->
  exists x l,
    parameter_value overrides "charuco_square_x" = Some x /\
    parameter_value overrides "charuco_square_length" = Some l /\
    squaresX (Aruco_node.charuco_board self) = integer_value x /\
    squaresY (Aruco_node.charuco_board self) = integer_value x /\
    squareLength (Aruco_node.charuco_board self) = double_value l.
Proof.
  intros Hinit. apply init_returns in Hinit as (dictionary & parameters & ->).
  eexists _, _.
  split; [apply (parameter_value_declared overrides "charuco_square_x" (PyInt 7)); declared|].
  split; [apply (parameter_value_declared overrides "charuco_square_length" (PyFloat 0.1));
          declared|].
  split; [|split]; reflexivity.
Qed.

Lemma image_callback_uncalibrated (self : Aruco_node.ArucoNode) (img_msg : Image) :
  Aruco_node.info_msg self = None ->
  Aruco_node.image_callback self img_msg
    = ([LogWarn "No camera info has been received!"], inr tt).
Proof. intros Hinfo. unfold Aruco_node.image_callback. rewrite Hinfo. reflexivity. Qed.

Lemma image_callback_no_ids (self : Aruco_node.ArucoNode) (img_msg : Image)
    (info : CameraInfo) (corners rejected : Corners) :
  Aruco_node.info_msg self = Some info ->
  detectMarkers (imgmsg_to_cv2 img_msg "mono8")
    (Aruco_node.aruco_dictionary self) (Aruco_node.aruco_parameters self)
    = (corners, None, rejected) ->
  Aruco_node.image_callback self img_msg = ([], inr tt).
Proof.
  intros Hinfo Hdetect. unfold Aruco_node.image_callback.
  rewrite Hinfo. cbv zeta. rewrite Hdetect. reflexivity.
Qed.

(** C2.  An image that arrives before any CameraInfo is dropped: the
    callback logs one warning and returns; nothing is published or
    broadcast, the node is as it was, and the run goes on. *)
Theorem image_without_calibration_is_dropped
    (self : Aruco_node.ArucoNode) (img_msg : Image) :
  Aruco_node.info_msg self = None ->
  Aruco_node.image_callback self img_msg
    = ([LogWarn "No camera info has been received!"], inr tt) /\
  forall topic,
    let run := Aruco_node.spin self [Aruco_node.ImageEvent topic img_msg] in
    Aruco_node.node run = self /\
    Aruco_node.crashed run = None /\
    (forall tp m, Publish tp m ∉ Aruco_node.effects run) /\
    (forall tf, SendTransform tf ∉ Aruco_node.effects run).
Proof.
  intros Hinfo.
  pose proof (image_callback_uncalibrated self img_msg Hinfo) as Hcb.
  split; [exact Hcb|].
  intros topic. cbn [Aruco_node.spin Aruco_node.dispatch].
  destruct (decide _); [rewrite Hcb|]; cbn.
  - repeat split; intros; rewrite elem_of_cons;
      intros [?|Hin]; try discriminate; exact (not_elem_of_nil _ Hin).
  - repeat split; intros; apply not_elem_of_nil.
Qed.

(** C9.  When the detector returns no ids (None), the callback does
    nothing at all and returns: its trace holds no PoseArray, no
    ArucoMarkers, no board pose and no transform, and the run goes on with
    the node as it was. *)
Theorem no_markers_nothing_published
    (self : Aruco_node.ArucoNode) (img_msg : Image) (info : CameraInfo)
    (corners rejected : Corners) :
  Aruco_node.info_msg self = Some info ->
  detectMarkers (imgmsg_to_cv2 img_msg "mono8")
    (Aruco_node.aruco_dictionary self) (Aruco_node.aruco_parameters self)
    = (corners, None, rejected) ->
  Aruco_node.image_callback self img_msg = ([], inr tt) /\
  (forall topic m, Publish topic m ∉ trace (Aruco_node.image_callback self img_msg)) /\
  (forall t, SendTransform t ∉ trace (Aruco_node.image_callback self img_msg)) /\
  forall topic,
    Aruco_node.spin self [Aruco_node.ImageEvent topic img_msg]
    = {| Aruco_node.effects := []; Aruco_node.node := self;
         Aruco_node.crashed := None |}.
Proof.
  intros Hinfo Hdetect.
  pose proof (image_callback_no_ids self img_msg info corners rejected Hinfo Hdetect)
    as Hcb.
  rewrite Hcb. split; [reflexivity|].
  split; [intros; apply not_elem_of_nil|].
  split; [intros; apply not_elem_of_nil|].
  intros topic. cbn [Aruco_node.spin Aruco_node.dispatch].
  destruct (decide _); [rewrite Hcb|]; reflexivity.
Qed.

(** *** The marker loop *)

Lemma broadcast_trace (self : Aruco_node.ArucoNode) img_msg child trans quat e :
  e ∈ trace (Aruco_node.broadcast self img_msg child trans quat) -> is_transform e.
Proof.
  unfold Aruco_node.broadcast.
  destruct (truthy_str _); [|intros H; cbn in H; exfalso; exact (not_elem_of_nil _ H)].
  bind_step. destruct (Aruco_node.br self); cbn.
  - intros H. apply list_elem_of_singleton in H. subst e. eexists. reflexivity.
  - intros H. exfalso. exact (not_elem_of_nil _ H).
Qed.

Lemma broadcast_sends (self : Aruco_node.ArucoNode) img_msg child trans quat :
  truthy_str (Aruco_node.camera_frame self) = true ->
  Aruco_node.br self <> None ->
  exists t, Aruco_node.broadcast self img_msg child trans quat
            = ([SendTransform t], inr tt) /\
            child_frame_id t = child /\
            translation (transform t) = trans /\
            rotation (transform t) = Aruco_node.quaternion_msg quat.
Proof.
  intros Hframe Hbr. unfold Aruco_node.broadcast. rewrite Hframe. bind_step.
  destruct (Aruco_node.br self); [|contradiction].
  eexists. split; [reflexivity|]. cbn. auto.
Qed.

Lemma broadcast_raises (self : Aruco_node.ArucoNode) img_msg child trans quat :
  truthy_str (Aruco_node.camera_frame self) = false ->
  Aruco_node.broadcast self img_msg child trans quat
  = ([], inl (AttributeError "info")).
Proof. intros Hframe. unfold Aruco_node.broadcast. rewrite Hframe. reflexivity. Qed.

(** One turn of the loop, the two reads having succeeded. *)
Lemma marker_loop_step (self : Aruco_node.ArucoNode) img_msg rvecs tvecs i
    marker_id ids pose_array markers tvec rvec :
  tvecs !! i = Some tvec ->
  rvecs !! i = Some rvec ->
  Aruco_node.marker_loop self img_msg rvecs tvecs i (marker_id :: ids)
    (pose_array, markers)
  = (if Aruco_node.publish_tf self
     then
       let p := position (Aruco_node.marker_pose tvec rvec) in
       Aruco_node.broadcast self img_msg ("marker_" +:+ str marker_id)
         {| vec_x := point_x p; vec_y := point_y p; vec_z := point_z p |}
         (Aruco_node.quat_of_rvec rvec)
     else mret tt) ≫= fun _ =>
    Aruco_node.marker_loop self img_msg rvecs tvecs (S i) ids
      ({| pa_header := pa_header pose_array;
          pa_poses := pa_poses pose_array ++ [Aruco_node.marker_pose tvec rvec] |},
       {| am_header := am_header markers;
          marker_ids := marker_ids markers ++ [marker_id];
          am_poses := am_poses markers ++ [Aruco_node.marker_pose tvec rvec] |}).
Proof.
  intros Ht Hr. cbn [Aruco_node.marker_loop]. unfold getitem, lift.
  rewrite Ht, Hr. repeat bind_step. reflexivity.
Qed.

Lemma marker_loop_index_error (self : Aruco_node.ArucoNode) img_msg rvecs tvecs i
    marker_id ids msgs :
  tvecs !! i = None \/ rvecs !! i = None ->
  Aruco_node.marker_loop self img_msg rvecs tvecs i (marker_id :: ids) msgs
  = ([], inl IndexError).
Proof.
  intros H. destruct msgs as [pose_array markers].
  cbn [Aruco_node.marker_loop]. unfold getitem, lift.
  destruct (tvecs !! i); [|reflexivity]. bind_step.
  destruct H as [H|H]; [discriminate|]. rewrite H. reflexivity.
Qed.

Lemma marker_pose_copied (rvecs tvecs : list Vec3) (i : nat) tvec rvec poses :
  tvecs !! i = Some tvec ->
  rvecs !! i = Some rvec ->
  poses !! i = Some (Aruco_node.marker_pose tvec rvec) ->
  pose_copied rvecs tvecs poses i.
Proof.
  intros Ht Hr Hp. destruct tvec as [[t0 t1] t2].
  destruct (quaternion_from_matrix (set_block_3_3 eye4 (Rodrigues rvec)))
    as [[[q0 q1] q2] q3] eqn:Hq.
  exists t0, t1, t2, rvec, q0, q1, q2, q3, (Aruco_node.marker_pose (t0, t1, t2) rvec).
  unfold Aruco_node.marker_pose, Aruco_node.quat_of_rvec, Aruco_node.quaternion_msg.
  rewrite Hq. cbn. split; [exact Ht|]. split; [exact Hr|]. split.
  { destruct (Rodrigues rvec) as [[[[r00 r01] r02] [[r10 r11] r12]] [[r20 r21] r22]].
    exact Hq. }
  repeat split; try first [assumption | reflexivity].
  rewrite Hp. unfold Aruco_node.marker_pose, Aruco_node.quat_of_rvec. rewrite Hq.
  reflexivity.
Qed.

Lemma pose_copied_shift (rvecs tvecs : list Vec3) (i j : nat) pose poses :
  pose_copied (drop (S i) rvecs) (drop (S i) tvecs) poses j ->
  pose_copied (drop i rvecs) (drop i tvecs) (pose :: poses) (S j).
Proof.
  intros (t0 & t1 & t2 & rvec & q0 & q1 & q2 & q3 & p & Ht & Hr & H).
  exists t0, t1, t2, rvec, q0, q1, q2, q3, p.
  rewrite lookup_drop in Ht, Hr. rewrite !lookup_drop.
  replace (i + S j)%nat with (S i + j)%nat by lia.
  split; [exact Ht|]. split; [exact Hr|]. exact H.
Qed.

(** What the loop has appended when it returns. *)
Lemma marker_loop_returns (self : Aruco_node.ArucoNode) img_msg rvecs tvecs ids :
  forall i pose_array markers t pose_array' markers',
    Aruco_node.marker_loop self img_msg rvecs tvecs i ids (pose_array, markers)
      = (t, inr (pose_array', markers')) ->
    exists poses,
      pa_header pose_array' = pa_header pose_array /\
      am_header markers' = am_header markers /\
      pa_poses pose_array' = pa_poses pose_array ++ poses /\
      am_poses markers' = am_poses markers ++ poses /\
      marker_ids markers' = marker_ids markers ++ ids /\
      length poses = length ids /\
      (forall j, (j < length ids)%nat ->
                 pose_copied (drop i rvecs) (drop i tvecs) poses j).
Proof.
  induction ids as [|marker_id ids IH]; intros i pose_array markers t pa' am' H.
  - cbn in H. injection H as _ <- <-. exists [].
    rewrite !app_nil_r. repeat split; try reflexivity.
    intros j Hj. cbn in Hj. lia.
  - destruct (tvecs !! i) as [tvec|] eqn:Ht;
      [|rewrite marker_loop_index_error in H by auto; discriminate].
    destruct (rvecs !! i) as [rvec|] eqn:Hr;
      [|rewrite marker_loop_index_error in H by auto; discriminate].
    rewrite (marker_loop_step _ _ _ _ _ _ _ _ _ tvec rvec Ht Hr) in H.
    match type of H with
    | ?m ≫= _ = _ => destruct m as [t1 [e|[]]]
    end; [rewrite bind_trace_raise in H; discriminate|].
    rewrite bind_trace_return in H.
    match type of H with
    | context [ trace ?m ] => destruct m as [t2 r2] eqn:Hrest
    end.
    cbn [trace result fst snd] in H. injection H as _ ->.
    apply IH in Hrest as (poses & Hh1 & Hh2 & Hp1 & Hp2 & Hids & Hlen & Hcopy).
    cbn in Hh1, Hh2, Hp1, Hp2, Hids.
    exists (Aruco_node.marker_pose tvec rvec :: poses).
    rewrite Hp1, Hp2, Hids, <- !app_assoc. cbn [app length].
    repeat split; try assumption; try (f_equal; assumption).
    intros [|j] Hj.
    + apply (marker_pose_copied _ _ _ tvec rvec);
        [rewrite lookup_drop, Nat.add_0_r; assumption ..|reflexivity].
    + apply pose_copied_shift, Hcopy. lia.
Qed.

(** Whatever its outcome, the loop does nothing but broadcast. *)
Lemma marker_loop_trace (self : Aruco_node.ArucoNode) img_msg rvecs tvecs ids :
  forall i msgs e,
    e ∈ trace (Aruco_node.marker_loop self img_msg rvecs tvecs i ids msgs) ->
    is_transform e.
Proof.
  induction ids as [|marker_id ids IH]; intros i [pose_array markers] e H.
  - cbn in H. exfalso. exact (not_elem_of_nil _ H).
  - destruct (tvecs !! i) as [tvec|] eqn:Ht;
      [|rewrite marker_loop_index_error in H by auto;
        exfalso; exact (not_elem_of_nil _ H)].
    destruct (rvecs !! i) as [rvec|] eqn:Hr;
      [|rewrite marker_loop_index_error in H by auto;
        exfalso; exact (not_elem_of_nil _ H)].
    rewrite (marker_loop_step _ _ _ _ _ _ _ _ _ tvec rvec Ht Hr) in H.
    match type of H with
    | context [ ?m ≫= _ ] =>
        assert (Hm : forall e, e ∈ trace m -> is_transform e);
        [|destruct m as [t1 [x|[]]]]
    end.
    + destruct (Aruco_node.publish_tf self).
      * intros e'. apply broadcast_trace.
      * intros e' He'. exfalso. exact (not_elem_of_nil _ He').
    + rewrite bind_trace_raise in H. apply Hm, H.
    + rewrite bind_trace_return in H. cbn [trace fst] in H.
      apply elem_of_app in H as [H|H]; [apply Hm, H|apply (IH _ _ _ H)].
Qed.

(** The loop returns when the arrays are long enough and the transform
    branch passes. *)
Lemma marker_loop_completes (self : Aruco_node.ArucoNode) img_msg rvecs tvecs ids :
  transform_branch_passes self ->
  forall i msgs,
    (i + length ids <= length tvecs)%nat ->
    (i + length ids <= length rvecs)%nat ->
    exists t msgs',
      Aruco_node.marker_loop self img_msg rvecs tvecs i ids msgs = (t, inr msgs').
Proof.
  intros Hpass.
  induction ids as [|marker_id ids IH]; intros i [pose_array markers] Ht Hr.
  - eexists _, _. reflexivity.
  - cbn [length] in Ht, Hr.
    destruct (lookup_lt_is_Some_2 tvecs i) as [tvec Htv]; [lia|].
    destruct (lookup_lt_is_Some_2 rvecs i) as [rvec Hrv]; [lia|].
    rewrite (marker_loop_step _ _ _ _ _ _ _ _ _ tvec rvec Htv Hrv).
    match goal with
    | |- context [ Aruco_node.marker_loop _ _ _ _ (S i) ids ?m ] =>
        destruct (IH (S i) m) as (t & msgs' & Hrest); [lia|lia|]
    end.
    rewrite Hrest.
    destruct Hpass as [Hoff|[Hframe Hbr]].
    + rewrite Hoff. bind_step. eexists _, _. reflexivity.
    + destruct (Aruco_node.publish_tf self).
      * cbv zeta.
        match goal with
        | |- context [ Aruco_node.broadcast ?a ?b ?c ?d ?e ] =>
            destruct (broadcast_sends a b c d e Hframe Hbr) as (tf & -> & _)
        end.
        rewrite bind_trace_return. eexists _, _. reflexivity.
      * bind_step. eexists _, _. reflexivity.
Qed.

(** *** The callback *)

Lemma charuco_pose_trace (self : Aruco_node.ArucoNode) img_msg corners ids cv_image e :
  e ∈ trace (Aruco_node.charuco_pose self img_msg corners ids cv_image) ->
  is_board_pose e \/ is_transform e.
Proof.
  unfold Aruco_node.charuco_pose. cbv zeta.
  destruct (interpolateCornersCharuco _ _ _ _) as [[n_corners ch_corners] ch_ids].
  destruct (0 <? n_corners);
    [|intros H; exfalso; exact (not_elem_of_nil _ H)].
  destruct (estimatePoseCharucoBoard _ _ _ _ _) as [[success rvec] [[t0 t1] t2]].
  destruct success; [|intros H; exfalso; exact (not_elem_of_nil _ H)].
  destruct (Aruco_node.charuco_pose_pub self) as [pub|];
    [|intros H; exfalso; exact (not_elem_of_nil _ H)].
  unfold emit at 1. rewrite bind_trace_return. cbn [trace fst].
  intros H. apply elem_of_cons in H as [->|H].
  - left. eexists _, _. reflexivity.
  - right. destruct (Aruco_node.publish_tf self).
    + exact (broadcast_trace _ _ _ _ _ _ H).
    + exfalso. exact (not_elem_of_nil _ H).
Qed.

(** The callback once the detector has answered and the estimate has been
    unpacked. *)
Lemma image_callback_detected (self : Aruco_node.ArucoNode) img_msg info
    corners ids rejected rvecs tvecs :
  Aruco_node.info_msg self = Some info ->
  detectMarkers (imgmsg_to_cv2 img_msg "mono8")
    (Aruco_node.aruco_dictionary self) (Aruco_node.aruco_parameters self)
    = (corners, Some ids, rejected) ->
  Aruco_node.unpack_pose_estimate
    (estimatePoseSingleMarkers corners (Aruco_node.marker_size self)
       (Aruco_node.intrinsic_mat self) (Aruco_node.distortion self))
    = inr (rvecs, tvecs) ->
  Aruco_node.image_callback self img_msg
  = Aruco_node.marker_loop self img_msg rvecs tvecs 0 ids
      (Aruco_node.new_messages self info img_msg) ≫= fun '(pose_array, markers) =>
    emit (Publish (pub_topic (Aruco_node.poses_pub self)) (MPoseArray pose_array));;
    emit (Publish (pub_topic (Aruco_node.markers_pub self)) (MArucoMarkers markers));;
    if Aruco_node.publish_charuco_pose self
    then Aruco_node.charuco_pose self img_msg corners ids
           (imgmsg_to_cv2 img_msg "mono8")
    else mret tt.
Proof.
  intros Hinfo Hdetect Hunpack. unfold Aruco_node.image_callback.
  rewrite Hinfo. cbv zeta.
  destruct (Aruco_node.new_messages self info img_msg) as [pose_array markers].
  rewrite Hdetect, Hunpack. unfold lift. bind_step. reflexivity.
Qed.

(** The trace of the callback when the loop has returned. *)
Lemma image_callback_trace (self : Aruco_node.ArucoNode) img_msg info
    corners ids rejected rvecs tvecs t pose_array markers :
  Aruco_node.info_msg self = Some info ->
  detectMarkers (imgmsg_to_cv2 img_msg "mono8")
    (Aruco_node.aruco_dictionary self) (Aruco_node.aruco_parameters self)
    = (corners, Some ids, rejected) ->
  Aruco_node.unpack_pose_estimate
    (estimatePoseSingleMarkers corners (Aruco_node.marker_size self)
       (Aruco_node.intrinsic_mat self) (Aruco_node.distortion self))
    = inr (rvecs, tvecs) ->
  Aruco_node.marker_loop self img_msg rvecs tvecs 0 ids
    (Aruco_node.new_messages self info img_msg) = (t, inr (pose_array, markers)) ->
  trace (Aruco_node.image_callback self img_msg)
  = t ++ Publish (pub_topic (Aruco_node.poses_pub self)) (MPoseArray pose_array)
      :: Publish (pub_topic (Aruco_node.markers_pub self)) (MArucoMarkers markers)
      :: trace (if Aruco_node.publish_charuco_pose self
                then Aruco_node.charuco_pose self img_msg corners ids
                       (imgmsg_to_cv2 img_msg "mono8")
                else mret tt).
Proof.
  intros Hinfo Hdetect Hunpack Hloop.
  rewrite (image_callback_detected _ _ _ _ _ _ _ _ Hinfo Hdetect Hunpack), Hloop.
  rewrite bind_trace_return. unfold emit. rewrite !bind_trace_return.
  reflexivity.
Qed.

(** A pose array or a marker message in the trace comes from a loop that
    returned, and then both are there. *)
Lemma image_callback_publish_inv (self : Aruco_node.ArucoNode) img_msg topic m :
  Publish topic m ∈ trace (Aruco_node.image_callback self img_msg) ->
  (forall b, m <> MChArUcoBoard b) ->
  exists info corners ids rejected rvecs tvecs t pose_array markers,
    Aruco_node.info_msg self = Some info /\
    detectMarkers (imgmsg_to_cv2 img_msg "mono8")
      (Aruco_node.aruco_dictionary self) (Aruco_node.aruco_parameters self)
      = (corners, Some ids, rejected) /\
    Aruco_node.unpack_pose_estimate
      (estimatePoseSingleMarkers corners (Aruco_node.marker_size self)
         (Aruco_node.intrinsic_mat self) (Aruco_node.distortion self))
      = inr (rvecs, tvecs) /\
    Aruco_node.marker_loop self img_msg rvecs tvecs 0 ids
      (Aruco_node.new_messages self info img_msg) = (t, inr (pose_array, markers)) /\
    (topic = pub_topic (Aruco_node.poses_pub self) /\ m = MPoseArray pose_array \/
     topic = pub_topic (Aruco_node.markers_pub self) /\ m = MArucoMarkers markers).
Proof.
  intros Hin Hm.
  destruct (Aruco_node.info_msg self) as [info|] eqn:Hinfo.
  2:{ unfold Aruco_node.image_callback in Hin. rewrite Hinfo in Hin.
      apply list_elem_of_singleton in Hin. discriminate. }
  destruct (detectMarkers (imgmsg_to_cv2 img_msg "mono8")
              (Aruco_node.aruco_dictionary self) (Aruco_node.aruco_parameters self))
    as [[corners [ids|]] rejected] eqn:Hdetect.
  2:{ rewrite (image_callback_no_ids _ _ _ _ _ Hinfo Hdetect) in Hin.
      exfalso. exact (not_elem_of_nil _ Hin). }
  destruct (Aruco_node.unpack_pose_estimate
              (estimatePoseSingleMarkers corners (Aruco_node.marker_size self)
                 (Aruco_node.intrinsic_mat self) (Aruco_node.distortion self)))
    as [x|[rvecs tvecs]] eqn:Hunpack.
  { unfold Aruco_node.image_callback in Hin. rewrite Hinfo in Hin. cbv zeta in Hin.
    destruct (Aruco_node.new_messages self info img_msg) as [pose_array markers].
    rewrite Hdetect, Hunpack in Hin. exfalso. exact (not_elem_of_nil _ Hin). }
  destruct (Aruco_node.marker_loop self img_msg rvecs tvecs 0 ids
              (Aruco_node.new_messages self info img_msg))
    as [t [x|[pose_array markers]]] eqn:Hloop.
  { rewrite (image_callback_detected _ _ _ _ _ _ _ _ Hinfo Hdetect Hunpack), Hloop in Hin.
    rewrite bind_trace_raise in Hin. cbn [trace fst] in Hin.
    assert (Ht : is_transform (Publish topic m)).
    { apply (marker_loop_trace self img_msg rvecs tvecs ids 0
               (Aruco_node.new_messages self info img_msg)).
      rewrite Hloop. exact Hin. }
    destruct Ht as [tf Ht]. discriminate Ht. }
  exists info, corners, ids, rejected, rvecs, tvecs, t, pose_array, markers.
  repeat (split; [reflexivity|]).
  rewrite (image_callback_trace _ _ _ _ _ _ _ _ _ _ _ Hinfo Hdetect Hunpack Hloop) in Hin.
  apply elem_of_app in Hin as [Hin|Hin].
  { assert (Ht : is_transform (Publish topic m)).
    { apply (marker_loop_trace self img_msg rvecs tvecs ids 0
               (Aruco_node.new_messages self info img_msg)).
      rewrite Hloop. exact Hin. }
    destruct Ht as [tf Ht]. discriminate Ht. }
  apply elem_of_cons in Hin as [Heq|Hin]; [injection Heq as -> ->; auto|].
  apply elem_of_cons in Hin as [Heq|Hin]; [injection Heq as -> ->; auto|].
  exfalso. destruct (Aruco_node.publish_charuco_pose self).
  - apply charuco_pose_trace in Hin as [(tp & b & Hb)|(tf & Ht)].
    + injection Hb as _ ->. exact (Hm b eq_refl).
    + discriminate Ht.
  - exact (not_elem_of_nil _ Hin).
Qed.

Lemma loop_from_zero_copied (self : Aruco_node.ArucoNode) img_msg info
    rvecs tvecs ids t pose_array markers :
  Aruco_node.marker_loop self img_msg rvecs tvecs 0 ids
    (Aruco_node.new_messages self info img_msg) = (t, inr (pose_array, markers)) ->
  pa_poses pose_array = am_poses markers /\
  pa_header pose_array = am_header markers /\
  marker_ids markers = ids /\
  length (am_poses markers) = length ids /\
  (forall i, (i < length ids)%nat -> pose_copied rvecs tvecs (am_poses markers) i).
Proof.
  intros Hloop. unfold Aruco_node.new_messages in Hloop. cbv zeta in Hloop.
  apply marker_loop_returns in Hloop
    as (poses & Hh1 & Hh2 & Hp1 & Hp2 & Hids & Hlen & Hcopy).
  cbn in Hh1, Hh2, Hp1, Hp2, Hids. rewrite !drop_0 in Hcopy.
  rewrite Hp1, Hp2, Hh1, Hh2, Hids. auto.
Qed.

(** In a callback in which the detector returns ids and the pose estimate
    comes with one rotation and one translation vector per id: every
    PoseArray and every ArucoMarkers message in the trace holds, at each
    index i, the position tvecs[i][0] and the quaternion of rvecs[i][0],
    and the marker message holds the library's ids in order.  Both messages
    are in the trace whenever the transform branch of the loop passes. *)
Lemma published_messages_hold_library_output
    (self : Aruco_node.ArucoNode) (img_msg : Image) (info : CameraInfo)
    (corners rejected : Corners) (ids : list Z) (rvecs tvecs : list Vec3) :
  Aruco_node.info_msg self = Some info ->
  detectMarkers (imgmsg_to_cv2 img_msg "mono8")
    (Aruco_node.aruco_dictionary self) (Aruco_node.aruco_parameters self)
    = (corners, Some ids, rejected) ->
  Aruco_node.unpack_pose_estimate
    (estimatePoseSingleMarkers corners (Aruco_node.marker_size self)
       (Aruco_node.intrinsic_mat self) (Aruco_node.distortion self))
    = inr (rvecs, tvecs) ->
  length rvecs = length ids ->
  length tvecs = length ids ->
  let published := trace (Aruco_node.image_callback self img_msg) in
  (transform_branch_passes self ->
   exists pose_array markers,
     Publish (pub_topic (Aruco_node.poses_pub self)) (MPoseArray pose_array)
       ∈ published /\
     Publish (pub_topic (Aruco_node.markers_pub self)) (MArucoMarkers markers)
       ∈ published) /\
  (forall topic pose_array,
     Publish topic (MPoseArray pose_array) ∈ published ->
     length (pa_poses pose_array) = length ids /\
     forall i, (i < length ids)%nat ->
               pose_copied rvecs tvecs (pa_poses pose_array) i) /\
  (forall topic markers,
     Publish topic (MArucoMarkers markers) ∈ published ->
     marker_ids markers = ids /\
     length (am_poses markers) = length ids /\
     forall i, (i < length ids)%nat ->
               pose_copied rvecs tvecs (am_poses markers) i).
Proof.
  intros Hinfo Hdetect Hunpack Hr Ht published. subst published.
  assert (Hinv : forall topic m,
    Publish topic m ∈ trace (Aruco_node.image_callback self img_msg) ->
    (forall b, m <> MChArUcoBoard b) ->
    exists t pose_array markers,
      Aruco_node.marker_loop self img_msg rvecs tvecs 0 ids
        (Aruco_node.new_messages self info img_msg) = (t, inr (pose_array, markers)) /\
      (m = MPoseArray pose_array \/ m = MArucoMarkers markers)).
  { intros topic m Hin Hm.
    destruct (image_callback_publish_inv self img_msg topic m Hin Hm)
      as (info' & corners' & ids' & rejected' & rvecs' & tvecs' & t & pa & am
          & Hinfo' & Hdetect' & Hunpack' & Hloop & Hcase).
    rewrite Hinfo in Hinfo'. injection Hinfo' as <-.
    rewrite Hdetect in Hdetect'. injection Hdetect' as <- <- <-.
    rewrite Hunpack in Hunpack'. injection Hunpack' as <- <-.
    exists t, pa, am. split; [exact Hloop|]. destruct Hcase as [[_ ?]|[_ ?]]; auto. }
  split; [|split].
  - intros Hpass.
    destruct (marker_loop_completes self img_msg rvecs tvecs ids Hpass 0
                (Aruco_node.new_messages self info img_msg))
      as (t & [pose_array markers] & Hloop); [cbn; lia..|].
    exists pose_array, markers.
    rewrite (image_callback_trace _ _ _ _ _ _ _ _ _ _ _ Hinfo Hdetect Hunpack Hloop).
    split; apply elem_of_app; right.
    + left.
    + right. left.
  - intros topic pose_array Hin.
    destruct (Hinv topic _ Hin) as (t & pa & am & Hloop & Hcase); [discriminate|].
    destruct Hcase as [Heq|Heq]; [|discriminate Heq]. injection Heq as ->.
    apply loop_from_zero_copied in Hloop as (Hsame & _ & _ & Hlen & Hcopy).
    rewrite Hsame. auto.
  - intros topic markers Hin.
    destruct (Hinv topic _ Hin) as (t & pa & am & Hloop & Hcase); [discriminate|].
    destruct Hcase as [Heq|Heq]; [discriminate Heq|]. injection Heq as ->.
    apply loop_from_zero_copied in Hloop as (_ & _ & Hids & Hlen & Hcopy).
    auto.
Qed.

(** With publish_tf on and the camera frame unset, the first marker ends
    the callback: nothing of the frame is published. *)
Lemma image_callback_loses_messages
    (self : Aruco_node.ArucoNode) (img_msg : Image) (info : CameraInfo)
    (corners rejected : Corners) (ids : list Z) (rvecs tvecs : list Vec3) :
  Aruco_node.info_msg self = Some info ->
  detectMarkers (imgmsg_to_cv2 img_msg "mono8")
    (Aruco_node.aruco_dictionary self) (Aruco_node.aruco_parameters self)
    = (corners, Some ids, rejected) ->
  Aruco_node.unpack_pose_estimate
    (estimatePoseSingleMarkers corners (Aruco_node.marker_size self)
       (Aruco_node.intrinsic_mat self) (Aruco_node.distortion self))
    = inr (rvecs, tvecs) ->
  length rvecs = length ids ->
  length tvecs = length ids ->
  ids <> [] ->
  Aruco_node.publish_tf self = true ->
  truthy_str (Aruco_node.camera_frame self) = false ->
  Aruco_node.image_callback self img_msg = ([], inl (AttributeError "info")).
Proof.
  intros Hinfo Hdetect Hunpack Hr Ht Hids Htf Hframe.
  destruct ids as [|marker_id ids]; [contradiction|].
  destruct tvecs as [|tvec tvecs]; [discriminate Ht|].
  destruct rvecs as [|rvec rvecs]; [discriminate Hr|].
  rewrite (image_callback_detected _ _ _ _ _ _ _ _ Hinfo Hdetect Hunpack).
  destruct (Aruco_node.new_messages self info img_msg) as [pose_array markers].
  rewrite (marker_loop_step self img_msg (rvec :: rvecs) (tvec :: tvecs) 0
             marker_id ids pose_array markers tvec rvec eq_refl eq_refl), Htf.
  cbv zeta. rewrite broadcast_raises by exact Hframe. reflexivity.
Qed.

(** C1: the code breaks the claim.  In a callback in which the detector
    returns ids, with one rotation and one translation vector per id, every
    PoseArray and ArucoMarkers message that is published holds, at each
    index i, the position tvecs[i][0], the quaternion of rvecs[i][0] and
    the library's i-th id, and both messages are published when publish_tf
    is off or the camera frame is named.  With publish_tf on and the camera
    frame unset the poses are built and then lost: the broadcast of the
    first marker raises AttributeError and no message leaves the node. *)
Theorem library_output_copied_but_lost_without_camera_frame
    (self : Aruco_node.ArucoNode) (img_msg : Image) (info : CameraInfo)
    (corners rejected : Corners) (ids : list Z) (rvecs tvecs : list Vec3) :
  Aruco_node.info_msg self = Some info ->
  detectMarkers (imgmsg_to_cv2 img_msg "mono8")
    (Aruco_node.aruco_dictionary self) (Aruco_node.aruco_parameters self)
    = (corners, Some ids, rejected) ->
  Aruco_node.unpack_pose_estimate
    (estimatePoseSingleMarkers corners (Aruco_node.marker_size self)
       (Aruco_node.intrinsic_mat self) (Aruco_node.distortion self))
    = inr (rvecs, tvecs) ->
  length rvecs = length ids ->
  length tvecs = length ids ->
  let published := trace (Aruco_node.image_callback self img_msg) in
  (forall topic pose_array,
     Publish topic (MPoseArray pose_array) ∈ published ->
     length (pa_poses pose_array) = length ids /\
     forall i, (i < length ids)%nat ->
               pose_copied rvecs tvecs (pa_poses pose_array) i) /\
  (forall topic markers,
     Publish topic (MArucoMarkers markers) ∈ published ->
     marker_ids markers = ids /\
     length (am_poses markers) = length ids /\
     forall i, (i < length ids)%nat ->
               pose_copied rvecs tvecs (am_poses markers) i) /\
  (transform_branch_passes self ->
   exists pose_array markers,
     Publish (pub_topic (Aruco_node.poses_pub self)) (MPoseArray pose_array)
       ∈ published /\
     Publish (pub_topic (Aruco_node.markers_pub self)) (MArucoMarkers markers)
       ∈ published) /\
  (ids <> [] ->
   Aruco_node.publish_tf self = true ->
   truthy_str (Aruco_node.camera_frame self) = false ->
   published = [] /\
   result (Aruco_node.image_callback self img_msg) = inl (AttributeError "info")).
Proof.
  intros Hinfo Hdetect Hunpack Hr Ht published. subst published.
  destruct (published_messages_hold_library_output self img_msg info corners
              rejected ids rvecs tvecs Hinfo Hdetect Hunpack Hr Ht)
    as (Hpublished & Hposes & Hmarkers).
  split; [exact Hposes|]. split; [exact Hmarkers|]. split; [exact Hpublished|].
  intros Hids Htf Hframe.
  rewrite (image_callback_loses_messages self img_msg info corners rejected ids
             rvecs tvecs Hinfo Hdetect Hunpack Hr Ht Hids Htf Hframe).
  split; reflexivity.
Qed.

(** C8.  Every ArucoMarkers message in the trace of a callback has as
    many ids as poses; its ids are the library's, in order, and its i-th
    pose is the one made from the library's i-th vectors; a PoseArray is
    published in the same callback, and every PoseArray published there has
    the same poses and header. *)
Theorem published_markers_agree_with_pose_array
    (self : Aruco_node.ArucoNode) (img_msg : Image) (topic : string)
    (markers : ArucoMarkers) :
  let published := trace (Aruco_node.image_callback self img_msg) in
  Publish topic (MArucoMarkers markers) ∈ published ->
  length (marker_ids markers) = length (am_poses markers) /\
  (exists corners rejected rvecs tvecs,
     detectMarkers (imgmsg_to_cv2 img_msg "mono8")
       (Aruco_node.aruco_dictionary self) (Aruco_node.aruco_parameters self)
       = (corners, Some (marker_ids markers), rejected) /\
     Aruco_node.unpack_pose_estimate
       (estimatePoseSingleMarkers corners (Aruco_node.marker_size self)
          (Aruco_node.intrinsic_mat self) (Aruco_node.distortion self))
       = inr (rvecs, tvecs) /\
     forall i, (i < length (marker_ids markers))%nat ->
               pose_copied rvecs tvecs (am_poses markers) i) /\
  (exists pose_array,
     Publish (pub_topic (Aruco_node.poses_pub self)) (MPoseArray pose_array)
       ∈ published) /\
  (forall tp pose_array,
     Publish tp (MPoseArray pose_array) ∈ published ->
     pa_poses pose_array = am_poses markers /\
     pa_header pose_array = am_header markers).
Proof.
  intros published Hin. subst published.
  destruct (image_callback_publish_inv self img_msg topic _ Hin)
    as (info & corners & ids & rejected & rvecs & tvecs & t & pa & am
        & Hinfo & Hdetect & Hunpack & Hloop & Hcase); [discriminate|].
  destruct Hcase as [[_ Heq]|[_ Heq]]; [discriminate Heq|]. injection Heq as ->.
  pose proof (loop_from_zero_copied _ _ _ _ _ _ _ _ _ Hloop)
    as (Hsame & Hhead & Hids & Hlen & Hcopy).
  split; [rewrite Hids; symmetry; exact Hlen|].
  split; [exists corners, rejected, rvecs, tvecs; rewrite Hids; auto|].
  split.
  - exists pa.
    rewrite (image_callback_trace _ _ _ _ _ _ _ _ _ _ _ Hinfo Hdetect Hunpack Hloop).
    apply elem_of_app. right. left.
  - intros tp pose_array Hpa.
    destruct (image_callback_publish_inv self img_msg tp _ Hpa)
      as (info' & corners' & ids' & rejected' & rvecs' & tvecs' & t' & pa' & am'
          & Hinfo' & Hdetect' & Hunpack' & Hloop' & Hcase); [discriminate|].
    rewrite Hinfo in Hinfo'. injection Hinfo' as <-.
    rewrite Hdetect in Hdetect'. injection Hdetect' as <- <- <-.
    rewrite Hunpack in Hunpack'. injection Hunpack' as <- <-.
    rewrite Hloop in Hloop'. injection Hloop' as <- <- <-.
    destruct Hcase as [[_ Heq]|[_ Heq]]; [|discriminate Heq]. injection Heq as ->.
    auto.
Qed.

(** C7: the code breaks the claim.  With publish_tf on and the camera
    frame unset (None or the empty string), the first detected marker makes
    the callback read [self.info], an attribute the node does not have:
    AttributeError escapes and nothing has been broadcast or published. *)
Theorem transform_broadcast_raises_when_camera_frame_unset
    (self : Aruco_node.ArucoNode) (img_msg : Image) (info : CameraInfo)
    (corners rejected : Corners) (marker_id : Z) (ids : list Z)
    (rvecs tvecs : list Vec3) (rvec tvec : Vec3) :
  Aruco_node.info_msg self = Some info ->
  detectMarkers (imgmsg_to_cv2 img_msg "mono8")
    (Aruco_node.aruco_dictionary self) (Aruco_node.aruco_parameters self)
    = (corners, Some (marker_id :: ids), rejected) ->
  Aruco_node.unpack_pose_estimate
    (estimatePoseSingleMarkers corners (Aruco_node.marker_size self)
       (Aruco_node.intrinsic_mat self) (Aruco_node.distortion self))
    = inr (rvecs, tvecs) ->
  tvecs !! 0%nat = Some tvec ->
  rvecs !! 0%nat = Some rvec ->
  Aruco_node.publish_tf self = true ->
  truthy_str (Aruco_node.camera_frame self) = false ->
  Aruco_node.image_callback self img_msg = ([], inl (AttributeError "info")).
Proof.
  intros Hinfo Hdetect Hunpack Ht Hr Htf Hframe.
  rewrite (image_callback_detected _ _ _ _ _ _ _ _ Hinfo Hdetect Hunpack).
  destruct (Aruco_node.new_messages self info img_msg) as [pose_array markers].
  rewrite (marker_loop_step _ _ _ _ _ _ _ _ _ tvec rvec Ht Hr), Htf.
  cbv zeta. rewrite broadcast_raises by exact Hframe. reflexivity.
Qed.

(** A node constructed without the camera_frame parameter holds the empty
    string in [camera_frame], which is falsy, and is not None. *)
Lemma init_camera_frame_unset (overrides : gmap string PyValue) t
    (self : Aruco_node.ArucoNode) :
  Aruco_node.__init__ overrides = (t, inr self) ->
  overrides !! "camera_frame" = None ->
  Aruco_node.camera_frame self = Some "" /\
  truthy_str (Aruco_node.camera_frame self) = false.
Proof.
  intros Hinit Hunset. apply init_returns in Hinit as (dictionary & parameters & ->).
  cbn [Aruco_node.camera_frame]. rewrite Hunset. auto.
Qed.

(** *** Transforms, when the broadcast goes through *)

Lemma broadcast_returns (self : Aruco_node.ArucoNode) img_msg child trans quat t :
  Aruco_node.broadcast self img_msg child trans quat = (t, inr tt) ->
  exists tf, t = [SendTransform tf] /\
             child_frame_id tf = child /\
             translation (transform tf) = trans /\
             rotation (transform tf) = Aruco_node.quaternion_msg quat.
Proof.
  unfold Aruco_node.broadcast.
  destruct (truthy_str _); [|discriminate]. bind_step.
  destruct (Aruco_node.br self); [|discriminate].
  intros H. injection H as <-. eexists. split; [reflexivity|]. cbn. auto.
Qed.

(** With publish_tf on, a loop that returns has broadcast one transform
    per marker, in order, each matching the marker's id and pose.  (With
    the camera frame unset the loop returns only over no marker at all.) *)
Lemma marker_loop_transforms (self : Aruco_node.ArucoNode) img_msg rvecs tvecs ids :
  Aruco_node.publish_tf self = true ->
  forall i pose_array markers t pose_array' markers',
    Aruco_node.marker_loop self img_msg rvecs tvecs i ids (pose_array, markers)
      = (t, inr (pose_array', markers')) ->
    exists tfs poses,
      t = SendTransform <$> tfs /\
      am_poses markers' = am_poses markers ++ poses /\
      pa_poses pose_array' = pa_poses pose_array ++ poses /\
      Forall3 transform_of_pose tfs ids poses.
Proof.
  intros Htf.
  induction ids as [|marker_id ids IH]; intros i pose_array markers t pa' am' H.
  - cbn in H. injection H as <- <- <-. exists [], [].
    rewrite !app_nil_r. repeat split. constructor.
  - destruct (tvecs !! i) as [tvec|] eqn:Ht;
      [|rewrite marker_loop_index_error in H by auto; discriminate].
    destruct (rvecs !! i) as [rvec|] eqn:Hr;
      [|rewrite marker_loop_index_error in H by auto; discriminate].
    rewrite (marker_loop_step _ _ _ _ _ _ _ _ _ tvec rvec Ht Hr), Htf in H.
    cbv zeta in H.
    match type of H with
    | ?m ≫= _ = _ => destruct m as [t1 [e|[]]] eqn:Hsend
    end; [rewrite bind_trace_raise in H; discriminate|].
    apply broadcast_returns in Hsend as (tf & -> & Hchild & Htrans & Hrot).
    rewrite bind_trace_return in H.
    match type of H with
    | context [ trace ?m ] => destruct m as [t2 r2] eqn:Hrest
    end.
    cbn [trace result fst snd] in H. injection H as <- ->.
    apply IH in Hrest as (tfs & poses & -> & Hp1 & Hp2 & Hall).
    cbn in Hp1, Hp2.
    exists (tf :: tfs), (Aruco_node.marker_pose tvec rvec :: poses).
    rewrite Hp1, Hp2, <- !app_assoc.
    repeat split. constructor; [|exact Hall].
    unfold transform_of_pose. rewrite Hchild, Htrans, Hrot.
    destruct tvec as [[t0 t1] t2]. cbn. auto.
Qed.

(** In a callback run with publish_tf on, the transforms broadcast before
    the marker message is published are those of its ids and poses. *)
Lemma transforms_match_published_markers (self : Aruco_node.ArucoNode)
    img_msg topic markers :
  Aruco_node.publish_tf self = true ->
  Publish topic (MArucoMarkers markers)
    ∈ trace (Aruco_node.image_callback self img_msg) ->
  exists tfs rest,
    trace (Aruco_node.image_callback self img_msg)
      = (SendTransform <$> tfs) ++ rest /\
    Forall3 transform_of_pose tfs (marker_ids markers) (am_poses markers).
Proof.
  intros Htf Hin.
  destruct (image_callback_publish_inv self img_msg topic _ Hin)
    as (info & corners & ids & rejected & rvecs & tvecs & t & pa & am
        & Hinfo & Hdetect & Hunpack & Hloop & Hcase); [discriminate|].
  destruct Hcase as [[_ Heq]|[_ Heq]]; [discriminate Heq|]. injection Heq as ->.
  rewrite (image_callback_trace _ _ _ _ _ _ _ _ _ _ _ Hinfo Hdetect Hunpack Hloop).
  pose proof (loop_from_zero_copied _ _ _ _ _ _ _ _ _ Hloop) as (_ & _ & Hids & _).
  unfold Aruco_node.new_messages in Hloop. cbv zeta in Hloop.
  apply (marker_loop_transforms self img_msg rvecs tvecs ids Htf) in Hloop
    as (tfs & poses & -> & Hp & _ & Hall).
  cbn in Hp. rewrite Hids, Hp. eexists tfs, _. split; [reflexivity|exact Hall].
Qed.

(** *** The executor *)

Lemma dispatch_image (self : Aruco_node.ArucoNode) topic msg :
  (exists t e, Aruco_node.dispatch self (Aruco_node.ImageEvent topic msg) = (t, inl e)) \/
  (exists t, Aruco_node.dispatch self (Aruco_node.ImageEvent topic msg) = (t, inr self)).
Proof.
  cbn [Aruco_node.dispatch].
  destruct (decide _) as [_|_]; [|right; eexists; reflexivity].
  destruct (Aruco_node.image_callback self msg) as [t [e|[]]].
  - left. eexists _, _. reflexivity.
  - right. eexists. rewrite bind_trace_return. reflexivity.
Qed.

(** Once no CameraInfo subscription is alive, the node stays as it is. *)
Lemma spin_without_info_subscription (self : Aruco_node.ArucoNode) events :
  (forall topic,
     {| sub_type := CameraInfoT; sub_topic := topic |} ∉ Aruco_node.subscriptions self) ->
  Aruco_node.node (Aruco_node.spin self events) = self.
Proof.
  intros Hsubs. induction events as [|ev events IH]; [reflexivity|].
  cbn [Aruco_node.spin]. destruct ev as [topic msg|topic msg].
  - cbn [Aruco_node.dispatch]. destruct (decide _) as [Hin|_].
    + exfalso. exact (Hsubs topic Hin).
    + cbn. exact IH.
  - destruct (dispatch_image self topic msg) as [(t & x & ->)|(t & ->)].
    + reflexivity.
    + cbn. exact IH.
Qed.

(** Before calibration, messages other than the awaited CameraInfo leave
    the node as it is and do not end the run. *)
Lemma spin_before_calibration (self : Aruco_node.ArucoNode) topic pre rest :
  Aruco_node.info_msg self = None ->
  (forall tp, {| sub_type := CameraInfoT; sub_topic := tp |}
                ∈ Aruco_node.subscriptions self -> tp = topic) ->
  (forall m, Aruco_node.CameraInfoEvent topic m ∉ pre) ->
  Aruco_node.node (Aruco_node.spin self (pre ++ rest))
    = Aruco_node.node (Aruco_node.spin self rest) /\
  Aruco_node.crashed (Aruco_node.spin self (pre ++ rest))
    = Aruco_node.crashed (Aruco_node.spin self rest).
Proof.
  intros Hinfo Honly. induction pre as [|ev pre IH]; intros Hpre; [auto|].
  assert (Hpre' : forall m, Aruco_node.CameraInfoEvent topic m ∉ pre).
  { intros m Hm. apply (Hpre m). right. exact Hm. }
  specialize (IH Hpre').
  cbn [app Aruco_node.spin]. destruct ev as [tp msg|tp msg].
  - cbn [Aruco_node.dispatch]. destruct (decide _) as [Hin|_].
    + exfalso. apply (Hpre msg). rewrite <- (Honly tp Hin). left.
    + cbn. exact IH.
  - cbn [Aruco_node.dispatch]. destruct (decide _) as [_|_].
    + rewrite (image_callback_uncalibrated self msg Hinfo).
      cbn. exact IH.
    + cbn. exact IH.
Qed.

Lemma calibration_latched (self : Aruco_node.ArucoNode) image_sub pre msg post :
  Aruco_node.info_msg self = None ->
  sub_type (Aruco_node.info_sub self) = CameraInfoT ->
  sub_type image_sub = ImageT ->
  Aruco_node.subscriptions self = [Aruco_node.info_sub self; image_sub] ->
  (forall m, Aruco_node.CameraInfoEvent (sub_topic (Aruco_node.info_sub self)) m ∉ pre) ->
  let run :=
    Aruco_node.spin self
      (pre ++ Aruco_node.CameraInfoEvent (sub_topic (Aruco_node.info_sub self)) msg
           :: post) in
  Aruco_node.info_msg (Aruco_node.node run) = Some msg /\
  Aruco_node.intrinsic_mat (Aruco_node.node run) = Some (reshape_3_3 (k msg)) /\
  Aruco_node.distortion (Aruco_node.node run) = Some (d msg) /\
  forall topic,
    {| sub_type := CameraInfoT; sub_topic := topic |}
      ∉ Aruco_node.subscriptions (Aruco_node.node run).
Proof.
  intros Hinfo Htype Himage Hsubs Hpre run. subst run.
  destruct (Aruco_node.info_sub self) as [ty info_topic] eqn:Hsub.
  cbn in Htype, Hpre |- *. subst ty.
  destruct image_sub as [ty image_topic]. cbn in Himage. subst ty.
  destruct (spin_before_calibration self info_topic pre
              (Aruco_node.CameraInfoEvent info_topic msg :: post) Hinfo) as [-> _].
  { intros tp Hin. rewrite Hsubs in Hin.
    apply elem_of_cons in Hin as [Heq|Hin]; [congruence|].
    apply list_elem_of_singleton in Hin. discriminate. }
  { exact Hpre. }
  cbn [Aruco_node.spin Aruco_node.dispatch].
  destruct (decide _) as [_|Hout]; [|exfalso; apply Hout; rewrite Hsubs; left].
  unfold Aruco_node.info_callback. cbn [mret W_ret].
  rewrite Hsubs, Hsub. cbn [destroy_subscription].
  destruct (decide _) as [_|Hne]; [|contradiction].
  cbn [Aruco_node.node]. rewrite spin_without_info_subscription.
  - cbn. auto using not_elem_of_nil.
    repeat split. intros topic Hin.
    apply list_elem_of_singleton in Hin. discriminate.
  - cbn. intros topic Hin. apply list_elem_of_singleton in Hin. discriminate.
Qed.

(** C4.  From construction on, the first CameraInfo message on the
    subscribed topic is stored as received, the nine numbers of its [k] as
    the three rows of the intrinsic matrix (k0 k1 k2), (k3 k4 k5),
    (k6 k7 k8), and its coefficients [d] as they are, and the subscription
    is destroyed; whatever arrives afterwards, further CameraInfo messages
    included, the cached calibration is that of the first message. *)
Theorem calibration_consumed_once
    (overrides : gmap string PyValue) t (self : Aruco_node.ArucoNode)
    (pre post : list Aruco_node.Event) (msg : CameraInfo) :
  Aruco_node.__init__ overrides = (t, inr self) ->
  (forall m, Aruco_node.CameraInfoEvent (sub_topic (Aruco_node.info_sub self)) m ∉ pre) ->
  let run :=
    Aruco_node.spin self
      (pre ++ Aruco_node.CameraInfoEvent (sub_topic (Aruco_node.info_sub self)) msg
           :: post) in
  Aruco_node.info_msg (Aruco_node.node run) = Some msg /\
  Aruco_node.intrinsic_mat (Aruco_node.node run)
    = Some (let '(k0, k1, k2, k3, k4, k5, k6, k7, k8) := k msg in
            ((k0, k1, k2), (k3, k4, k5), (k6, k7, k8))) /\
  Aruco_node.distortion (Aruco_node.node run) = Some (d msg) /\
  forall topic,
    {| sub_type := CameraInfoT; sub_topic := topic |}
      ∉ Aruco_node.subscriptions (Aruco_node.node run).
Proof.
  intros Hinit Hpre.
  destruct (init_returns overrides t self Hinit) as (dictionary & parameters & ->).
  change (let '(k0, k1, k2, k3, k4, k5, k6, k7, k8) := k msg in
          ((k0, k1, k2), (k3, k4, k5), (k6, k7, k8)))
    with (reshape_3_3 (k msg)).
  eapply (calibration_latched _ {| sub_type := ImageT; sub_topic := _ |});
    [reflexivity | reflexivity | reflexivity | reflexivity | exact Hpre].
Qed.

End Node_properties.

(** ** The model at work, and the theorems at concrete inputs *)

Example init_default :
  @Aruco_node.__init__ two_markers ∅
  = ([], inr (fixture_node two_markers 6 "" false None)).
Proof. vm_compute. reflexivity. Qed.

Example init_publish_tf :
  @Aruco_node.__init__ two_markers {["publish_tf" := PyBool true]}
  = ([], inr (fixture_node two_markers 6 "" true None)).
Proof. vm_compute. reflexivity. Qed.

Example init_publish_tf_camera_frame :
  @Aruco_node.__init__ two_markers
     (<["camera_frame" := PyStr "cam"]> {["publish_tf" := PyBool true]})
  = ([], inr (fixture_node two_markers 6 "cam" true None)).
Proof. vm_compute. reflexivity. Qed.

Example info_callback_calibrates :
  @Aruco_node.info_callback two_markers
     (fixture_node two_markers 6 "" true None) a_camera_info
  = ([], inr (fixture_node two_markers 6 "" true (Some a_camera_info))).
Proof. reflexivity. Qed.

(** Two markers seen, no transforms asked for: both messages go out. *)
Example two_markers_published :
  @Aruco_node.image_callback two_markers (fixture_bridge two_markers tt)
     fixture_transformations
     (fixture_node two_markers 6 "" false (Some a_camera_info)) an_image
  = ([ Publish "aruco_poses"
         (MPoseArray {| pa_header := image_header ""; pa_poses := two_poses |});
       Publish "aruco_markers"
         (MArucoMarkers {| am_header := image_header ""; marker_ids := [7; 3];
                           am_poses := two_poses |}) ],
     inr tt).
Proof. vm_compute. reflexivity. Qed.

(** Transforms asked for and the camera frame named: one transform per
    marker, then both messages. *)
Example two_markers_broadcast :
  trace (@Aruco_node.image_callback two_markers (fixture_bridge two_markers tt)
           fixture_transformations
           (fixture_node two_markers 6 "cam" true (Some a_camera_info)) an_image)
  = [ SendTransform
        {| tf_header := image_header "cam"; child_frame_id := "marker_7";
           transform :=
             {| translation := {| vec_x := 1; vec_y := 2; vec_z := 3 |};
                rotation := {| quat_x := 0.1; quat_y := 0.2; quat_z := 0.3;
                               quat_w := 0 |} |} |}%float;
      SendTransform
        {| tf_header := image_header "cam"; child_frame_id := "marker_3";
           transform :=
             {| translation := {| vec_x := 4; vec_y := 5; vec_z := 6 |};
                rotation := {| quat_x := 0.4; quat_y := 0.5; quat_z := 0.6;
                               quat_w := 0 |} |} |}%float;
      Publish "aruco_poses"
        (MPoseArray {| pa_header := image_header "cam"; pa_poses := two_poses |});
      Publish "aruco_markers"
        (MArucoMarkers {| am_header := image_header "cam"; marker_ids := [7; 3];
                          am_poses := two_poses |}) ].
Proof. vm_compute. reflexivity. Qed.

Lemma image_without_calibration_witness :
  let self := fixture_node two_markers 6 "" false None in
  Aruco_node.info_msg self = None /\
  @Aruco_node.image_callback two_markers (fixture_bridge two_markers tt)
     fixture_transformations self an_image
    = ([LogWarn "No camera info has been received!"], inr tt) /\
  forall topic,
    let run :=
      @Aruco_node.spin two_markers (fixture_bridge two_markers tt)
         fixture_transformations self [Aruco_node.ImageEvent topic an_image] in
    Aruco_node.node run = self /\
    Aruco_node.crashed run = None /\
    (forall tp m, Publish tp m ∉ Aruco_node.effects run) /\
    (forall tf, SendTransform tf ∉ Aruco_node.effects run).
Proof.
  split; [reflexivity|].
  apply (@image_without_calibration_is_dropped two_markers
           (fixture_bridge two_markers tt) fixture_transformations).
  reflexivity.
Defined.

Lemma no_markers_witness :
  let self := fixture_node no_marker 6 "" true (Some a_camera_info) in
  let callback :=
    @Aruco_node.image_callback no_marker (fixture_bridge no_marker tt)
       fixture_transformations self an_image in
  Aruco_node.info_msg self = Some a_camera_info /\
  @detectMarkers no_marker tt 6 {| cornerRefinementMethod := 0 |} = (tt, None, tt) /\
  callback = ([], inr tt) /\
  (forall topic m, Publish topic m ∉ trace callback) /\
  (forall t, SendTransform t ∉ trace callback) /\
  forall topic,
    @Aruco_node.spin no_marker (fixture_bridge no_marker tt)
       fixture_transformations self [Aruco_node.ImageEvent topic an_image]
    = {| Aruco_node.effects := []; Aruco_node.node := self;
         Aruco_node.crashed := None |}.
Proof.
  split; [reflexivity|]. split; [reflexivity|].
  apply (@no_markers_nothing_published no_marker (fixture_bridge no_marker tt)
           fixture_transformations _ an_image a_camera_info tt tt);
    reflexivity.
Defined.

Lemma invalid_dictionary_name_witness :
  let overrides : gmap string PyValue :=
    {["aruco_dictionary_id" := PyStr "DICT_BOGUS"]} in
  parameter_value overrides "aruco_dictionary_id"
    = Some (get_parameter_value (PyStr "DICT_BOGUS")) /\
  "DICT_BOGUS" <> "CUSTOM" /\
  ("DICT_BOGUS" ∉ (@aruco_namespace two_markers).*1) /\
  @Aruco_node.__init__ two_markers overrides
  = ([ LogError "bad aruco_dictionary_id: DICT_BOGUS";
       LogError ("valid options: DICT_4X4_50" +:+ (newline +:+ ("DICT_5X5_100"
                 +:+ (newline +:+ "DICT_5X5_250")))) ],
     inl (UnboundLocalError "dictionary_id")).
Proof.
  assert (H1 : parameter_value {["aruco_dictionary_id" := PyStr "DICT_BOGUS"]}
                 "aruco_dictionary_id"
               = Some (get_parameter_value (PyStr "DICT_BOGUS")))
    by (vm_compute; reflexivity).
  assert (H2 : "DICT_BOGUS" <> "CUSTOM") by discriminate.
  assert (H3 : "DICT_BOGUS" ∉ (@aruco_namespace two_markers).*1) by compute_done.
  split; [exact H1|]. split; [exact H2|]. split; [exact H3|].
  exact (@invalid_dictionary_name_raises_after_logging two_markers _ _ H1 H2 H3).
Defined.

Lemma charuco_board_squares_y_witness :
  @Aruco_node.__init__ two_markers ∅
    = ([], inr (fixture_node two_markers 6 "" false None)) /\
  exists x l,
    parameter_value ∅ "charuco_square_x" = Some x /\
    parameter_value ∅ "charuco_square_length" = Some l /\
    squaresX (Aruco_node.charuco_board (fixture_node two_markers 6 "" false None))
      = integer_value x /\
    squaresY (Aruco_node.charuco_board (fixture_node two_markers 6 "" false None))
      = integer_value x /\
    squareLength (Aruco_node.charuco_board (fixture_node two_markers 6 "" false None))
      = double_value l.
Proof.
  split; [exact init_default|].
  exact (@charuco_board_squares_y_read_from_square_x two_markers ∅ [] _ init_default).
Defined.

(** With the defaults the board is 7 by 7, though charuco_square_y is 5. *)
Example default_board_is_seven_by_seven :
  squaresX (Aruco_node.charuco_board (fixture_node two_markers 6 "" false None)) = 7 /\
  squaresY (Aruco_node.charuco_board (fixture_node two_markers 6 "" false None)) = 7 /\
  (integer_value <$> parameter_value ∅ "charuco_square_y") = Some 5.
Proof. vm_compute. repeat split. Qed.

Example published_messages_two_markers :
  let self := fixture_node two_markers 6 "" false (Some a_camera_info) in
  let rvecs := [(0.1, 0.2, 0.3); (0.4, 0.5, 0.6)]%float in
  let tvecs := [(1, 2, 3); (4, 5, 6)]%float in
  let published :=
    trace (@Aruco_node.image_callback two_markers (fixture_bridge two_markers tt)
             fixture_transformations self an_image) in
  (exists pose_array markers,
     Publish "aruco_poses" (MPoseArray pose_array) ∈ published /\
     Publish "aruco_markers" (MArucoMarkers markers) ∈ published) /\
  (forall topic markers,
     Publish topic (MArucoMarkers markers) ∈ published ->
     marker_ids markers = [7; 3] /\
     length (am_poses markers) = 2%nat /\
     forall i, (i < 2)%nat ->
       @pose_copied two_markers fixture_transformations rvecs tvecs
         (am_poses markers) i).
Proof.
  destruct (@published_messages_hold_library_output two_markers
              (fixture_bridge two_markers tt) fixture_transformations
              (fixture_node two_markers 6 "" false (Some a_camera_info)) an_image
              a_camera_info tt tt [7; 3] _ _ eq_refl eq_refl eq_refl eq_refl eq_refl)
    as (Hpub & _ & Hmarkers).
  split; [apply Hpub; left; reflexivity|exact Hmarkers].
Qed.

Lemma library_output_lost_witness :
  let self := fixture_node two_markers 6 "" true (Some a_camera_info) in
  let callback :=
    @Aruco_node.image_callback two_markers (fixture_bridge two_markers tt)
      fixture_transformations self an_image in
  @Aruco_node.__init__ two_markers {["publish_tf" := PyBool true]}
  = ([], inr (fixture_node two_markers 6 "" true None)) /\
  Aruco_node.publish_tf self = true /\
  Aruco_node.camera_frame self = Some "" /\
  trace callback = [] /\
  result callback = inl (AttributeError "info").
Proof.
  intros self callback.
  split; [exact init_publish_tf|]. split; [reflexivity|]. split; [reflexivity|].
  apply (@library_output_copied_but_lost_without_camera_frame two_markers
           (fixture_bridge two_markers tt) fixture_transformations
           self an_image a_camera_info tt tt [7; 3]
           [(0.1, 0.2, 0.3); (0.4, 0.5, 0.6)]%float [(1, 2, 3); (4, 5, 6)]%float);
    first [reflexivity | discriminate].
Defined.

Lemma published_markers_witness :
  let self := fixture_node two_markers 6 "" false (Some a_camera_info) in
  let markers :=
    {| am_header := image_header ""; marker_ids := [7; 3]; am_poses := two_poses |} in
  let published :=
    trace (@Aruco_node.image_callback two_markers (fixture_bridge two_markers tt)
             fixture_transformations self an_image) in
  Publish "aruco_markers" (MArucoMarkers markers) ∈ published /\
  length (marker_ids markers) = length (am_poses markers) /\
  (exists pose_array,
     Publish "aruco_poses" (MPoseArray pose_array) ∈ published) /\
  (forall tp pose_array,
     Publish tp (MPoseArray pose_array) ∈ published ->
     pa_poses pose_array = am_poses markers /\
     pa_header pose_array = am_header markers).
Proof.
  intros self markers published.
  assert (Hin : Publish "aruco_markers" (MArucoMarkers markers) ∈ published).
  { subst published self markers. rewrite two_markers_published.
    apply list_elem_of_further, list_elem_of_here. }
  split; [exact Hin|].
  destruct (@published_markers_agree_with_pose_array two_markers
              (fixture_bridge two_markers tt) fixture_transformations
              self an_image "aruco_markers" markers Hin) as (Hlen & _ & Hpa & Hsame).
  split; [exact Hlen|]. split; [exact Hpa|exact Hsame].
Defined.

Lemma transform_broadcast_raises_witness :
  let self := fixture_node two_markers 6 "" true (Some a_camera_info) in
  Aruco_node.publish_tf self = true /\
  truthy_str (Aruco_node.camera_frame self) = false /\
  @Aruco_node.image_callback two_markers (fixture_bridge two_markers tt)
     fixture_transformations self an_image
  = ([], inl (AttributeError "info")).
Proof.
  split; [reflexivity|]. split; [reflexivity|].
  apply (@transform_broadcast_raises_when_camera_frame_unset two_markers
           (fixture_bridge two_markers tt) fixture_transformations
           (fixture_node two_markers 6 "" true (Some a_camera_info)) an_image
           a_camera_info tt tt 7 [3]
           [(0.1, 0.2, 0.3); (0.4, 0.5, 0.6)]%float [(1, 2, 3); (4, 5, 6)]%float
           (0.1, 0.2, 0.3)%float (1, 2, 3)%float);
    reflexivity.
Defined.

(** The whole process: started with publish_tf alone, calibrated, the
    first frame with markers ends it, nothing having been sent. *)
Example main_with_publish_tf_crashes :
  @Aruco_node.main two_markers (fixture_bridge two_markers tt)
     fixture_transformations {["publish_tf" := PyBool true]}
     [ Aruco_node.CameraInfoEvent "/camera/camera_info" a_camera_info;
       Aruco_node.ImageEvent "/camera/image_raw" an_image ]
  = ([], Some (AttributeError "info")).
Proof. vm_compute. reflexivity. Qed.

(** The same from the node as constructed. *)
Example run_with_publish_tf_crashes :
  let run :=
    @Aruco_node.spin two_markers (fixture_bridge two_markers tt)
       fixture_transformations (fixture_node two_markers 6 "" true None)
       [ Aruco_node.CameraInfoEvent "/camera/camera_info" a_camera_info;
         Aruco_node.ImageEvent "/camera/image_raw" an_image ] in
  Aruco_node.effects run = [] /\
  Aruco_node.crashed run = Some (AttributeError "info").
Proof. vm_compute. split; reflexivity. Qed.

Lemma calibration_consumed_once_witness :
  let self := fixture_node two_markers 6 "" false None in
  let pre := [Aruco_node.ImageEvent "/camera/image_raw" an_image] in
  let post :=
    [ Aruco_node.CameraInfoEvent "/camera/camera_info" another_camera_info;
      Aruco_node.ImageEvent "/camera/image_raw" an_image;
      Aruco_node.CameraInfoEvent "/camera/camera_info" another_camera_info ] in
  let run :=
    @Aruco_node.spin two_markers (fixture_bridge two_markers tt)
       fixture_transformations self
       (pre ++ Aruco_node.CameraInfoEvent "/camera/camera_info" a_camera_info :: post) in
  @Aruco_node.__init__ two_markers ∅ = ([], inr self) /\
  (forall m, Aruco_node.CameraInfoEvent "/camera/camera_info" m ∉ pre) /\
  Aruco_node.info_msg (Aruco_node.node run) = Some a_camera_info /\
  Aruco_node.intrinsic_mat (Aruco_node.node run)
    = Some ((500, 0, 320), (0, 500, 240), (0, 0, 1))%float /\
  Aruco_node.distortion (Aruco_node.node run) = Some [0; 0; 0; 0; 0]%float /\
  forall topic,
    {| sub_type := CameraInfoT; sub_topic := topic |}
      ∉ Aruco_node.subscriptions (Aruco_node.node run).
Proof.
  intros self pre post run.
  assert (Hpre : forall m, Aruco_node.CameraInfoEvent "/camera/camera_info" m ∉ pre).
  { intros m Hin. apply list_elem_of_singleton in Hin. discriminate Hin. }
  split; [exact init_default|]. split; [exact Hpre|].
  exact (@calibration_consumed_once two_markers (fixture_bridge two_markers tt)
           fixture_transformations ∅ [] self pre post a_camera_info
           init_default Hpre).
Defined.

(** * Further properties *)

(** ** Construction *)

Section Construction.
Context `{cv2 : Cv2}.

Lemma list_index_found (l : list string) x n :
  list_index l x = inr n -> 0 <= n < Z.of_nat (length l) /\ l !! Z.to_nat n = Some x.
Proof.
  revert n. induction l as [|y l IH]; intros n H; [discriminate|].
  cbn [list_index] in H. destruct (String.eqb_spec y x) as [->|_].
  - injection H as <-. cbn. split; [lia|reflexivity].
  - destruct (list_index l x) as [e|m]; [discriminate|]. injection H as <-.
    destruct (IH m eq_refl) as [Hm Hl]. cbn [length]. split; [lia|].
    replace (Z.to_nat (m + 1)) with (S (Z.to_nat m)) by lia. exact Hl.
Qed.

Lemma list_index_absent (l : list string) x :
  x ∉ l -> list_index l x = inl (ValueError "x not in list").
Proof.
  induction l as [|y l IH]; intros Hx; [reflexivity|].
  apply not_elem_of_cons in Hx as [Hne Hx]. cbn [list_index].
  destruct (String.eqb_spec y x); [congruence|]. rewrite (IH Hx). reflexivity.
Qed.

(** [__init__] as its two steps that can fail, the dictionary and the
    corner refinement, followed by the record of what was read. *)
Lemma init_unfold (overrides : gmap string PyValue) :
  let read := read_parameter overrides in
  Aruco_node.__init__ overrides
  = (if negb (String.eqb (string_value (read "aruco_dictionary_id" (PyStr "DICT_5X5_250")))
                "CUSTOM")
     then Aruco_node.named_dictionary
            (string_value (read "aruco_dictionary_id" (PyStr "DICT_5X5_250")))
     else mret (Dictionary_create
                  (integer_value (read "dictionary_bits" (PyInt (-1))))
                  (integer_value (read "dictionary_size" (PyInt (-1))))
                  (integer_value (read "dictionary_seed" (PyInt 0))))) ≫= fun dictionary =>
    (if bool_value (read "do_corner_refinement" (PyBool false))
     then lift (list_index Aruco_node.corner_refinement_methods
                  (string_value (read "corner_refinement_method"
                                   (PyStr "CORNER_REFINE_NONE")))) ≫= fun index =>
          mret {| cornerRefinementMethod := index |}
     else mret DetectorParameters_create) ≫= fun parameters =>
    mret (constructed_node overrides dictionary parameters).
Proof.
  cbv zeta. unfold Aruco_node.__init__, read_parameter. cbv zeta.
  read_parameters overrides. repeat bind_step.
  match goal with
  | |- ?m ≫= _ = _ => destruct m as [t1 [e|dictionary]]
  end; [reflexivity|].
  rewrite !bind_trace_return. repeat bind_step.
  match goal with
  | |- context [ ?m ≫= _ ] => destruct m as [t2 [e|parameters]]
  end; [reflexivity|].
  rewrite !bind_trace_return. repeat bind_step. reflexivity.
Qed.

End Construction.

Section Construction_properties.
Context `{cv2 : Cv2}.

Lemma lookup_attr_raises (ns : list (string * ArucoAttr)) name e :
  lookup_attr ns name = inl e -> e = AttributeError name.
Proof.
  induction ns as [|[n b] ns IH]; cbn [lookup_attr]; intros H.
  - injection H as <-. reflexivity.
  - destruct (String.eqb n name); [discriminate|auto].
Qed.

Lemma lift_trace_result {A} (r : Exc A) : (lift r : W Effect A) = ([], r).
Proof. reflexivity. Qed.

Lemma named_dictionary_same_type (name : string) a r :
  __getattribute__ name = inr a ->
  __getattribute__ "DICT_5X5_100" = inr r ->
  type a = type r ->
  Aruco_node.named_dictionary name = ([], Dictionary_get a).
Proof.
  intros Ha Hr Hty. unfold Aruco_node.named_dictionary, Aruco_node.try_dictionary_id.
  rewrite Ha, Hr. destruct (decide (type a ≠ type r)); [contradiction|].
  bind_step. reflexivity.
Qed.

Lemma named_dictionary_other_type (name : string) a :
  __getattribute__ name = inr a ->
  (forall r, __getattribute__ "DICT_5X5_100" = inr r -> type a <> type r) ->
  Aruco_node.named_dictionary name = (bad_dictionary_log name, Dictionary_get a).
Proof.
  intros Ha Hr. unfold Aruco_node.named_dictionary, Aruco_node.try_dictionary_id.
  rewrite Ha. destruct (__getattribute__ "DICT_5X5_100") as [e|r] eqn:Href.
  - unfold __getattribute__ in Href. apply lookup_attr_raises in Href. subst e.
    unfold emit, lift. rewrite !bind_trace_return. reflexivity.
  - destruct (decide (type a ≠ type r)) as [_|Heq];
      [|exfalso; apply Heq, (Hr r eq_refl)].
    unfold emit, lift. rewrite !bind_trace_return. reflexivity.
Qed.

Lemma named_dictionary_unbound (name : string) e :
  __getattribute__ name = inl e ->
  Aruco_node.named_dictionary name
  = (bad_dictionary_log name, inl (UnboundLocalError "dictionary_id")).
Proof.
  intros Ha. unfold Aruco_node.named_dictionary, Aruco_node.try_dictionary_id.
  rewrite Ha. unfold __getattribute__ in Ha. apply lookup_attr_raises in Ha.
  subst e. reflexivity.
Qed.

Lemma named_dictionary_trace (name : string) :
  trace (Aruco_node.named_dictionary name) = [] \/
  trace (Aruco_node.named_dictionary name) = bad_dictionary_log name.
Proof.
  destruct (__getattribute__ name) as [e|a] eqn:Ha.
  - right. rewrite (named_dictionary_unbound name e Ha). reflexivity.
  - destruct (__getattribute__ "DICT_5X5_100") as [e|r] eqn:Hr.
    + right. rewrite (named_dictionary_other_type name a Ha); [reflexivity|].
      intros r Hr'. rewrite Hr in Hr'. discriminate Hr'.
    + destruct (decide (type a = type r)) as [Heq|Hne].
      * left. rewrite (named_dictionary_same_type name a r Ha Hr Heq). reflexivity.
      * right. rewrite (named_dictionary_other_type name a Ha); [reflexivity|].
        intros r' Hr'. rewrite Hr in Hr'. injection Hr' as <-. exact Hne.
Qed.

(** The second step of [__init__]: its trace is empty. *)
Lemma refinement_step_trace (flag : bool) (method : string) :
  trace ((if flag
          then lift (list_index Aruco_node.corner_refinement_methods method) ≫= fun index =>
               mret {| cornerRefinementMethod := index |}
          else mret DetectorParameters_create) : W Effect DetectorParameters) = [].
Proof.
  destruct flag; [|reflexivity].
  unfold lift. destruct (list_index _ _); reflexivity.
Qed.

(** X1.  With aruco_dictionary_id = "CUSTOM" the dictionary is made by
    [Dictionary_create(dictionary_bits, dictionary_size, dictionary_seed)],
    in that order of arguments; nothing is looked up in cv2.aruco and
    nothing is logged, and construction returns unless the corner
    refinement step raises. *)
Theorem custom_dictionary_from_parameters
    (overrides : gmap string PyValue) (name dict_bits dict_size dict_seed flag
       : ParameterValue) :
  parameter_value overrides "aruco_dictionary_id" = Some name ->
  parameter_value overrides "dictionary_bits" = Some dict_bits ->
  parameter_value overrides "dictionary_size" = Some dict_size ->
  parameter_value overrides "dictionary_seed" = Some dict_seed ->
  parameter_value overrides "do_corner_refinement" = Some flag ->
  string_value name = "CUSTOM" ->
  trace (Aruco_node.__init__ overrides) = [] /\
  (forall self,
     result (Aruco_node.__init__ overrides) = inr self ->
     Aruco_node.aruco_dictionary self
     = Dictionary_create (integer_value dict_bits) (integer_value dict_size)
         (integer_value dict_seed)) /\
  (bool_value flag = false ->
   exists self, result (Aruco_node.__init__ overrides) = inr self).
Proof.
  intros Hname Hbits Hsize Hseed Hflag Hcustom.
  read_hypothesis Hname. read_hypothesis Hbits. read_hypothesis Hsize.
  read_hypothesis Hseed. read_hypothesis Hflag.
  rewrite init_unfold. cbv zeta. unfold read_parameter.
  rewrite Hname, Hbits, Hsize, Hseed, Hflag, Hcustom.
  change (String.eqb "CUSTOM" "CUSTOM") with true. cbn [negb].
  bind_step.
  pose proof (refinement_step_trace (bool_value flag)
                (string_value (get_parameter_value
                   (default (PyStr "CORNER_REFINE_NONE")
                      (overrides !! "corner_refinement_method"))))) as Htrace.
  match goal with
  | |- context [ ?m ≫= _ ] => destruct m as [t2 [e|parameters]] eqn:Hstep
  end.
  - cbn [trace fst] in Htrace. subst t2. rewrite bind_trace_raise.
    split; [reflexivity|]. split; [intros self H; discriminate H|].
    intros Hoff. rewrite Hoff in Hstep. discriminate Hstep.
  - cbn [trace fst] in Htrace. subst t2. bind_step.
    split; [reflexivity|]. split.
    + intros self H. injection H as <-. reflexivity.
    + intros _. eexists. reflexivity.
Qed.

(** The first step of [__init__], by the name read. *)
Lemma init_dictionary_step (overrides : gmap string PyValue) (name : ParameterValue) :
  parameter_value overrides "aruco_dictionary_id" = Some name ->
  string_value name <> "CUSTOM" ->
  Aruco_node.__init__ overrides
  = Aruco_node.named_dictionary (string_value name) ≫= fun dictionary =>
    (if bool_value (read_parameter overrides "do_corner_refinement" (PyBool false))
     then lift (list_index Aruco_node.corner_refinement_methods
                  (string_value (read_parameter overrides "corner_refinement_method"
                                   (PyStr "CORNER_REFINE_NONE")))) ≫= fun index =>
          mret {| cornerRefinementMethod := index |}
     else mret DetectorParameters_create) ≫= fun parameters =>
    mret (constructed_node overrides dictionary parameters).
Proof.
  intros Hname Hcustom. read_hypothesis Hname.
  rewrite init_unfold. cbv zeta. unfold read_parameter. rewrite Hname.
  destruct (String.eqb_spec (string_value name) "CUSTOM"); [contradiction|].
  reflexivity.
Qed.

(** What [__init__] does after a first step with trace [t] and outcome
    [r]: the trace is [t], and a node, if one is returned, holds the
    dictionary of [r]. *)
Lemma init_after_dictionary (overrides : gmap string PyValue) (name : ParameterValue)
    (t : list Effect) (r : Exc Dictionary) :
  parameter_value overrides "aruco_dictionary_id" = Some name ->
  string_value name <> "CUSTOM" ->
  Aruco_node.named_dictionary (string_value name) = (t, r) ->
  trace (Aruco_node.__init__ overrides) = t /\
  (forall e, r = inl e -> result (Aruco_node.__init__ overrides) = inl e) /\
  (forall self, result (Aruco_node.__init__ overrides) = inr self ->
                r = inr (Aruco_node.aruco_dictionary self)).
Proof.
  intros Hname Hcustom Hstep.
  rewrite (init_dictionary_step overrides name Hname Hcustom), Hstep.
  destruct r as [e|dictionary].
  - rewrite bind_trace_raise. split; [reflexivity|].
    split; [intros e' H; injection H as <-; reflexivity|intros self H; discriminate H].
  - rewrite bind_trace_return.
    pose proof (refinement_step_trace
                  (bool_value (read_parameter overrides "do_corner_refinement" (PyBool false)))
                  (string_value (read_parameter overrides "corner_refinement_method"
                                   (PyStr "CORNER_REFINE_NONE")))) as Htrace.
    match goal with
    | |- context [ ?m ≫= _ ] => destruct m as [t2 [e|parameters]]
    end; cbn [trace fst] in Htrace; subst t2.
    + rewrite bind_trace_raise. cbn. rewrite app_nil_r.
      split; [reflexivity|]. split; [intros e' H; discriminate H|intros self H; discriminate H].
    + bind_step. cbn. rewrite app_nil_r.
      split; [reflexivity|]. split; [intros e' H; discriminate H|].
      intros self H. injection H as <-. reflexivity.
Qed.

(** X2.  A name that is an attribute of cv2.aruco of the type of
    DICT_5X5_100 is accepted silently: nothing is logged, the attribute's
    value goes to [Dictionary_get], an exception of that call escapes, and
    a node that is returned holds the dictionary it gave. *)
Theorem known_dictionary_name_is_fetched
    (overrides : gmap string PyValue) (name : ParameterValue) (a r : ArucoAttr) :
  parameter_value overrides "aruco_dictionary_id" = Some name ->
  string_value name <> "CUSTOM" ->
  __getattribute__ (string_value name) = inr a ->
  __getattribute__ "DICT_5X5_100" = inr r ->
  type a = type r ->
  trace (Aruco_node.__init__ overrides) = [] /\
  (forall e, Dictionary_get a = inl e ->
             result (Aruco_node.__init__ overrides) = inl e) /\
  (forall self, result (Aruco_node.__init__ overrides) = inr self ->
                Dictionary_get a = inr (Aruco_node.aruco_dictionary self)).
Proof.
  intros Hname Hcustom Ha Hr Hty.
  exact (init_after_dictionary overrides name [] (Dictionary_get a) Hname Hcustom
           (named_dictionary_same_type _ a r Ha Hr Hty)).
Qed.

(** X3.  A name that is an attribute of cv2.aruco of another type than
    DICT_5X5_100 (a function, a class) is reported in the log, and its value
    is handed to [Dictionary_get] all the same: the local is bound, so no
    UnboundLocalError; what the library call does decides the outcome. *)
Theorem wrong_type_dictionary_name_is_logged_and_used
    (overrides : gmap string PyValue) (name : ParameterValue) (a r : ArucoAttr) :
  parameter_value overrides "aruco_dictionary_id" = Some name ->
  string_value name <> "CUSTOM" ->
  __getattribute__ (string_value name) = inr a ->
  __getattribute__ "DICT_5X5_100" = inr r ->
  type a <> type r ->
  trace (Aruco_node.__init__ overrides) = bad_dictionary_log (string_value name) /\
  (forall e, Dictionary_get a = inl e ->
             result (Aruco_node.__init__ overrides) = inl e) /\
  (forall self, result (Aruco_node.__init__ overrides) = inr self ->
                Dictionary_get a = inr (Aruco_node.aruco_dictionary self)).
Proof.
  intros Hname Hcustom Ha Hr Hty.
  apply (init_after_dictionary overrides name _ (Dictionary_get a) Hname Hcustom).
  apply (named_dictionary_other_type _ a Ha).
  intros r' Hr'. rewrite Hr in Hr'. injection Hr' as <-. exact Hty.
Qed.

(** X4.  Whatever the parameters, [__init__] logs nothing, or exactly the
    two error lines about the dictionary name, and these only when the name
    is not "CUSTOM". *)
Theorem init_logs_only_the_bad_dictionary_name
    (overrides : gmap string PyValue) (name : ParameterValue) :
  parameter_value overrides "aruco_dictionary_id" = Some name ->
  (trace (Aruco_node.__init__ overrides) = [] \/
   trace (Aruco_node.__init__ overrides) = bad_dictionary_log (string_value name)) /\
  (string_value name = "CUSTOM" -> trace (Aruco_node.__init__ overrides) = []).
Proof.
  intros Hname.
  assert (Hcustom_case : string_value name = "CUSTOM" ->
                         trace (Aruco_node.__init__ overrides) = []).
  { intros Hcustom. pose proof Hname as Hname'. read_hypothesis Hname'.
    rewrite init_unfold. cbv zeta. unfold read_parameter.
    rewrite Hname', Hcustom. change (String.eqb "CUSTOM" "CUSTOM") with true.
    cbn [negb]. bind_step.
    pose proof (refinement_step_trace
                  (bool_value (read_parameter overrides "do_corner_refinement" (PyBool false)))
                  (string_value (read_parameter overrides "corner_refinement_method"
                                   (PyStr "CORNER_REFINE_NONE")))) as Htrace.
    unfold read_parameter in Htrace.
    match goal with
    | |- context [ ?m ≫= _ ] => destruct m as [t2 [e|parameters]]
    end; cbn [trace fst] in Htrace; subst t2; [reflexivity|].
    bind_step. reflexivity. }
  split; [|exact Hcustom_case].
  destruct (String.eqb_spec (string_value name) "CUSTOM") as [Hcustom|Hcustom];
    [left; auto|].
  destruct (Aruco_node.named_dictionary (string_value name)) as [t r] eqn:Hstep.
  destruct (init_after_dictionary overrides name t r Hname Hcustom Hstep) as [-> _].
  pose proof (named_dictionary_trace (string_value name)) as Ht.
  rewrite Hstep in Ht. exact Ht.
Qed.

Lemma init_constructed (overrides : gmap string PyValue) t self :
  Aruco_node.__init__ overrides = (t, inr self) ->
  exists dictionary parameters,
    self = constructed_node overrides dictionary parameters /\
    (bool_value (read_parameter overrides "do_corner_refinement" (PyBool false)) = false ->
     parameters = DetectorParameters_create) /\
    (bool_value (read_parameter overrides "do_corner_refinement" (PyBool false)) = true ->
     list_index Aruco_node.corner_refinement_methods
       (string_value (read_parameter overrides "corner_refinement_method"
                        (PyStr "CORNER_REFINE_NONE")))
     = inr (cornerRefinementMethod parameters)).
Proof.
  rewrite init_unfold. cbv zeta.
  match goal with
  | |- ?m ≫= _ = _ -> _ => destruct m as [t1 [e|dictionary]]
  end; [rewrite bind_trace_raise; discriminate|].
  rewrite bind_trace_return.
  destruct (bool_value (read_parameter overrides "do_corner_refinement" (PyBool false))).
  - unfold lift.
    destruct (list_index _ _) as [e|index];
      [rewrite bind_trace_raise; cbn; discriminate|].
    repeat bind_step. cbn. intros H. injection H as _ <-.
    eexists _, _. split; [reflexivity|]. split; [discriminate|reflexivity].
  - repeat bind_step. cbn. intros H. injection H as _ <-.
    eexists _, _. split; [reflexivity|]. split; [reflexivity|discriminate].
Qed.

(** X5.  With do_corner_refinement on, the detector's refinement method
    is the position (0 to 3) of corner_refinement_method in the list NONE,
    SUBPIX, CONTOUR, APRILTAG; with it off, the detector parameters are the
    library's defaults untouched. *)
Theorem corner_refinement_method_is_its_position
    (overrides : gmap string PyValue) t (self : Aruco_node.ArucoNode)
    (flag method : ParameterValue) :
  Aruco_node.__init__ overrides = (t, inr self) ->
  parameter_value overrides "do_corner_refinement" = Some flag ->
  parameter_value overrides "corner_refinement_method" = Some method ->
  (bool_value flag = false ->
   Aruco_node.aruco_parameters self = DetectorParameters_create) /\
  (bool_value flag = true ->
   let n := cornerRefinementMethod (Aruco_node.aruco_parameters self) in
   0 <= n <= 3 /\
   Aruco_node.corner_refinement_methods !! Z.to_nat n = Some (string_value method)).
Proof.
  intros Hinit Hflag Hmethod. read_hypothesis Hflag. read_hypothesis Hmethod.
  apply init_constructed in Hinit as (dictionary & parameters & -> & Hoff & Hon).
  unfold read_parameter in Hoff, Hon. rewrite Hflag in Hoff, Hon.
  rewrite Hmethod in Hon. cbn [Aruco_node.aruco_parameters constructed_node].
  split; [exact Hoff|].
  intros Htrue. cbv zeta. apply Hon, list_index_found in Htrue as [Hrange Hlook].
  cbn in Hrange. split; [lia|exact Hlook].
Qed.

(** X6.  With do_corner_refinement on and a corner_refinement_method that
    is none of the four names, construction never returns a node: the
    search of the list raises ValueError (unless the dictionary step has
    raised before it). *)
Theorem unknown_corner_refinement_method_raises
    (overrides : gmap string PyValue) (name flag method : ParameterValue) :
  parameter_value overrides "aruco_dictionary_id" = Some name ->
  parameter_value overrides "do_corner_refinement" = Some flag ->
  parameter_value overrides "corner_refinement_method" = Some method ->
  bool_value flag = true ->
  string_value method ∉ Aruco_node.corner_refinement_methods ->
  (exists e, result (Aruco_node.__init__ overrides) = inl e) /\
  (string_value name = "CUSTOM" ->
   exists msg, Aruco_node.__init__ overrides = ([], inl (ValueError msg))).
Proof.
  intros Hname Hflag Hmethod Htrue Habsent.
  read_hypothesis Hname. read_hypothesis Hflag. read_hypothesis Hmethod.
  rewrite init_unfold. cbv zeta. unfold read_parameter.
  rewrite Hname, Hflag, Hmethod, Htrue, (list_index_absent _ _ Habsent).
  split.
  - match goal with
    | |- context [ ?m ≫= _ ] => destruct m as [t1 [e|dictionary]]
    end; [rewrite bind_trace_raise; eauto|].
    rewrite bind_trace_return. cbn. eauto.
  - intros ->. change (String.eqb "CUSTOM" "CUSTOM") with true. cbn [negb].
    bind_step. eexists. reflexivity.
Qed.

Lemma constructed_attributes_present (overrides : gmap string PyValue)
    dictionary parameters :
  attributes_present (constructed_node overrides dictionary parameters).
Proof.
  unfold attributes_present. cbn. split; intros ->; discriminate.
Qed.

End Construction_properties.

(** ** The callbacks, further *)

Section Callback_properties.
Context `{cv2 : Cv2} `{bridge : !CvBridge} `{transformations : Transformations}.

(** The three outcomes of a broadcast. *)
Lemma broadcast_cases (self : Aruco_node.ArucoNode) img_msg child trans quat :
  (exists frame,
     Aruco_node.camera_frame self = Some frame /\ frame <> "" /\
     Aruco_node.br self <> None /\
     Aruco_node.broadcast self img_msg child trans quat
     = ([SendTransform
           {| tf_header := {| stamp := stamp (img_header img_msg); frame_id := frame |};
              child_frame_id := child;
              transform := {| translation := trans;
                              rotation := Aruco_node.quaternion_msg quat |} |}],
        inr tt)) \/
  (truthy_str (Aruco_node.camera_frame self) = true /\
   Aruco_node.br self = None /\
   Aruco_node.broadcast self img_msg child trans quat = ([], inl (AttributeError "br"))) \/
  (truthy_str (Aruco_node.camera_frame self) = false /\
   Aruco_node.broadcast self img_msg child trans quat = ([], inl (AttributeError "info"))).
Proof.
  unfold Aruco_node.broadcast.
  destruct (Aruco_node.camera_frame self) as [frame|] eqn:Hframe; cbn [truthy_str].
  - destruct (String.eqb_spec frame "") as [->|Hne]; cbn [negb].
    + right. right. split; reflexivity.
    + bind_step. destruct (Aruco_node.br self) eqn:Hbr.
      * left. exists frame. repeat split; [exact Hne|discriminate].
      * right. left. repeat split.
  - right. right. split; reflexivity.
Qed.

Lemma broadcast_exception (self : Aruco_node.ArucoNode) img_msg child trans quat t e :
  Aruco_node.br self <> None ->
  Aruco_node.broadcast self img_msg child trans quat = (t, inl e) ->
  t = [] /\ e = AttributeError "info".
Proof.
  intros Hbr H.
  destruct (broadcast_cases self img_msg child trans quat)
    as [(f & _ & _ & _ & Heq)|[(_ & Hnone & _)|(_ & Heq)]];
    [rewrite Heq in H; discriminate H|contradiction|].
  rewrite Heq in H. injection H as <- <-. auto.
Qed.

Lemma marker_loop_exception (self : Aruco_node.ArucoNode) img_msg rvecs tvecs ids :
  (Aruco_node.publish_tf self = true -> Aruco_node.br self <> None) ->
  forall i msgs t e,
    Aruco_node.marker_loop self img_msg rvecs tvecs i ids msgs = (t, inl e) ->
    e = IndexError \/ e = AttributeError "info".
Proof.
  intros Hbr. induction ids as [|marker_id ids IH]; intros i [pose_array markers] t e H.
  - discriminate H.
  - destruct (tvecs !! i) as [tvec|] eqn:Ht;
      [|rewrite marker_loop_index_error in H by auto; injection H as _ <-; auto].
    destruct (rvecs !! i) as [rvec|] eqn:Hr;
      [|rewrite marker_loop_index_error in H by auto; injection H as _ <-; auto].
    rewrite (marker_loop_step _ _ _ _ _ _ _ _ _ tvec rvec Ht Hr) in H.
    destruct (Aruco_node.publish_tf self) eqn:Htf.
    + cbv zeta in H.
      match type of H with
      | ?m ≫= _ = _ => destruct m as [t1 [x|[]]] eqn:Hsend
      end.
      * rewrite bind_trace_raise in H. injection H as _ <-.
        apply broadcast_exception in Hsend as [_ ->]; auto.
      * rewrite bind_trace_return in H.
        match type of H with
        | context [ trace ?m ] => destruct m as [t2 r2] eqn:Hrest
        end.
        cbn [trace result fst snd] in H. injection H as _ ->.
        exact (IH _ _ _ _ Hrest).
    + bind_step_in H. exact (IH _ _ _ _ H).
Qed.

(** The board part of the callback, the library's two answers given. *)
Lemma charuco_pose_unfold (self : Aruco_node.ArucoNode) img_msg corners ids cv_image
    n_corners ch_corners ch_ids success rvec tvec :
  interpolateCornersCharuco corners ids cv_image (Aruco_node.charuco_board self)
    = (n_corners, ch_corners, ch_ids) ->
  estimatePoseCharucoBoard ch_corners ch_ids (Aruco_node.charuco_board self)
    (Aruco_node.intrinsic_mat self) (Aruco_node.distortion self)
    = (success, rvec, tvec) ->
  Aruco_node.charuco_pose self img_msg corners ids cv_image
  = if (0 <? n_corners) && success
    then
      match Aruco_node.charuco_pose_pub self with
      | None => raise (AttributeError "charuco_pose_pub")
      | Some pub => emit (Publish (pub_topic pub) (MChArUcoBoard (board_message rvec tvec)))
      end ≫= fun _ =>
      if Aruco_node.publish_tf self
      then Aruco_node.broadcast self img_msg "charuco_board"
             {| vec_x := tvec.1.1; vec_y := tvec.1.2; vec_z := tvec.2 |}
             (Aruco_node.quat_of_rvec rvec)
      else mret tt
    else mret tt.
Proof.
  intros Hi He. unfold Aruco_node.charuco_pose. cbv zeta. rewrite Hi.
  destruct (0 <? n_corners); [|reflexivity]. rewrite He.
  destruct success; [|reflexivity]. destruct tvec as [[t0 t1] t2]. reflexivity.
Qed.

Lemma charuco_pose_exception (self : Aruco_node.ArucoNode) img_msg corners ids cv_image t e :
  attributes_present self ->
  Aruco_node.publish_charuco_pose self = true ->
  Aruco_node.charuco_pose self img_msg corners ids cv_image = (t, inl e) ->
  e = AttributeError "info".
Proof.
  intros [Hbr Hpub] Hon H.
  destruct (interpolateCornersCharuco corners ids cv_image (Aruco_node.charuco_board self))
    as [[n_corners ch_corners] ch_ids] eqn:Hi.
  destruct (estimatePoseCharucoBoard ch_corners ch_ids (Aruco_node.charuco_board self)
              (Aruco_node.intrinsic_mat self) (Aruco_node.distortion self))
    as [[success rvec] tvec] eqn:He.
  rewrite (charuco_pose_unfold _ _ _ _ _ _ _ _ _ _ _ Hi He) in H.
  destruct ((0 <? n_corners) && success); [|discriminate H].
  destruct (Aruco_node.charuco_pose_pub self) as [pub|]; [|exfalso; exact (Hpub Hon eq_refl)].
  unfold emit in H. rewrite bind_trace_return in H.
  destruct (Aruco_node.publish_tf self) eqn:Htf; [|discriminate H].
  match type of H with
  | context [ trace ?m ] => destruct m as [t2 [x|[]]] eqn:Hsend
  end; [|discriminate H].
  cbn [trace result fst snd] in H. injection H as _ <-.
  apply broadcast_exception in Hsend as [_ ->]; auto.
Qed.

Lemma unpack_exception (r : PoseEstimate) e :
  Aruco_node.unpack_pose_estimate r = inl e -> exists msg, e = ValueError msg.
Proof.
  unfold Aruco_node.unpack_pose_estimate.
  destruct (String.ltb _ _), r; intros H; try discriminate H;
    injection H as <-; eauto.
Qed.

Lemma image_callback_exception (self : Aruco_node.ArucoNode) img_msg t e :
  attributes_present self ->
  Aruco_node.image_callback self img_msg = (t, inl e) ->
  callback_exception e.
Proof.
  intros Hattr H. pose proof Hattr as [Hbr Hpub].
  destruct (Aruco_node.info_msg self) as [info|] eqn:Hinfo;
    [|rewrite (image_callback_uncalibrated _ _ Hinfo) in H; discriminate H].
  destruct (detectMarkers (imgmsg_to_cv2 img_msg "mono8")
              (Aruco_node.aruco_dictionary self) (Aruco_node.aruco_parameters self))
    as [[corners [ids|]] rejected] eqn:Hdetect;
    [|rewrite (image_callback_no_ids _ _ _ _ _ Hinfo Hdetect) in H; discriminate H].
  destruct (Aruco_node.unpack_pose_estimate
              (estimatePoseSingleMarkers corners (Aruco_node.marker_size self)
                 (Aruco_node.intrinsic_mat self) (Aruco_node.distortion self)))
    as [x|[rvecs tvecs]] eqn:Hunpack.
  { unfold Aruco_node.image_callback in H. rewrite Hinfo in H. cbv zeta in H.
    destruct (Aruco_node.new_messages self info img_msg) as [pose_array markers].
    rewrite Hdetect, Hunpack in H. injection H as _ <-.
    right. right. exact (unpack_exception _ _ Hunpack). }
  rewrite (image_callback_detected _ _ _ _ _ _ _ _ Hinfo Hdetect Hunpack) in H.
  match type of H with
  | ?m ≫= _ = _ => destruct m as [t1 [x|[pose_array markers]]] eqn:Hloop
  end.
  - rewrite bind_trace_raise in H. injection H as _ <-.
    destruct (marker_loop_exception self img_msg rvecs tvecs ids Hbr _ _ _ _ Hloop)
      as [->| ->]; unfold callback_exception; auto.
  - rewrite bind_trace_return in H. unfold emit in H.
    rewrite !bind_trace_return in H.
    destruct (Aruco_node.publish_charuco_pose self) eqn:Hon; [|discriminate H].
    destruct (Aruco_node.charuco_pose self img_msg corners ids
                (imgmsg_to_cv2 img_msg "mono8")) as [t2 [x|[]]] eqn:Hboard;
      [|discriminate H].
    cbn [trace result fst snd] in H. injection H as _ <-.
    left. exact (charuco_pose_exception _ _ _ _ _ _ _ Hattr Hon Hboard).
Qed.

Lemma info_callback_returns (self : Aruco_node.ArucoNode) msg :
  exists self',
    Aruco_node.info_callback self msg = ([], inr self') /\
    Aruco_node.info_msg self' = Some msg /\
    Aruco_node.intrinsic_mat self' = Some (reshape_3_3 (k msg)) /\
    Aruco_node.distortion self' = Some (d msg) /\
    Aruco_node.subscriptions self'
      = destroy_subscription (Aruco_node.subscriptions self) (Aruco_node.info_sub self) /\
    Aruco_node.info_sub self' = Aruco_node.info_sub self /\
    Aruco_node.camera_frame self' = Aruco_node.camera_frame self /\
    Aruco_node.publish_tf self' = Aruco_node.publish_tf self /\
    Aruco_node.br self' = Aruco_node.br self /\
    Aruco_node.publish_charuco_pose self' = Aruco_node.publish_charuco_pose self /\
    Aruco_node.charuco_pose_pub self' = Aruco_node.charuco_pose_pub self /\
    Aruco_node.poses_pub self' = Aruco_node.poses_pub self /\
    Aruco_node.markers_pub self' = Aruco_node.markers_pub self.
Proof. eexists. split; [reflexivity|]. cbn. repeat split. Qed.

Lemma spin_exception (self : Aruco_node.ArucoNode) events e :
  attributes_present self ->
  Aruco_node.crashed (Aruco_node.spin self events) = Some e ->
  callback_exception e.
Proof.
  revert self. induction events as [|ev events IH]; intros self Hattr H; [discriminate H|].
  cbn [Aruco_node.spin] in H. destruct ev as [topic msg|topic msg].
  - cbn [Aruco_node.dispatch] in H. destruct (decide _) as [_|_].
    + destruct (info_callback_returns self msg)
        as (self' & Heq & _ & _ & _ & _ & _ & _ & Htf & Hbr & Hon & Hpub & _).
      rewrite Heq in H. cbn in H. apply (IH self'); [|exact H].
      unfold attributes_present. rewrite Htf, Hbr, Hon, Hpub. exact Hattr.
    + cbn in H. exact (IH self Hattr H).
  - cbn [Aruco_node.dispatch] in H. destruct (decide _) as [_|_].
    + destruct (Aruco_node.image_callback self msg) as [t [x|[]]] eqn:Hcb.
      * rewrite bind_trace_raise in H. cbn in H. injection H as <-.
        exact (image_callback_exception self msg t x Hattr Hcb).
      * rewrite bind_trace_return in H. cbn in H. exact (IH self Hattr H).
    + cbn in H. exact (IH self Hattr H).
Qed.

(** X7.  From a node that [__init__] has returned, the only exceptions
    that end a run are the three a callback can raise: AttributeError on
    [self.info], IndexError on the pose arrays, ValueError on unpacking the
    pose estimate.  In particular [self.br] and [self.charuco_pose_pub] are
    never missing when they are used. *)
Theorem run_ends_only_by_callback_exceptions
    (overrides : gmap string PyValue) t (self : Aruco_node.ArucoNode)
    (events : list Aruco_node.Event) (e : PyExc) :
  Aruco_node.__init__ overrides = (t, inr self) ->
  Aruco_node.crashed (Aruco_node.spin self events) = Some e ->
  callback_exception e /\
  e <> AttributeError "br" /\ e <> AttributeError "charuco_pose_pub".
Proof.
  intros Hinit Hcrash.
  apply init_constructed in Hinit as (dictionary & parameters & -> & _).
  pose proof (spin_exception _ events e
                (constructed_attributes_present overrides dictionary parameters) Hcrash)
    as Hexc.
  split; [exact Hexc|].
  destruct Hexc as [->|[->|[msg ->]]]; split; discriminate.
Qed.

(** *** Runs *)

Lemma spin_cons (self : Aruco_node.ArucoNode) ev events :
  Aruco_node.spin self (ev :: events)
  = match Aruco_node.dispatch self ev with
    | (t, inl e) =>
        {| Aruco_node.effects := t; Aruco_node.node := self;
           Aruco_node.crashed := Some e |}
    | (t, inr self') =>
        {| Aruco_node.effects := t ++ Aruco_node.effects (Aruco_node.spin self' events);
           Aruco_node.node := Aruco_node.node (Aruco_node.spin self' events);
           Aruco_node.crashed := Aruco_node.crashed (Aruco_node.spin self' events) |}
    end.
Proof. reflexivity. Qed.

(** A run over [pre ++ post] is the run over [pre] followed, from the
    node it reached, by the run over [post]; if an exception ended the run
    over [pre], nothing of [post] is processed. *)
Lemma spin_app (self : Aruco_node.ArucoNode) (pre post : list Aruco_node.Event) :
  Aruco_node.spin self (pre ++ post)
  = match Aruco_node.crashed (Aruco_node.spin self pre) with
    | Some _ => Aruco_node.spin self pre
    | None =>
        let rest := Aruco_node.spin (Aruco_node.node (Aruco_node.spin self pre)) post in
        {| Aruco_node.effects :=
             Aruco_node.effects (Aruco_node.spin self pre) ++ Aruco_node.effects rest;
           Aruco_node.node := Aruco_node.node rest;
           Aruco_node.crashed := Aruco_node.crashed rest |}
    end.
Proof.
  revert self. induction pre as [|ev pre IH]; intros self.
  - cbn. destruct (Aruco_node.spin self post); reflexivity.
  - cbn [app]. rewrite !spin_cons.
    destruct (Aruco_node.dispatch self ev) as [t [e|self']]; [reflexivity|].
    cbn [Aruco_node.crashed Aruco_node.effects Aruco_node.node]. rewrite IH.
    destruct (Aruco_node.crashed (Aruco_node.spin self' pre)) eqn:Hpre.
    + rewrite Hpre. reflexivity.
    + cbv zeta. cbn. rewrite app_assoc. reflexivity.
Qed.

(** An invariant of the node that [info_callback] keeps holds all along a
    run: [image_callback] assigns nothing. *)
Lemma spin_invariant (P : Aruco_node.ArucoNode -> Prop) :
  (forall self topic msg self',
     P self ->
     {| sub_type := CameraInfoT; sub_topic := topic |} ∈ Aruco_node.subscriptions self ->
     Aruco_node.info_callback self msg = ([], inr self') ->
     P self') ->
  forall events self, P self -> P (Aruco_node.node (Aruco_node.spin self events)).
Proof.
  intros Hkeep. induction events as [|ev events IH]; intros self HP; [exact HP|].
  rewrite spin_cons. destruct ev as [topic msg|topic msg].
  - cbn [Aruco_node.dispatch]. destruct (decide _) as [Hin|_].
    + destruct (info_callback_returns self msg) as (self' & Heq & _).
      rewrite Heq. cbn. apply IH, (Hkeep self topic msg self' HP Hin Heq).
    + cbn. apply IH, HP.
  - destruct (dispatch_image self topic msg) as [(t & x & ->)|(t & ->)].
    + exact HP.
    + cbn. apply IH, HP.
Qed.


(** Before calibration every image is answered by the warning and nothing
    else: [n] images on the subscribed topic give [n] warnings, the node
    stays as constructed and the run goes on. *)
Lemma images_before_calibration_only_warn
    (overrides : gmap string PyValue) t (self : Aruco_node.ArucoNode)
    (image_topic : ParameterValue) (images : list Image) :
  Aruco_node.__init__ overrides = (t, inr self) ->
  parameter_value overrides "image_topic" = Some image_topic ->
  Aruco_node.spin self (Aruco_node.ImageEvent (string_value image_topic) <$> images)
  = {| Aruco_node.effects :=
         replicate (length images) (LogWarn "No camera info has been received!");
       Aruco_node.node := self;
       Aruco_node.crashed := None |}.
Proof.
  intros Hinit Htopic. read_hypothesis Htopic.
  apply init_constructed in Hinit as (dictionary & parameters & -> & _).
  induction images as [|img images IH]; [reflexivity|].
  cbn [fmap list_fmap]. rewrite spin_cons. cbn [Aruco_node.dispatch].
  destruct (decide _) as [_|Hout].
  - rewrite (image_callback_uncalibrated
               (constructed_node overrides dictionary parameters) img eq_refl).
    rewrite bind_trace_return. cbn [trace result fst snd mret W_ret].
    fold (Aruco_node.ImageEvent (string_value image_topic) <$> images).
    rewrite IH. reflexivity.
  - exfalso. apply Hout. cbn. unfold read_parameter. rewrite Htopic.
    right. left.
Qed.

(** *** Headers and topics *)

Lemma charuco_pose_publish (self : Aruco_node.ArucoNode) img_msg corners ids cv_image
    topic m :
  Publish topic m ∈ trace (Aruco_node.charuco_pose self img_msg corners ids cv_image) ->
  exists pub n_corners ch_corners ch_ids rvec tvec,
    Aruco_node.charuco_pose_pub self = Some pub /\
    topic = pub_topic pub /\
    interpolateCornersCharuco corners ids cv_image (Aruco_node.charuco_board self)
      = (n_corners, ch_corners, ch_ids) /\
    0 < n_corners /\
    estimatePoseCharucoBoard ch_corners ch_ids (Aruco_node.charuco_board self)
      (Aruco_node.intrinsic_mat self) (Aruco_node.distortion self)
      = (true, rvec, tvec) /\
    m = MChArUcoBoard (board_message rvec tvec).
Proof.
  destruct (interpolateCornersCharuco corners ids cv_image (Aruco_node.charuco_board self))
    as [[n_corners ch_corners] ch_ids] eqn:Hi.
  destruct (estimatePoseCharucoBoard ch_corners ch_ids (Aruco_node.charuco_board self)
              (Aruco_node.intrinsic_mat self) (Aruco_node.distortion self))
    as [[success rvec] tvec] eqn:He.
  rewrite (charuco_pose_unfold _ _ _ _ _ _ _ _ _ _ _ Hi He).
  destruct (Z.ltb_spec 0 n_corners) as [Hpos|_];
    [|intros H; exfalso; exact (not_elem_of_nil _ H)].
  destruct success; cbn [andb];
    [|intros H; exfalso; exact (not_elem_of_nil _ H)].
  destruct (Aruco_node.charuco_pose_pub self) as [pub|] eqn:Hpub;
    [|intros H; exfalso; exact (not_elem_of_nil _ H)].
  unfold emit. rewrite bind_trace_return. cbn [trace fst].
  intros H. apply elem_of_cons in H as [Heq|H].
  - injection Heq as -> ->. exists pub, n_corners, ch_corners, ch_ids, rvec, tvec.
    repeat split; first [reflexivity | assumption].
  - exfalso. destruct (Aruco_node.publish_tf self).
    + apply broadcast_trace in H as [tf Htf]. discriminate Htf.
    + exact (not_elem_of_nil _ H).
Qed.

(** Every message in the trace of a callback, with its topic and header. *)
Lemma image_callback_publish_header (self : Aruco_node.ArucoNode) img_msg frame topic m :
  Aruco_node.camera_frame self = Some frame ->
  Publish topic m ∈ trace (Aruco_node.image_callback self img_msg) ->
  let header := {| stamp := stamp (img_header img_msg); frame_id := frame |} in
  match m with
  | MPoseArray pose_array =>
      topic = pub_topic (Aruco_node.poses_pub self) /\ pa_header pose_array = header
  | MArucoMarkers markers =>
      topic = pub_topic (Aruco_node.markers_pub self) /\ am_header markers = header
  | MChArUcoBoard _ =>
      Aruco_node.publish_charuco_pose self = true /\
      exists pub, Aruco_node.charuco_pose_pub self = Some pub /\ topic = pub_topic pub
  end.
Proof.
  intros Hframe Hin. cbv zeta.
  assert (Hhead : forall info,
    (Aruco_node.new_messages self info img_msg).1
      = {| pa_header := {| stamp := stamp (img_header img_msg); frame_id := frame |};
           pa_poses := [] |} /\
    (Aruco_node.new_messages self info img_msg).2
      = {| am_header := {| stamp := stamp (img_header img_msg); frame_id := frame |};
           marker_ids := []; am_poses := [] |}).
  { intros info. unfold Aruco_node.new_messages. rewrite Hframe. split; reflexivity. }
  destruct m as [pose_array|markers|board].
  - destruct (image_callback_publish_inv self img_msg topic _ Hin)
      as (info & corners & ids & rejected & rvecs & tvecs & t & pa & am
          & Hinfo & Hdetect & Hunpack & Hloop & Hcase); [discriminate|].
    destruct Hcase as [[-> Heq]|[_ Heq]]; [|discriminate Heq]. injection Heq as ->.
    split; [reflexivity|].
    destruct (Aruco_node.new_messages self info img_msg) as [pa0 am0] eqn:Hnew.
    apply marker_loop_returns in Hloop as (poses & -> & _).
    destruct (Hhead info) as [H1 _]. rewrite Hnew in H1. cbn in H1. subst pa0. reflexivity.
  - destruct (image_callback_publish_inv self img_msg topic _ Hin)
      as (info & corners & ids & rejected & rvecs & tvecs & t & pa & am
          & Hinfo & Hdetect & Hunpack & Hloop & Hcase); [discriminate|].
    destruct Hcase as [[_ Heq]|[-> Heq]]; [discriminate Heq|]. injection Heq as ->.
    split; [reflexivity|].
    destruct (Aruco_node.new_messages self info img_msg) as [pa0 am0] eqn:Hnew.
    apply marker_loop_returns in Hloop as (poses & _ & -> & _).
    destruct (Hhead info) as [_ H2]. rewrite Hnew in H2. cbn in H2. subst am0. reflexivity.
  - destruct (Aruco_node.info_msg self) as [info|] eqn:Hinfo.
    2:{ rewrite (image_callback_uncalibrated _ _ Hinfo) in Hin.
        apply list_elem_of_singleton in Hin. discriminate Hin. }
    destruct (detectMarkers (imgmsg_to_cv2 img_msg "mono8")
                (Aruco_node.aruco_dictionary self) (Aruco_node.aruco_parameters self))
      as [[corners [ids|]] rejected] eqn:Hdetect.
    2:{ rewrite (image_callback_no_ids _ _ _ _ _ Hinfo Hdetect) in Hin.
        exfalso. exact (not_elem_of_nil _ Hin). }
    destruct (Aruco_node.unpack_pose_estimate
                (estimatePoseSingleMarkers corners (Aruco_node.marker_size self)
                   (Aruco_node.intrinsic_mat self) (Aruco_node.distortion self)))
      as [x|[rvecs tvecs]] eqn:Hunpack.
    { unfold Aruco_node.image_callback in Hin. rewrite Hinfo in Hin. cbv zeta in Hin.
      destruct (Aruco_node.new_messages self info img_msg) as [pose_array markers].
      rewrite Hdetect, Hunpack in Hin. exfalso. exact (not_elem_of_nil _ Hin). }
    destruct (Aruco_node.marker_loop self img_msg rvecs tvecs 0 ids
                (Aruco_node.new_messages self info img_msg))
      as [t [x|[pose_array markers]]] eqn:Hloop.
    { rewrite (image_callback_detected _ _ _ _ _ _ _ _ Hinfo Hdetect Hunpack), Hloop in Hin.
      rewrite bind_trace_raise in Hin. cbn [trace fst] in Hin.
      assert (Ht : is_transform (Publish topic (MChArUcoBoard board))).
      { apply (marker_loop_trace self img_msg rvecs tvecs ids 0
                 (Aruco_node.new_messages self info img_msg)).
        rewrite Hloop. exact Hin. }
      destruct Ht as [tf Ht]. discriminate Ht. }
    rewrite (image_callback_trace _ _ _ _ _ _ _ _ _ _ _ Hinfo Hdetect Hunpack Hloop) in Hin.
    apply elem_of_app in Hin as [Hin|Hin].
    { assert (Ht : is_transform (Publish topic (MChArUcoBoard board))).
      { apply (marker_loop_trace self img_msg rvecs tvecs ids 0
                 (Aruco_node.new_messages self info img_msg)).
        rewrite Hloop. exact Hin. }
      destruct Ht as [tf Ht]. discriminate Ht. }
    apply elem_of_cons in Hin as [Heq|Hin]; [discriminate Heq|].
    apply elem_of_cons in Hin as [Heq|Hin]; [discriminate Heq|].
    destruct (Aruco_node.publish_charuco_pose self);
      [|exfalso; exact (not_elem_of_nil _ Hin)].
    split; [reflexivity|].
    apply charuco_pose_publish in Hin as (pub & _ & _ & _ & _ & _ & Hpub & -> & _).
    exists pub. auto.
Qed.

(** X9.  From construction on, every message the node publishes goes to
    its fixed topic (aruco_poses, aruco_markers, charuco_pose), and the
    header of a PoseArray or ArucoMarkers message carries the stamp of the
    image and, as frame id, the string of the camera_frame parameter: the
    frame id of the CameraInfo message is never used, and an unset
    camera_frame gives the empty frame id. *)
Theorem published_headers_use_camera_frame_parameter
    (overrides : gmap string PyValue) t (self : Aruco_node.ArucoNode)
    (frame : ParameterValue) (events : list Aruco_node.Event)
    (img_msg : Image) (topic : string) (m : Message) :
  Aruco_node.__init__ overrides = (t, inr self) ->
  parameter_value overrides "camera_frame" = Some frame ->
  Publish topic m
    ∈ trace (Aruco_node.image_callback
               (Aruco_node.node (Aruco_node.spin self events)) img_msg) ->
  let header :=
    {| stamp := stamp (img_header img_msg); frame_id := string_value frame |} in
  match m with
  | MPoseArray pose_array => topic = "aruco_poses" /\ pa_header pose_array = header
  | MArucoMarkers markers => topic = "aruco_markers" /\ am_header markers = header
  | MChArUcoBoard _ => topic = "charuco_pose"
  end.
Proof.
  intros Hinit Hframe Hin. read_hypothesis Hframe.
  apply init_constructed in Hinit as (dictionary & parameters & -> & _).
  set (self := constructed_node overrides dictionary parameters) in *.
  assert (Hnow :
    let now := Aruco_node.node (Aruco_node.spin self events) in
    Aruco_node.camera_frame now = Some (string_value frame) /\
    Aruco_node.poses_pub now = {| pub_topic := "aruco_poses" |} /\
    Aruco_node.markers_pub now = {| pub_topic := "aruco_markers" |} /\
    (forall pub, Aruco_node.charuco_pose_pub now = Some pub ->
                 pub_topic pub = "charuco_pose")).
  { apply (spin_invariant (fun now =>
      Aruco_node.camera_frame now = Some (string_value frame) /\
      Aruco_node.poses_pub now = {| pub_topic := "aruco_poses" |} /\
      Aruco_node.markers_pub now = {| pub_topic := "aruco_markers" |} /\
      (forall pub, Aruco_node.charuco_pose_pub now = Some pub ->
                   pub_topic pub = "charuco_pose"))).
    - intros now tp msg now' (Hf & Hp & Hm & Hc) _ Hcb.
      destruct (info_callback_returns now msg)
        as (now'' & Heq & _ & _ & _ & _ & _ & Hf' & _ & _ & _ & Hc' & Hp' & Hm').
      rewrite Heq in Hcb. injection Hcb as <-.
      rewrite Hf', Hp', Hm', Hc'. auto.
    - subst self. cbn. unfold read_parameter. rewrite Hframe.
      repeat split. intros pub. destruct (bool_value _); [|discriminate].
      intros H. injection H as <-. reflexivity. }
  cbv zeta in Hnow. destruct Hnow as (Hf & Hp & Hm & Hc).
  pose proof (image_callback_publish_header _ img_msg _ topic m Hf Hin) as H.
  cbv zeta in H. cbv zeta. destruct m as [pose_array|markers|board].
  - rewrite Hp in H. exact H.
  - rewrite Hm in H. exact H.
  - destruct H as (_ & pub & Hpub & ->). exact (Hc pub Hpub).
Qed.

(** *** Edge cases of the pose estimate *)

Lemma marker_loop_index_error_when_short (self : Aruco_node.ArucoNode)
    img_msg rvecs tvecs ids :
  transform_branch_passes self ->
  forall i msgs,
    (i <= length tvecs)%nat -> (i <= length rvecs)%nat ->
    (length tvecs < i + length ids \/ length rvecs < i + length ids)%nat ->
    exists t,
      Aruco_node.marker_loop self img_msg rvecs tvecs i ids msgs = (t, inl IndexError).
Proof.
  intros Hpass. induction ids as [|marker_id ids IH]; intros i [pose_array markers] Ht Hr Hs.
  - cbn in Hs. lia.
  - destruct (tvecs !! i) as [tvec|] eqn:Htv;
      [|rewrite marker_loop_index_error by auto; eauto].
    destruct (rvecs !! i) as [rvec|] eqn:Hrv;
      [|rewrite marker_loop_index_error by auto; eauto].
    apply lookup_lt_Some in Htv as Htl. apply lookup_lt_Some in Hrv as Hrl.
    rewrite (marker_loop_step _ _ _ _ _ _ _ _ _ tvec rvec Htv Hrv).
    match goal with
    | |- context [ Aruco_node.marker_loop _ _ _ _ (S i) ids ?m ] =>
        destruct (IH (S i) m) as (t & Hrest); [lia|lia|cbn [length] in Hs; lia|]
    end.
    rewrite Hrest.
    destruct Hpass as [Hoff|[Hframe Hbr]].
    + rewrite Hoff. bind_step. eauto.
    + destruct (Aruco_node.publish_tf self).
      * cbv zeta.
        match goal with
        | |- context [ Aruco_node.broadcast ?a ?b ?c ?d ?e ] =>
            destruct (broadcast_sends a b c d e Hframe Hbr) as (tf & -> & _)
        end.
        rewrite bind_trace_return. eauto.
      * bind_step. eauto.
Qed.


(** X11.  The pose estimate is unpacked into three names exactly when
    the library's version string is greater than "4.0.0" as a string.  A
    tuple of the other length makes the callback raise ValueError before
    anything is broadcast or published. *)
Theorem wrong_tuple_length_raises_value_error
    (self : Aruco_node.ArucoNode) (img_msg : Image) (info : CameraInfo)
    (corners rejected : Corners) (ids : list Z) :
  Aruco_node.info_msg self = Some info ->
  detectMarkers (imgmsg_to_cv2 img_msg "mono8")
    (Aruco_node.aruco_dictionary self) (Aruco_node.aruco_parameters self)
    = (corners, Some ids, rejected) ->
  let estimate :=
    estimatePoseSingleMarkers corners (Aruco_node.marker_size self)
      (Aruco_node.intrinsic_mat self) (Aruco_node.distortion self) in
  (String.ltb "4.0.0" __version__ = true /\
     (exists rvecs tvecs, estimate = Tuple2 rvecs tvecs) \/
   String.ltb "4.0.0" __version__ = false /\
     (exists rvecs tvecs objPoints, estimate = Tuple3 rvecs tvecs objPoints)) ->
  exists msg, Aruco_node.image_callback self img_msg = ([], inl (ValueError msg)).
Proof.
  intros Hinfo Hdetect estimate Hwrong.
  assert (Hunpack : exists msg,
            Aruco_node.unpack_pose_estimate estimate = inl (ValueError msg)).
  { unfold Aruco_node.unpack_pose_estimate.
    destruct Hwrong as [[-> (r & tv & ->)]|[-> (r & tv & o & ->)]]; eauto. }
  destruct Hunpack as [msg Hunpack]. exists msg.
  unfold Aruco_node.image_callback. rewrite Hinfo. cbv zeta.
  destruct (Aruco_node.new_messages self info img_msg) as [pose_array markers].
  rewrite Hdetect. fold estimate. rewrite Hunpack. reflexivity.
Qed.

(** *** The board pose *)



(** *** Transforms *)

(** Where an effect of a callback comes from. *)
Lemma image_callback_trace_cases (self : Aruco_node.ArucoNode) img_msg e :
  e ∈ trace (Aruco_node.image_callback self img_msg) ->
  e = LogWarn "No camera info has been received!" \/
  exists info corners ids rejected rvecs tvecs,
    Aruco_node.info_msg self = Some info /\
    detectMarkers (imgmsg_to_cv2 img_msg "mono8")
      (Aruco_node.aruco_dictionary self) (Aruco_node.aruco_parameters self)
      = (corners, Some ids, rejected) /\
    Aruco_node.unpack_pose_estimate
      (estimatePoseSingleMarkers corners (Aruco_node.marker_size self)
         (Aruco_node.intrinsic_mat self) (Aruco_node.distortion self))
      = inr (rvecs, tvecs) /\
    (e ∈ trace (Aruco_node.marker_loop self img_msg rvecs tvecs 0 ids
                  (Aruco_node.new_messages self info img_msg)) \/
     exists t pose_array markers,
       Aruco_node.marker_loop self img_msg rvecs tvecs 0 ids
         (Aruco_node.new_messages self info img_msg) = (t, inr (pose_array, markers)) /\
       (e = Publish (pub_topic (Aruco_node.poses_pub self)) (MPoseArray pose_array) \/
        e = Publish (pub_topic (Aruco_node.markers_pub self)) (MArucoMarkers markers) \/
        Aruco_node.publish_charuco_pose self = true /\
        e ∈ trace (Aruco_node.charuco_pose self img_msg corners ids
                     (imgmsg_to_cv2 img_msg "mono8")))).
Proof.
  intros Hin.
  destruct (Aruco_node.info_msg self) as [info|] eqn:Hinfo.
  2:{ rewrite (image_callback_uncalibrated _ _ Hinfo) in Hin.
      apply list_elem_of_singleton in Hin. auto. }
  right.
  destruct (detectMarkers (imgmsg_to_cv2 img_msg "mono8")
              (Aruco_node.aruco_dictionary self) (Aruco_node.aruco_parameters self))
    as [[corners [ids|]] rejected] eqn:Hdetect.
  2:{ rewrite (image_callback_no_ids _ _ _ _ _ Hinfo Hdetect) in Hin.
      exfalso. exact (not_elem_of_nil _ Hin). }
  destruct (Aruco_node.unpack_pose_estimate
              (estimatePoseSingleMarkers corners (Aruco_node.marker_size self)
                 (Aruco_node.intrinsic_mat self) (Aruco_node.distortion self)))
    as [x|[rvecs tvecs]] eqn:Hunpack.
  { unfold Aruco_node.image_callback in Hin. rewrite Hinfo in Hin. cbv zeta in Hin.
    destruct (Aruco_node.new_messages self info img_msg) as [pose_array markers].
    rewrite Hdetect, Hunpack in Hin. exfalso. exact (not_elem_of_nil _ Hin). }
  exists info, corners, ids, rejected, rvecs, tvecs.
  split; [reflexivity|]. split; [reflexivity|]. split; [exact Hunpack|].
  destruct (Aruco_node.marker_loop self img_msg rvecs tvecs 0 ids
              (Aruco_node.new_messages self info img_msg))
    as [t [x|[pose_array markers]]] eqn:Hloop.
  { rewrite (image_callback_detected _ _ _ _ _ _ _ _ Hinfo Hdetect Hunpack), Hloop in Hin.
    rewrite bind_trace_raise in Hin. left. exact Hin. }
  rewrite (image_callback_trace _ _ _ _ _ _ _ _ _ _ _ Hinfo Hdetect Hunpack Hloop) in Hin.
  apply elem_of_app in Hin as [Hin|Hin]; [left; exact Hin|].
  right. exists t, pose_array, markers. split; [reflexivity|].
  apply elem_of_cons in Hin as [->|Hin]; [auto|].
  apply elem_of_cons in Hin as [->|Hin]; [auto|].
  destruct (Aruco_node.publish_charuco_pose self);
    [auto|exfalso; exact (not_elem_of_nil _ Hin)].
Qed.

Lemma broadcast_transform (self : Aruco_node.ArucoNode) img_msg child trans quat tf :
  SendTransform tf ∈ trace (Aruco_node.broadcast self img_msg child trans quat) ->
  exists frame,
    Aruco_node.camera_frame self = Some frame /\ frame <> "" /\
    tf_header tf = {| stamp := stamp (img_header img_msg); frame_id := frame |} /\
    child_frame_id tf = child.
Proof.
  intros Hin.
  destruct (broadcast_cases self img_msg child trans quat)
    as [(frame & Hframe & Hne & _ & Heq)|[(_ & _ & Heq)|(_ & Heq)]];
    rewrite Heq in Hin; cbn [trace fst] in Hin;
    [|exfalso; exact (not_elem_of_nil _ Hin)..].
  apply list_elem_of_singleton in Hin. injection Hin as ->.
  exists frame. auto.
Qed.

Lemma marker_loop_transform (self : Aruco_node.ArucoNode) img_msg rvecs tvecs ids tf :
  forall i msgs,
    SendTransform tf ∈ trace (Aruco_node.marker_loop self img_msg rvecs tvecs i ids msgs) ->
    Aruco_node.publish_tf self = true /\
    exists frame marker_id,
      Aruco_node.camera_frame self = Some frame /\ frame <> "" /\
      tf_header tf = {| stamp := stamp (img_header img_msg); frame_id := frame |} /\
      marker_id ∈ ids /\
      child_frame_id tf = "marker_" +:+ str marker_id.
Proof.
  induction ids as [|marker_id ids IH]; intros i [pose_array markers] H.
  - cbn in H. exfalso. exact (not_elem_of_nil _ H).
  - destruct (tvecs !! i) as [tvec|] eqn:Ht;
      [|rewrite marker_loop_index_error in H by auto;
        exfalso; exact (not_elem_of_nil _ H)].
    destruct (rvecs !! i) as [rvec|] eqn:Hr;
      [|rewrite marker_loop_index_error in H by auto;
        exfalso; exact (not_elem_of_nil _ H)].
    rewrite (marker_loop_step _ _ _ _ _ _ _ _ _ tvec rvec Ht Hr) in H.
    assert (Hlater : forall msgs',
      SendTransform tf
        ∈ trace (Aruco_node.marker_loop self img_msg rvecs tvecs (S i) ids msgs') ->
      Aruco_node.publish_tf self = true /\
      exists frame marker_id',
        Aruco_node.camera_frame self = Some frame /\ frame <> "" /\
        tf_header tf = {| stamp := stamp (img_header img_msg); frame_id := frame |} /\
        marker_id' ∈ marker_id :: ids /\
        child_frame_id tf = "marker_" +:+ str marker_id').
    { intros msgs' H'. destruct (IH _ _ H') as (Htf & frame & id & Hf & Hne & Hh & Hid & Hc).
      split; [exact Htf|]. exists frame, id. repeat split; try assumption.
      right. exact Hid. }
    destruct (Aruco_node.publish_tf self) eqn:Htf.
    + cbv zeta in H.
      match type of H with
      | context [ ?m ≫= _ ] => destruct m as [t1 [x|[]]] eqn:Hsend
      end.
      * rewrite bind_trace_raise in H. cbn [trace fst] in H.
        assert (Hin : SendTransform tf ∈ trace
                  (Aruco_node.broadcast self img_msg ("marker_" +:+ str marker_id)
                     {| vec_x := point_x (position (Aruco_node.marker_pose tvec rvec));
                        vec_y := point_y (position (Aruco_node.marker_pose tvec rvec));
                        vec_z := point_z (position (Aruco_node.marker_pose tvec rvec)) |}
                     (Aruco_node.quat_of_rvec rvec)))
          by (rewrite Hsend; exact H).
        apply broadcast_transform in Hin as (frame & Hf & Hne & Hh & Hc).
        split; [reflexivity|]. exists frame, marker_id.
        repeat split; try assumption. left.
      * rewrite bind_trace_return in H. cbn [trace fst] in H.
        apply elem_of_app in H as [H|H]; [|exact (Hlater _ H)].
        assert (Hin : SendTransform tf ∈ trace
                  (Aruco_node.broadcast self img_msg ("marker_" +:+ str marker_id)
                     {| vec_x := point_x (position (Aruco_node.marker_pose tvec rvec));
                        vec_y := point_y (position (Aruco_node.marker_pose tvec rvec));
                        vec_z := point_z (position (Aruco_node.marker_pose tvec rvec)) |}
                     (Aruco_node.quat_of_rvec rvec)))
          by (rewrite Hsend; exact H).
        apply broadcast_transform in Hin as (frame & Hf & Hne & Hh & Hc).
        split; [reflexivity|]. exists frame, marker_id.
        repeat split; try assumption. left.
    + bind_step_in H. destruct (Hlater _ H) as [Habs _]. discriminate Habs.
Qed.

Lemma charuco_pose_transform (self : Aruco_node.ArucoNode) img_msg corners ids cv_image tf :
  SendTransform tf ∈ trace (Aruco_node.charuco_pose self img_msg corners ids cv_image) ->
  Aruco_node.publish_tf self = true /\
  exists frame,
    Aruco_node.camera_frame self = Some frame /\ frame <> "" /\
    tf_header tf = {| stamp := stamp (img_header img_msg); frame_id := frame |} /\
    child_frame_id tf = "charuco_board".
Proof.
  destruct (interpolateCornersCharuco corners ids cv_image (Aruco_node.charuco_board self))
    as [[n_corners ch_corners] ch_ids] eqn:Hi.
  destruct (estimatePoseCharucoBoard ch_corners ch_ids (Aruco_node.charuco_board self)
              (Aruco_node.intrinsic_mat self) (Aruco_node.distortion self))
    as [[success rvec] tvec] eqn:He.
  rewrite (charuco_pose_unfold _ _ _ _ _ _ _ _ _ _ _ Hi He).
  destruct ((0 <? n_corners) && success);
    [|intros H; exfalso; exact (not_elem_of_nil _ H)].
  destruct (Aruco_node.charuco_pose_pub self) as [pub|];
    [|intros H; exfalso; exact (not_elem_of_nil _ H)].
  unfold emit. rewrite bind_trace_return. cbn [trace fst].
  intros H. apply elem_of_cons in H as [Heq|H]; [discriminate Heq|].
  destruct (Aruco_node.publish_tf self);
    [|exfalso; exact (not_elem_of_nil _ H)].
  split; [reflexivity|]. exact (broadcast_transform _ _ _ _ _ _ H).
Qed.

(** X14.  A transform is broadcast only with publish_tf on and a
    non-empty camera frame; it carries the stamp of the image and that
    frame as parent, and its child frame is marker_<id> for one of the ids
    the detector returned for this image, or charuco_board. *)
Theorem transforms_are_stamped_and_framed
    (self : Aruco_node.ArucoNode) (img_msg : Image) (tf : TransformStamped) :
  SendTransform tf ∈ trace (Aruco_node.image_callback self img_msg) ->
  Aruco_node.publish_tf self = true /\
  exists frame,
    Aruco_node.camera_frame self = Some frame /\ frame <> "" /\
    tf_header tf = {| stamp := stamp (img_header img_msg); frame_id := frame |} /\
    (child_frame_id tf = "charuco_board" \/
     exists corners ids rejected marker_id,
       detectMarkers (imgmsg_to_cv2 img_msg "mono8")
         (Aruco_node.aruco_dictionary self) (Aruco_node.aruco_parameters self)
         = (corners, Some ids, rejected) /\
       marker_id ∈ ids /\
       child_frame_id tf = "marker_" +:+ str marker_id).
Proof.
  intros Hin.
  apply image_callback_trace_cases in Hin as [Heq|Hin]; [discriminate Heq|].
  destruct Hin as (info & corners & ids & rejected & rvecs & tvecs
                   & Hinfo & Hdetect & Hunpack & [Hin|Hin]).
  - apply marker_loop_transform in Hin as (Htf & frame & id & Hf & Hne & Hh & Hid & Hc).
    split; [exact Htf|]. exists frame. repeat split; try assumption.
    right. exists corners, ids, rejected, id. auto.
  - destruct Hin as (t & pa & am & _ & [Heq|[Heq|[_ Hin]]]);
      [discriminate Heq..|].
    apply charuco_pose_transform in Hin as (Htf & frame & Hf & Hne & Hh & Hc).
    split; [exact Htf|]. exists frame. auto.
Qed.

(** X15.  With publish_tf on, a callback that publishes its marker
    message has first broadcast one transform per marker, in the order of
    the ids, each with child frame marker_<id>, the marker's position as
    translation and its orientation as rotation; the PoseArray and the
    ArucoMarkers message follow, in that order. *)
Theorem marker_transforms_precede_and_match_messages
    (self : Aruco_node.ArucoNode) (img_msg : Image) (topic : string)
    (markers : ArucoMarkers) :
  Aruco_node.publish_tf self = true ->
  Publish topic (MArucoMarkers markers)
    ∈ trace (Aruco_node.image_callback self img_msg) ->
  exists tfs pose_array rest,
    trace (Aruco_node.image_callback self img_msg)
    = (SendTransform <$> tfs)
        ++ Publish (pub_topic (Aruco_node.poses_pub self)) (MPoseArray pose_array)
        :: Publish (pub_topic (Aruco_node.markers_pub self)) (MArucoMarkers markers)
        :: rest /\
    length tfs = length (marker_ids markers) /\
    Forall3 transform_of_pose tfs (marker_ids markers) (am_poses markers).
Proof.
  intros Htf Hin.
  destruct (image_callback_publish_inv self img_msg topic _ Hin)
    as (info & corners & ids & rejected & rvecs & tvecs & t & pa & am
        & Hinfo & Hdetect & Hunpack & Hloop & Hcase); [discriminate|].
  destruct Hcase as [[_ Heq]|[_ Heq]]; [discriminate Heq|]. injection Heq as ->.
  rewrite (image_callback_trace _ _ _ _ _ _ _ _ _ _ _ Hinfo Hdetect Hunpack Hloop).
  pose proof (loop_from_zero_copied _ _ _ _ _ _ _ _ _ Hloop) as (_ & _ & Hids & _).
  unfold Aruco_node.new_messages in Hloop. cbv zeta in Hloop.
  apply (marker_loop_transforms self img_msg rvecs tvecs ids Htf) in Hloop
    as (tfs & poses & -> & Hp & _ & Hall).
  cbn in Hp. rewrite Hids, Hp. exists tfs, pa. eexists.
  split; [reflexivity|]. split; [|exact Hall].
  clear -Hall. induction Hall; cbn; congruence.
Qed.

End Callback_properties.

(** ** The generator scripts, further *)

Section Script_further.
Context `{cv2 : Cv2} `{os_path : OsPath}.

Lemma lookup_attr_present (ns : list (string * ArucoAttr)) (name : string) :
  name ∈ ns.*1 -> exists a, lookup_attr ns name = inr a.
Proof.
  induction ns as [|[n a] ns IH]; intros Hin.
  - exfalso. exact (not_elem_of_nil _ Hin).
  - cbn [lookup_attr]. destruct (String.eqb n name) eqn:Hn; [eauto|].
    apply IH. cbn in Hin. apply elem_of_cons in Hin as [->|Hin]; [|exact Hin].
    rewrite String.eqb_refl in Hn. discriminate Hn.
Qed.

(** A name among the choices of --dictionary is an attribute of cv2.aruco. *)
Lemma dict_option_found (s : string) :
  s ∈ dict_options ->
  String.prefix "DICT" s = true /\ exists a, __getattribute__ s = inr a.
Proof.
  intros Hin. unfold dict_options in Hin.
  apply list_elem_of_filter in Hin as [Hprefix Hin].
  split; [exact Hprefix|]. apply lookup_attr_present. exact Hin.
Qed.

Lemma run_accepted (argv : Charuco_generate_board.CommandLine) (s : string) :
  Charuco_generate_board.given_dictionary argv = Some s ->
  s ∈ dict_options ->
  exists args,
    Charuco_generate_board.dictionary args = s /\
    Charuco_generate_board.run argv = Charuco_generate_board.main args.
Proof.
  intros Hgiven Hin.
  unfold Charuco_generate_board.run, Charuco_generate_board.parse_args.
  rewrite Hgiven. destruct (decide (s ∈ dict_options)) as [_|Hout]; [|contradiction].
  exists {| Charuco_generate_board.square_x :=
              default 7 (Charuco_generate_board.given_square_x argv);
            Charuco_generate_board.square_y :=
              default 5 (Charuco_generate_board.given_square_y argv);
            Charuco_generate_board.square_length :=
              default 0.1%float (Charuco_generate_board.given_square_length argv);
            Charuco_generate_board.marker_length :=
              default 0.08%float (Charuco_generate_board.given_marker_length argv);
            Charuco_generate_board.path :=
              default "./checkerboard.tiff" (Charuco_generate_board.given_path argv);
            Charuco_generate_board.out_x := Charuco_generate_board.given_out_x argv;
            Charuco_generate_board.out_y := Charuco_generate_board.given_out_y argv;
            Charuco_generate_board.dictionary := s |}.
  split; [reflexivity|].
  cbn [mbind Exc_bind mret Exc_ret lift W_bind].
  destruct (Charuco_generate_board.main _) as [t r]. rewrite app_nil_l.
  destruct r; reflexivity.
Qed.

Lemma main_lists_options (args : Charuco_generate_board.Namespace) (name : string) :
  (dictionary_id ← __getattribute__ (Charuco_generate_board.dictionary args);
   Dictionary_get dictionary_id) = inl (AttributeError name) ->
  Charuco_generate_board.main args
  = (Stdout ("unrecognized dictionary id: " +:+ Charuco_generate_board.dictionary args)
       :: Stdout "Valid options:" :: (Stdout <$> dict_options),
     inr tt).
Proof.
  intros He. unfold Charuco_generate_board.main. rewrite He.
  rewrite for_each_emit_trace. reflexivity.
Qed.


(** X17.  With a recognised dictionary, whatever the board generator has
    done when it ends, in full or cut short by an exception of a library
    call: it has called imwrite at most once, and only with --path; and a
    line it has printed is the last thing it did, after the draw and the
    write, and says what imwrite returned: "Succesfully wrote checkerboard
    to ..." for true, "Failed to write checkerboard to ..." for false, each
    with the absolute path. *)
Theorem board_generator_reports_what_imwrite_returned
    (args : Charuco_generate_board.Namespace)
    (dictionary_id : ArucoAttr) (dict : Dictionary) (t : list ScriptEffect) :
  __getattribute__ (Charuco_generate_board.dictionary args) = inr dictionary_id ->
  Dictionary_get dictionary_id = inr dict ->
  done_by (Charuco_generate_board.main args) t ->
  (forall file written,
     Imwrite file written ∈ t -> file = Charuco_generate_board.path args) /\
  (length (written_paths t) <= 1)%nat /\
  (forall line,
     Stdout line ∈ t ->
     exists size written,
       t = [Draw size; Imwrite (Charuco_generate_board.path args) written;
            Stdout line] /\
       line = (if written then "Succesfully wrote checkerboard to "
               else "Failed to write checkerboard to ")
              +:+ abspath (Charuco_generate_board.path args)).
Proof.
  intros Hattr Hget Hdone. unfold done_by in Hdone.
  rewrite (charuco_main_trace args dictionary_id dict Hattr Hget) in Hdone.
  cbv zeta in Hdone. cbn [trace fst] in Hdone.
  destruct Hdone as [rest Hrest].
  destruct t as [|e0 [|e1 [|e2 [|e3 t]]]]; cbn in Hrest;
    try discriminate Hrest.
  - split; [|split; [cbn; lia|]].
    + intros file written Hin. exfalso. exact (not_elem_of_nil _ Hin).
    + intros line Hin. exfalso. exact (not_elem_of_nil _ Hin).
  - injection Hrest as <- _. split; [|split; [cbn; lia|]].
    + intros file written Hin. apply list_elem_of_singleton in Hin. discriminate Hin.
    + intros line Hin. apply list_elem_of_singleton in Hin. discriminate Hin.
  - injection Hrest as <- <- _. split; [|split; [cbn; lia|]].
    + intros file written Hin.
      apply elem_of_cons in Hin as [Hin|Hin]; [discriminate Hin|].
      apply list_elem_of_singleton in Hin. injection Hin as -> _. reflexivity.
    + intros line Hin.
      apply elem_of_cons in Hin as [Hin|Hin]; [discriminate Hin|].
      apply list_elem_of_singleton in Hin. discriminate Hin.
  - injection Hrest as <- <- <- _. split; [|split; [cbn; lia|]].
    + intros file written Hin.
      apply elem_of_cons in Hin as [Hin|Hin]; [discriminate Hin|].
      apply elem_of_cons in Hin as [Hin|Hin]; [injection Hin as -> _; reflexivity|].
      apply list_elem_of_singleton in Hin. discriminate Hin.
    + intros line Hin.
      apply elem_of_cons in Hin as [Hin|Hin]; [discriminate Hin|].
      apply elem_of_cons in Hin as [Hin|Hin]; [discriminate Hin|].
      apply list_elem_of_singleton in Hin. injection Hin as ->.
      eexists _, _. split; [reflexivity|].
      destruct (imwrite _ _); reflexivity.
Qed.

Lemma marker_main_trace (args : Aruco_generate_custom_dictionary.Namespace) :
  exists written : Z -> bool,
    Aruco_generate_custom_dictionary.main args
    = ((fun i => Imwrite (marker_file i) (written i))
         <$> Aruco_generate_custom_dictionary.range
               (Aruco_generate_custom_dictionary.num args),
       inr tt).
Proof.
  eexists (fun i => imwrite (marker_file i) _).
  unfold Aruco_generate_custom_dictionary.main.
  rewrite (for_each_emit_trace _ (fun i =>
    Imwrite ("marker_" +:+ Aruco_generate_custom_dictionary.format_04d i +:+ ".png")
      (imwrite ("marker_" +:+ Aruco_generate_custom_dictionary.format_04d i +:+ ".png")
         (drawMarker
            (Dictionary_create (Aruco_generate_custom_dictionary.num args)
               (Aruco_generate_custom_dictionary.bits args)
               (Aruco_generate_custom_dictionary.seed args))
            i (Aruco_generate_custom_dictionary.size args)
            (zeros (Aruco_generate_custom_dictionary.size args,
                    Aruco_generate_custom_dictionary.size args)) 1)))).
  reflexivity.
Qed.

Lemma written_paths_imwrite (f : Z -> string) (g : Z -> bool) (l : list Z) :
  written_paths ((fun i => Imwrite (f i) (g i)) <$> l) = f <$> l.
Proof.
  induction l as [|i l IH]; [reflexivity|].
  cbn. unfold written_paths in IH. cbn in IH. rewrite IH. reflexivity.
Qed.

(** X18.  Whatever the marker generator has done when it ends, in full or
    cut short by an exception of a library call, is a run of imwrite calls
    and nothing else: at most num of them, the k-th (from 0) for the file
    "marker_" followed by k zero-padded to four digits and ".png", so the
    files come in the order of the marker numbers and without a gap; with
    num zero or negative nothing is written. *)
Theorem marker_generator_writes_files_in_order
    (args : Aruco_generate_custom_dictionary.Namespace) (t : list ScriptEffect) :
  done_by (Aruco_generate_custom_dictionary.main args) t ->
  (length t <= Z.to_nat (Aruco_generate_custom_dictionary.num args))%nat /\
  written_paths t = (fun k : nat => marker_file (Z.of_nat k)) <$> seq 0 (length t) /\
  (Aruco_generate_custom_dictionary.num args <= 0 -> t = []).
Proof.
  unfold done_by. destruct (marker_main_trace args) as [written ->].
  cbn [trace fst]. unfold Aruco_generate_custom_dictionary.range.
  intros [rest Hrest].
  assert (Hlen : (length t <= Z.to_nat (Aruco_generate_custom_dictionary.num args))%nat).
  { apply (f_equal length) in Hrest.
    rewrite length_fmap, length_map, length_seq, length_app in Hrest. lia. }
  assert (Ht : t = (fun i => Imwrite (marker_file i) (written i))
                     <$> map Z.of_nat (seq 0 (length t))).
  { rewrite <- (take_app_length t rest) at 1. rewrite <- Hrest.
    rewrite <- fmap_take. f_equal.
    change (map Z.of_nat) with (fmap (M := list) Z.of_nat).
    rewrite <- fmap_take, take_seq, Nat.min_l by exact Hlen. reflexivity. }
  split; [exact Hlen|]. split.
  - rewrite Ht at 1. rewrite written_paths_imwrite.
    change (map Z.of_nat) with (fmap (M := list) Z.of_nat).
    rewrite <- list_fmap_compose. reflexivity.
  - intros Hn. destruct t as [|e t]; [reflexivity|]. cbn in Hlen. lia.
Qed.

End Script_further.

(** ** File names of the marker generator *)

Lemma pretty_N_char_code (x : N) :
  (x < 10)%N -> Z.of_nat (nat_of_ascii (pretty_N_char x)) - 48 = Z.of_N x.
Proof.
  intros Hx.
  assert (x = 0 \/ x = 1 \/ x = 2 \/ x = 3 \/ x = 4 \/ x = 5 \/ x = 6 \/ x = 7
          \/ x = 8 \/ x = 9)%N as H by lia.
  repeat destruct H as [->|H]; try subst x; reflexivity.
Qed.

(** The digits that [str] puts before [s] are read back as the number. *)
Lemma decode_pretty_N_go (x : N) (s : string) :
  decode_from 0 (pretty_N_go x s) = decode_from (Z.of_N x) s.
Proof.
  revert s. induction (N.lt_wf_0 x) as [x _ IH]. intros s.
  assert (x = 0 \/ 0 < x)%N as [->|Hx] by lia.
  - rewrite pretty_N_go_0. reflexivity.
  - rewrite pretty_N_go_step by exact Hx.
    rewrite IH by (apply N.div_lt; lia).
    unfold decode_from. cbn [list_ascii_of_string fold_left].
    rewrite pretty_N_char_code by (apply N.mod_lt; lia).
    f_equal. rewrite N2Z.inj_div, N2Z.inj_mod.
    change (Z.of_N 10) with 10. pose proof (Z.div_mod (Z.of_N x) 10). lia.
Qed.

Lemma decode_str (i : Z) : 0 <= i -> decode_digits (str i) = i.
Proof.
  intros Hi. unfold str, pretty, pretty_Z.
  destruct i as [|p|p]; [reflexivity| |lia].
  unfold pretty, pretty_positive, pretty, pretty_N.
  destruct (decide (N.pos p = 0%N)) as [H|_]; [discriminate|].
  change (decode_digits ?s) with (decode_from 0 s).
  rewrite decode_pretty_N_go. reflexivity.
Qed.

Lemma list_ascii_of_string_app (s t : string) :
  list_ascii_of_string (s +:+ t) = list_ascii_of_string s ++ list_ascii_of_string t.
Proof. induction s as [|c s IH]; [reflexivity|]. simpl. f_equal. exact IH. Qed.

(** Leading zeros do not change the number read. *)
Lemma decode_zeros (n : nat) (s : string) :
  decode_digits (String.concat "" (replicate n "0") +:+ s) = decode_digits s.
Proof.
  induction n as [|n IH]; [reflexivity|].
  destruct n as [|n]; [reflexivity|].
  cbn [replicate String.concat] in *.
  change ("0" +:+ ?s) with (String "0" s) in *.
  cbn [String.append] in *. unfold decode_digits in *.
  cbn [list_ascii_of_string fold_left]. exact IH.
Qed.

Lemma decode_format_04d (i : Z) :
  0 <= i -> decode_digits (Aruco_generate_custom_dictionary.format_04d i) = i.
Proof.
  intros Hi. unfold Aruco_generate_custom_dictionary.format_04d. cbv zeta.
  rewrite decode_zeros. apply decode_str, Hi.
Qed.

Lemma substring_prefix (s t : string) :
  String.substring 0 (String.length s) (s +:+ t) = s.
Proof. induction s as [|c s IH]; [destruct t; reflexivity|]. simpl. f_equal. exact IH. Qed.

Lemma length_append (s t : string) :
  String.length (s +:+ t) = (String.length s + String.length t)%nat.
Proof. induction s as [|c s IH]; [reflexivity|]. simpl. f_equal. exact IH. Qed.

Lemma marker_file_length (i : Z) :
  String.length (marker_file i)
  = (String.length (Aruco_generate_custom_dictionary.format_04d i) + 11)%nat.
Proof.
  unfold marker_file. rewrite !length_append.
  change (String.length "marker_") with 7%nat.
  change (String.length ".png") with 4%nat. lia.
Qed.

(** The digits of a marker file name, cut out of it. *)
Lemma marker_file_digits (i : Z) :
  file_digits (marker_file i) = Aruco_generate_custom_dictionary.format_04d i.
Proof.
  unfold file_digits. rewrite marker_file_length.
  replace (_ + 11 - 11)%nat
    with (String.length (Aruco_generate_custom_dictionary.format_04d i)) by lia.
  unfold marker_file.
  change (String.substring 7 ?n ("marker_" +:+ ?s)) with (String.substring 0 n s).
  apply substring_prefix.
Qed.

Lemma pretty_N_char_digit (x : N) : is_decimal_digit (pretty_N_char x) = true.
Proof. destruct x as [|p]; [reflexivity|]. do 4 (destruct p as [p|p|]; try reflexivity). Qed.

Lemma pretty_N_go_digits (x : N) (s : string) :
  Forall (fun c => is_decimal_digit c = true) (list_ascii_of_string s) ->
  Forall (fun c => is_decimal_digit c = true) (list_ascii_of_string (pretty_N_go x s)).
Proof.
  revert s. induction (N.lt_wf_0 x) as [x _ IH]. intros s Hs.
  assert (x = 0 \/ 0 < x)%N as [->|Hx] by lia.
  - rewrite pretty_N_go_0. exact Hs.
  - rewrite pretty_N_go_step by exact Hx.
    apply IH; [apply N.div_lt; lia|].
    cbn [list_ascii_of_string]. constructor; [apply pretty_N_char_digit|exact Hs].
Qed.

(** The number of digits [str] writes. *)
Lemma pretty_N_go_length (x : N) (s : string) :
  (0 < x)%N ->
  exists m : nat,
    String.length (pretty_N_go x s) = (String.length s + S m)%nat /\
    10 ^ Z.of_nat m <= Z.of_N x < 10 ^ Z.of_nat (S m).
Proof.
  revert s. induction (N.lt_wf_0 x) as [x _ IH]. intros s Hx.
  rewrite pretty_N_go_step by exact Hx.
  destruct (N.eq_0_gt_0_cases (x `div` 10)) as [Hz|Hpos].
  - rewrite Hz, pretty_N_go_0. exists 0%nat. cbn [String.length].
    split; [lia|]. apply N.div_small_iff in Hz; [|lia].
    change (10 ^ Z.of_nat 0) with 1. change (10 ^ Z.of_nat 1) with 10. lia.
  - destruct (IH (x `div` 10)%N (N.div_lt x 10 Hx eq_refl)
                (String (pretty_N_char (x `mod` 10)) s) Hpos) as (m & Hlen & Hlo & Hhi).
    exists (S m). cbn [String.length] in Hlen. split; [lia|].
    rewrite N2Z.inj_div in Hlo, Hhi. change (Z.of_N 10) with 10 in *.
    rewrite !Nat2Z.inj_succ, !Z.pow_succ_r in * by lia.
    pose proof (Z.div_mod (Z.of_N x) 10 ltac:(lia)) as Hdm.
    pose proof (Z.mod_pos_bound (Z.of_N x) 10 ltac:(lia)) as Hmod.
    lia.
Qed.

Lemma str_digits (i : Z) :
  0 <= i -> Forall (fun c => is_decimal_digit c = true) (list_ascii_of_string (str i)).
Proof.
  intros Hi. unfold str, pretty, pretty_Z.
  destruct i as [|p|p]; [repeat constructor| |lia].
  unfold pretty, pretty_positive, pretty, pretty_N.
  destruct (decide (N.pos p = 0%N)) as [H|_]; [discriminate|].
  apply pretty_N_go_digits. constructor.
Qed.

Lemma str_length (i : Z) :
  0 < i ->
  exists m : nat,
    String.length (str i) = S m /\ 10 ^ Z.of_nat m <= i < 10 ^ Z.of_nat (S m).
Proof.
  intros Hi. unfold str, pretty, pretty_Z.
  destruct i as [|p|p]; [lia| |lia].
  unfold pretty, pretty_positive, pretty, pretty_N.
  destruct (decide (N.pos p = 0%N)) as [H|_]; [discriminate|].
  destruct (pretty_N_go_length (N.pos p) "" ltac:(lia)) as (m & Hlen & Hb).
  exists m. split; [exact Hlen|exact Hb].
Qed.

(** The padding: [n] zeros. *)
Lemma zeros_spec (n : nat) :
  list_ascii_of_string (String.concat "" (replicate n "0")) = replicate n "0"%char.
Proof.
  induction n as [|n IH]; [reflexivity|].
  destruct n as [|n]; [reflexivity|].
  cbn [replicate String.concat] in *.
  change ("0" +:+ ?s) with (String "0" s). cbn [String.append list_ascii_of_string].
  f_equal. exact IH.
Qed.

Lemma format_04d_digits (i : Z) :
  0 <= i ->
  Forall (fun c => is_decimal_digit c = true) (list_ascii_of_string (Aruco_generate_custom_dictionary.format_04d i)).
Proof.
  intros Hi. unfold Aruco_generate_custom_dictionary.format_04d. cbv zeta.
  rewrite list_ascii_of_string_app, zeros_spec. apply Forall_app. split.
  - apply Forall_forall. intros c Hc. apply elem_of_replicate in Hc as [-> _]. reflexivity.
  - apply str_digits, Hi.
Qed.

Lemma string_length_list (s : string) :
  String.length s = length (list_ascii_of_string s).
Proof. induction s as [|c s IH]; [reflexivity|]. cbn. f_equal. exact IH. Qed.

Lemma format_04d_length (i : Z) :
  0 <= i ->
  (i < 10000 -> String.length (Aruco_generate_custom_dictionary.format_04d i) = 4%nat) /\
  (10000 <= i -> 10 ^ (Z.of_nat (String.length (Aruco_generate_custom_dictionary.format_04d i)) - 1) <= i).
Proof.
  intros Hi. unfold Aruco_generate_custom_dictionary.format_04d. cbv zeta.
  rewrite length_append, (string_length_list (String.concat _ _)), zeros_spec,
    length_replicate.
  assert (i = 0 \/ 0 < i) as [->|Hpos] by lia.
  { split; [reflexivity|lia]. }
  destruct (str_length i Hpos) as (m & -> & Hlo & Hhi).
  split.
  - intros Hlt. assert (m < 4)%nat; [|lia].
    apply Nat.lt_nge. intros Hm.
    assert (10 ^ 4 <= 10 ^ Z.of_nat m) by (apply Z.pow_le_mono_r; lia).
    change (10 ^ 4) with 10000 in *. lia.
  - intros Hge. assert (4 <= m)%nat.
    { apply Nat.le_ngt. intros Hm.
      assert (10 ^ Z.of_nat (S m) <= 10 ^ 4) by (apply Z.pow_le_mono_r; lia).
      change (10 ^ 4) with 10000 in *. lia. }
    replace (Z.of_nat (4 - S m + S m) - 1) with (Z.of_nat m) by lia. exact Hlo.
Qed.

Lemma marker_number_of_file (i : Z) :
  0 <= i -> decode_digits (file_digits (marker_file i)) = i.
Proof. intros Hi. rewrite marker_file_digits. apply decode_format_04d, Hi. Qed.

(** X19.  The file name of marker i, for every i from 0 on, is "marker_",
    then decimal digits, then ".png": the digits are characters 0 to 9 and
    nothing else, their value is i, and there are exactly four of them
    below 10000 (zeros in front) and no zero in front from 10000 on. *)
Theorem marker_file_round_trip (i : Z) :
  0 <= i ->
  let digits := file_digits (marker_file i) in
  marker_file i = "marker_" +:+ digits +:+ ".png" /\
  Forall (fun c => is_decimal_digit c = true) (list_ascii_of_string digits) /\
  decode_digits digits = i /\
  (i < 10000 -> String.length digits = 4%nat) /\
  (10000 <= i -> 10 ^ (Z.of_nat (String.length digits) - 1) <= i).
Proof.
  intros Hi digits. subst digits. rewrite marker_file_digits.
  split; [reflexivity|]. split; [apply format_04d_digits, Hi|].
  split; [apply decode_format_04d, Hi|]. apply format_04d_length, Hi.
Qed.

Lemma marker_file_inj (i j : Z) :
  0 <= i -> 0 <= j -> marker_file i = marker_file j -> i = j.
Proof.
  intros Hi Hj Heq.
  rewrite <- (marker_number_of_file i Hi), <- (marker_number_of_file j Hj), Heq.
  reflexivity.
Qed.

(** X20.  A run of the marker generator writes pairwise different files,
    however many markers are asked for: no marker image overwrites
    another. *)
Theorem marker_files_are_distinct
    `{cv2 : Cv2} (args : Aruco_generate_custom_dictionary.Namespace) :
  NoDup (written_paths (trace (Aruco_generate_custom_dictionary.main args))).
Proof.
  destruct (marker_main_trace args) as [written ->].
  cbn [trace fst]. rewrite written_paths_imwrite.
  assert (Hrange : forall x,
            x ∈ Aruco_generate_custom_dictionary.range
                  (Aruco_generate_custom_dictionary.num args) ->
            0 <= x).
  { intros x Hx. unfold Aruco_generate_custom_dictionary.range in Hx.
    apply list_elem_of_In, in_map_iff in Hx as (k & <- & Hk). lia. }
  apply NoDup_fmap_2_strong.
  - intros i j Hi Hj Heq. apply Hrange in Hi, Hj.
    exact (marker_file_inj i j Hi Hj Heq).
  - unfold Aruco_generate_custom_dictionary.range.
    apply (NoDup_fmap_2_strong Z.of_nat); [intros x y _ _; lia|]. apply NoDup_seq.
Qed.

(** ** The further properties at concrete inputs *)

Lemma custom_dictionary_witness :
  parameter_value custom_overrides "aruco_dictionary_id"
    = Some (get_parameter_value (PyStr "CUSTOM")) /\
  trace (@Aruco_node.__init__ two_markers custom_overrides) = [] /\
  (forall self,
     result (@Aruco_node.__init__ two_markers custom_overrides) = inr self ->
     Aruco_node.aruco_dictionary self = @Dictionary_create two_markers 100 6 1) /\
  (false = false ->
   exists self, result (@Aruco_node.__init__ two_markers custom_overrides) = inr self).
Proof.
  split; [vm_compute; reflexivity|].
  apply (@custom_dictionary_from_parameters two_markers custom_overrides
           (get_parameter_value (PyStr "CUSTOM")) (get_parameter_value (PyInt 100))
           (get_parameter_value (PyInt 6)) (get_parameter_value (PyInt 1))
           (get_parameter_value (PyBool false)));
    vm_compute; reflexivity.
Defined.

Lemma known_dictionary_name_witness :
  @__getattribute__ two_markers "DICT_5X5_250" = inr (AInt 6) /\
  trace (@Aruco_node.__init__ two_markers ∅) = [] /\
  (forall e, @Dictionary_get two_markers (AInt 6) = inl e ->
             result (@Aruco_node.__init__ two_markers ∅) = inl e) /\
  (forall self, result (@Aruco_node.__init__ two_markers ∅) = inr self ->
                @Dictionary_get two_markers (AInt 6)
                = inr (Aruco_node.aruco_dictionary self)).
Proof.
  split; [reflexivity|].
  apply (@known_dictionary_name_is_fetched two_markers ∅
           (get_parameter_value (PyStr "DICT_5X5_250")) (AInt 6) (AInt 5));
    first [discriminate | vm_compute; reflexivity].
Defined.

Lemma wrong_type_dictionary_name_witness :
  let overrides : gmap string PyValue :=
    {["aruco_dictionary_id" := PyStr "Dictionary_get"]} in
  @__getattribute__ two_markers "Dictionary_get" = inr AFunction /\
  trace (@Aruco_node.__init__ two_markers overrides)
    = @bad_dictionary_log two_markers "Dictionary_get" /\
  (forall e, @Dictionary_get two_markers AFunction = inl e ->
             result (@Aruco_node.__init__ two_markers overrides) = inl e) /\
  (forall self, result (@Aruco_node.__init__ two_markers overrides) = inr self ->
                @Dictionary_get two_markers AFunction
                = inr (Aruco_node.aruco_dictionary self)).
Proof.
  split; [reflexivity|].
  apply (@wrong_type_dictionary_name_is_logged_and_used two_markers
           {["aruco_dictionary_id" := PyStr "Dictionary_get"]}
           (get_parameter_value (PyStr "Dictionary_get")) AFunction (AInt 5));
    first [discriminate | vm_compute; reflexivity].
Defined.

Lemma init_logs_witness :
  let overrides : gmap string PyValue :=
    {["aruco_dictionary_id" := PyStr "DICT_BOGUS"]} in
  (trace (@Aruco_node.__init__ two_markers overrides) = [] \/
   trace (@Aruco_node.__init__ two_markers overrides)
     = @bad_dictionary_log two_markers "DICT_BOGUS") /\
  ("DICT_BOGUS" = "CUSTOM" -> trace (@Aruco_node.__init__ two_markers overrides) = []).
Proof.
  apply (@init_logs_only_the_bad_dictionary_name two_markers
           {["aruco_dictionary_id" := PyStr "DICT_BOGUS"]}
           (get_parameter_value (PyStr "DICT_BOGUS"))).
  vm_compute. reflexivity.
Defined.

Example init_subpix :
  exists self,
    @Aruco_node.__init__ two_markers subpix_overrides = ([], inr self) /\
    Aruco_node.aruco_parameters self = {| cornerRefinementMethod := 1 |}.
Proof. eexists. split; vm_compute; reflexivity. Qed.

Lemma corner_refinement_witness :
  exists self,
    @Aruco_node.__init__ two_markers subpix_overrides = ([], inr self) /\
    (true = false ->
     Aruco_node.aruco_parameters self = @DetectorParameters_create two_markers) /\
    (true = true ->
     let n := cornerRefinementMethod (Aruco_node.aruco_parameters self) in
     0 <= n <= 3 /\
     Aruco_node.corner_refinement_methods !! Z.to_nat n = Some "CORNER_REFINE_SUBPIX").
Proof.
  destruct init_subpix as (self & Hinit & _). exists self.
  split; [exact Hinit|].
  apply (@corner_refinement_method_is_its_position two_markers subpix_overrides []
           self (get_parameter_value (PyBool true))
           (get_parameter_value (PyStr "CORNER_REFINE_SUBPIX")) Hinit);
    vm_compute; reflexivity.
Defined.

Lemma unknown_corner_refinement_witness :
  ("CORNER_REFINE_BEST" ∉ Aruco_node.corner_refinement_methods) /\
  (exists e, result (@Aruco_node.__init__ two_markers bad_refinement_overrides) = inl e) /\
  ("DICT_5X5_250" = "CUSTOM" ->
   exists msg,
     @Aruco_node.__init__ two_markers bad_refinement_overrides
     = ([], inl (ValueError msg))).
Proof.
  assert (Habsent : "CORNER_REFINE_BEST" ∉ Aruco_node.corner_refinement_methods)
    by compute_done.
  split; [exact Habsent|].
  apply (@unknown_corner_refinement_method_raises two_markers bad_refinement_overrides
           (get_parameter_value (PyStr "DICT_5X5_250"))
           (get_parameter_value (PyBool true))
           (get_parameter_value (PyStr "CORNER_REFINE_BEST")));
    first [exact Habsent | vm_compute; reflexivity].
Defined.

Lemma run_ends_witness :
  let run :=
    @Aruco_node.spin two_markers (fixture_bridge two_markers tt)
       fixture_transformations (fixture_node two_markers 6 "" true None)
       [ Aruco_node.CameraInfoEvent "/camera/camera_info" a_camera_info;
         Aruco_node.ImageEvent "/camera/image_raw" an_image ] in
  Aruco_node.crashed run = Some (AttributeError "info") /\
  callback_exception (AttributeError "info") /\
  AttributeError "info" <> AttributeError "br" /\
  AttributeError "info" <> AttributeError "charuco_pose_pub".
Proof.
  intros run.
  assert (Hcrash : Aruco_node.crashed run = Some (AttributeError "info"))
    by (vm_compute; reflexivity).
  split; [exact Hcrash|].
  exact (@run_ends_only_by_callback_exceptions two_markers
           (fixture_bridge two_markers tt) fixture_transformations
           {["publish_tf" := PyBool true]} [] _ _ _ init_publish_tf Hcrash).
Defined.


Lemma images_before_calibration_witness :
  @Aruco_node.spin two_markers (fixture_bridge two_markers tt)
     fixture_transformations (fixture_node two_markers 6 "" false None)
     (Aruco_node.ImageEvent "/camera/image_raw" <$> [an_image; an_image; an_image])
  = {| Aruco_node.effects :=
         replicate 3 (LogWarn "No camera info has been received!");
       Aruco_node.node := fixture_node two_markers 6 "" false None;
       Aruco_node.crashed := None |}.
Proof.
  apply (@images_before_calibration_only_warn two_markers
           (fixture_bridge two_markers tt) fixture_transformations ∅ [] _
           (get_parameter_value (PyStr "/camera/image_raw"))
           [an_image; an_image; an_image] init_default).
  vm_compute. reflexivity.
Defined.

Lemma published_headers_witness :
  let self := fixture_node two_markers 6 "" false None in
  let now :=
    Aruco_node.node
      (@Aruco_node.spin two_markers (fixture_bridge two_markers tt)
         fixture_transformations self
         [Aruco_node.CameraInfoEvent "/camera/camera_info" a_camera_info]) in
  let m := MPoseArray {| pa_header := image_header ""; pa_poses := two_poses |} in
  Publish "aruco_poses" m
    ∈ trace (@Aruco_node.image_callback two_markers (fixture_bridge two_markers tt)
               fixture_transformations now an_image) /\
  "aruco_poses" = "aruco_poses" /\
  image_header "" = {| stamp := stamp (img_header an_image); frame_id := "" |}.
Proof.
  intros self now m.
  assert (Hin : Publish "aruco_poses" m
            ∈ trace (@Aruco_node.image_callback two_markers
                       (fixture_bridge two_markers tt) fixture_transformations
                       now an_image)).
  { change now with (fixture_node two_markers 6 "" false (Some a_camera_info)).
    rewrite two_markers_published. apply list_elem_of_here. }
  split; [exact Hin|].
  assert (Hframe : parameter_value ∅ "camera_frame" = Some (get_parameter_value PyNone))
    by (vm_compute; reflexivity).
  exact (@published_headers_use_camera_frame_parameter two_markers
           (fixture_bridge two_markers tt) fixture_transformations ∅ [] self
           (get_parameter_value PyNone)
           [Aruco_node.CameraInfoEvent "/camera/camera_info" a_camera_info]
           an_image "aruco_poses" m init_default Hframe Hin).
Defined.


Lemma wrong_tuple_length_witness :
  String.ltb "4.0.0" (@__version__ two_valued_estimate) = true /\
  exists msg,
    @Aruco_node.image_callback two_valued_estimate
       (fixture_bridge two_valued_estimate tt) fixture_transformations
       (fixture_node two_valued_estimate 6 "" false (Some a_camera_info)) an_image
    = ([], inl (ValueError msg)).
Proof.
  split; [reflexivity|].
  apply (@wrong_tuple_length_raises_value_error two_valued_estimate
           (fixture_bridge two_valued_estimate tt) fixture_transformations
           (fixture_node two_valued_estimate 6 "" false (Some a_camera_info))
           an_image a_camera_info tt tt [7; 3]); [reflexivity|reflexivity|].
  left. split; [reflexivity|]. eexists _, _. reflexivity.
Defined.

(** The node constructed with [board_overrides], calibrated. *)
Example board_node_callback :
  exists before pose_array markers,
    trace (@Aruco_node.image_callback with_board (fixture_bridge with_board tt)
             fixture_transformations
             (@calibrated with_board
                (@constructed_node with_board board_overrides 6
                   {| cornerRefinementMethod := 0 |}) a_camera_info) an_image)
    = before
        ++ [ Publish "aruco_poses" (MPoseArray pose_array);
             Publish "aruco_markers" (MArucoMarkers markers);
             Publish "charuco_pose"
               (MChArUcoBoard
                  (@board_message with_board fixture_transformations
                     (0.7, 0.8, 0.9)%float (7, 8, 9)%float));
             SendTransform
               {| tf_header := image_header "cam"; child_frame_id := "charuco_board";
                  transform :=
                    {| translation := {| vec_x := 7; vec_y := 8; vec_z := 9 |};
                       rotation := {| quat_x := 0.7; quat_y := 0.8; quat_z := 0.9;
                                      quat_w := 0 |} |} |}%float ].
Proof. eexists [_; _], _, _. vm_compute. reflexivity. Qed.



Lemma transforms_stamped_witness :
  let self := fixture_node two_markers 6 "cam" true (Some a_camera_info) in
  let tf :=
    {| tf_header := image_header "cam"; child_frame_id := "marker_3";
       transform :=
         {| translation := {| vec_x := 4; vec_y := 5; vec_z := 6 |};
            rotation := {| quat_x := 0.4; quat_y := 0.5; quat_z := 0.6;
                           quat_w := 0 |} |} |}%float in
  SendTransform tf
    ∈ trace (@Aruco_node.image_callback two_markers (fixture_bridge two_markers tt)
               fixture_transformations self an_image) /\
  Aruco_node.publish_tf self = true /\
  exists frame,
    Aruco_node.camera_frame self = Some frame /\ frame <> "" /\
    tf_header tf = {| stamp := stamp (img_header an_image); frame_id := frame |}.
Proof.
  intros self tf.
  assert (Hin : SendTransform tf
            ∈ trace (@Aruco_node.image_callback two_markers
                       (fixture_bridge two_markers tt) fixture_transformations
                       self an_image)).
  { subst self tf. rewrite two_markers_broadcast.
    apply list_elem_of_further, list_elem_of_here. }
  split; [exact Hin|].
  destruct (@transforms_are_stamped_and_framed two_markers
              (fixture_bridge two_markers tt) fixture_transformations
              self an_image tf Hin) as (Htf & frame & Hf & Hne & Hh & _).
  split; [exact Htf|]. exists frame. auto.
Defined.

Lemma marker_transforms_witness :
  let self := fixture_node two_markers 6 "cam" true (Some a_camera_info) in
  let markers :=
    {| am_header := image_header "cam"; marker_ids := [7; 3]; am_poses := two_poses |} in
  let published :=
    trace (@Aruco_node.image_callback two_markers (fixture_bridge two_markers tt)
             fixture_transformations self an_image) in
  Aruco_node.publish_tf self = true /\
  Publish "aruco_markers" (MArucoMarkers markers) ∈ published /\
  exists tfs pose_array rest,
    published
    = (SendTransform <$> tfs)
        ++ Publish "aruco_poses" (MPoseArray pose_array)
        :: Publish "aruco_markers" (MArucoMarkers markers)
        :: rest /\
    length tfs = 2%nat /\
    Forall3 transform_of_pose tfs [7; 3] two_poses.
Proof.
  intros self markers published.
  assert (Hin : Publish "aruco_markers" (MArucoMarkers markers) ∈ published).
  { subst published self markers. rewrite two_markers_broadcast.
    do 3 apply list_elem_of_further. apply list_elem_of_here. }
  split; [reflexivity|]. split; [exact Hin|].
  exact (@marker_transforms_precede_and_match_messages two_markers
           (fixture_bridge two_markers tt) fixture_transformations
           self an_image "aruco_markers" markers eq_refl Hin).
Defined.


(** The script on three command lines: an unknown dictionary, a known one,
    none. *)
Example run_bogus_dictionary :
  @Charuco_generate_board.run two_markers fixture_os_path bogus_command_line
  = ([], inl (SystemExit 2)).
Proof. vm_compute. reflexivity. Qed.

Example run_small_dictionary :
  @Charuco_generate_board.run two_markers fixture_os_path small_dictionary_command_line
  = ([ Draw (2100, 1000); Imwrite "./checkerboard.tiff" true;
       Stdout "Succesfully wrote checkerboard to /tmp/./checkerboard.tiff" ],
     inr tt).
Proof. vm_compute. reflexivity. Qed.

Example run_empty_command_line :
  @Charuco_generate_board.run read_only fixture_os_path empty_command_line
  = ([ Draw (2100, 1500); Imwrite "./checkerboard.tiff" false;
       Stdout "Failed to write checkerboard to /tmp/./checkerboard.tiff" ],
     inr tt).
Proof. vm_compute. reflexivity. Qed.

Example board_generator_success :
  @Charuco_generate_board.main two_markers fixture_os_path board_args
  = ([ Draw (2100, 1000); Imwrite "./checkerboard.tiff" true;
       Stdout "Succesfully wrote checkerboard to /tmp/./checkerboard.tiff" ],
     inr tt).
Proof. reflexivity. Qed.

Lemma board_generator_reports_witness :
  let t :=
    [ Draw (2100, 1000); Imwrite "./checkerboard.tiff" true;
      Stdout "Succesfully wrote checkerboard to /tmp/./checkerboard.tiff" ] in
  done_by (@Charuco_generate_board.main two_markers fixture_os_path board_args) t /\
  (forall file written, Imwrite file written ∈ t -> file = "./checkerboard.tiff") /\
  (length (written_paths t) <= 1)%nat /\
  (forall line,
     Stdout line ∈ t ->
     exists size written,
       t = [Draw size; Imwrite "./checkerboard.tiff" written; Stdout line] /\
       line = (if written then "Succesfully wrote checkerboard to "
               else "Failed to write checkerboard to ")
              +:+ "/tmp/./checkerboard.tiff").
Proof.
  intros t.
  assert (Hdone : done_by (@Charuco_generate_board.main two_markers fixture_os_path
                             board_args) t).
  { exists []. reflexivity. }
  split; [exact Hdone|].
  exact (@board_generator_reports_what_imwrite_returned two_markers fixture_os_path
           board_args (AInt 6) 6 t eq_refl eq_refl Hdone).
Defined.

Lemma marker_generator_in_order_witness :
  let args :=
    {| Aruco_generate_custom_dictionary.size := 200;
       Aruco_generate_custom_dictionary.num := 3;
       Aruco_generate_custom_dictionary.bits := 6;
       Aruco_generate_custom_dictionary.seed := 0 |} in
  let t := [Imwrite "marker_0000.png" false; Imwrite "marker_0001.png" false] in
  done_by (@Aruco_generate_custom_dictionary.main read_only args) t /\
  (length t <= 3)%nat /\
  written_paths t = [marker_file 0; marker_file 1].
Proof.
  intros args t.
  assert (Hdone : done_by (@Aruco_generate_custom_dictionary.main read_only args) t).
  { exists [Imwrite "marker_0002.png" false]. reflexivity. }
  split; [exact Hdone|].
  destruct (@marker_generator_writes_files_in_order read_only args t Hdone)
    as (Hlen & Hpaths & _).
  split; [exact Hlen|exact Hpaths].
Defined.

Lemma marker_file_round_trip_witness :
  marker_file 42 = "marker_0042.png" /\
  file_digits (marker_file 42) = "0042" /\
  Forall (fun c => is_decimal_digit c = true)
    (list_ascii_of_string (file_digits (marker_file 42))) /\
  decode_digits (file_digits (marker_file 42)) = 42 /\
  (42 < 10000 -> String.length (file_digits (marker_file 42)) = 4%nat).
Proof.
  split; [reflexivity|]. split; [reflexivity|].
  assert (Hi : 0 <= 42) by lia.
  destruct (marker_file_round_trip 42 Hi) as (_ & Hdigits & Hvalue & Hlen & _).
  split; [exact Hdigits|]. split; [exact Hvalue|exact Hlen].
Defined.

Example marker_file_five_digits : marker_file 12345 = "marker_12345.png".
Proof. reflexivity. Qed.

Example three_markers_written :
  trace (@Aruco_generate_custom_dictionary.main read_only
           {| Aruco_generate_custom_dictionary.size := 200;
              Aruco_generate_custom_dictionary.num := 3;
              Aruco_generate_custom_dictionary.bits := 6;
              Aruco_generate_custom_dictionary.seed := 0 |})
  = [ Imwrite "marker_0000.png" false; Imwrite "marker_0001.png" false;
      Imwrite "marker_0002.png" false ].
Proof. reflexivity. Qed.
